(** * hmc_profile_diff: a shallow embedding of the HMC profile comparison tool

    The development follows the two source files:
    - [common/hmc_lpar_attribs.py]: the [HMC] class (logon, logoff, cleanup,
      check_connected, get_lpar_config);
    - [hmc_profile_diff.py]: the per-pair script (host failover loop,
      return-code handling, key padding, [samevalues], the table loop).

    Python values are modelled as they occur in the code: a dictionary is a
    finite map from strings, an attribute value is [None] or a [str], a
    raised exception or a [sys.exit] ends the computation with the matching
    outcome.  Debug logging and debug file dumps ([if self.debug]) have no
    effect on any value computed below and are left out. *)

From Stdlib Require Import ZArith String Ascii List Lia.
From stdpp Require Import base option list sorting gmap sets strings pretty.

Open Scope string_scope.
Open Scope Z_scope.

(** ** Python runtime: exceptions and outcomes *)

Inductive exn : Type :=
  | AttributeError
  | IndexError
  | KeyError
  | ParseError.

(** [Exit c] is [sys.exit(c)]; [sys.exit()] carries no code. *)
Inductive outcome (A : Type) : Type :=
  | Ok (a : A)
  | Exit (code : option Z)
  | Raise (e : exn).
Arguments Ok {A} a.
Arguments Exit {A} code.
Arguments Raise {A} e.

#[export] Instance outcome_ret : MRet outcome := λ A a, Ok a.
#[export] Instance outcome_bind : MBind outcome := λ A B k m,
  match m with
  | Ok a => k a
  | Exit c => Exit c
  | Raise e => Raise e
  end.
#[export] Instance outcome_fmap : FMap outcome := λ A B f m,
  match m with
  | Ok a => Ok (f a)
  | Exit c => Exit c
  | Raise e => Raise e
  end.

(** ** Python strings *)

Module Str.

(** [s.startswith(p)] *)
Definition startswith (s p : string) : bool := String.prefix p s.

(** First occurrence of [sep]: the text before it and the text after it. *)
Fixpoint partition (sep : ascii) (s : string) : option (string * string) :=
  match s with
  | EmptyString => None
  | String c s' =>
      if Ascii.eqb c sep then Some (EmptyString, s')
      else match partition sep s' with
           | Some (a, b) => Some (String c a, b)
           | None => None
           end
  end.

(** Last occurrence of [sep]. *)
Fixpoint rpartition (sep : ascii) (s : string) : option (string * string) :=
  match s with
  | EmptyString => None
  | String c s' =>
      match rpartition sep s' with
      | Some (a, b) => Some (String c a, b)
      | None => if Ascii.eqb c sep then Some (EmptyString, s') else None
      end
  end.

(** [s.split(sep, 1)] *)
Definition split1 (sep : ascii) (s : string) : list string :=
  match partition sep s with
  | Some (a, b) => [a; b]
  | None => [s]
  end.

(** [s.rsplit(sep, 1)] *)
Definition rsplit1 (sep : ascii) (s : string) : list string :=
  match rpartition sep s with
  | Some (a, b) => [a; b]
  | None => [s]
  end.

(** [s.split(sep)] *)
Fixpoint split (sep : ascii) (s : string) : list string :=
  match s with
  | EmptyString => [EmptyString]
  | String c s' =>
      if Ascii.eqb c sep then EmptyString :: split sep s'
      else match split sep s' with
           | w :: ws => String c w :: ws
           | [] => [String c EmptyString]
           end
  end.

(** [sep not in s] *)
Fixpoint lacks (sep : ascii) (s : string) : bool :=
  match s with
  | EmptyString => true
  | String c s' => negb (Ascii.eqb c sep) && lacks sep s'
  end.

(** [xml.sax.saxutils.escape] *)
Fixpoint escape (s : string) : string :=
  match s with
  | EmptyString => EmptyString
  | String c s' =>
      (if Ascii.eqb c "&" then "&amp;"
       else if Ascii.eqb c ">" then "&gt;"
       else if Ascii.eqb c "<" then "&lt;"
       else String c EmptyString) ++ escape s'
  end.

End Str.

(** [l[i]] on a list: [IndexError] out of range. *)
Definition list_item {A} (l : list A) (i : nat) : outcome A :=
  match l !! i with
  | Some x => Ok x
  | None => Raise IndexError
  end.

(** ** Attribute records *)

(** An attribute value is what [Element.text] gives: [None] or a [str]. *)
Definition value : Type := option string.

Abbreviation dict := (gmap string value).

(** [d[k]] *)
Definition getitem (d : dict) (k : string) : outcome value :=
  match d !! k with
  | Some v => Ok v
  | None => Raise KeyError
  end.

(** How an f-string renders a value. *)
Definition fmt (v : value) : string :=
  match v with
  | Some s => s
  | None => "None"
  end.

(** ** hmc_profile_diff.py: padding, samevalues and the table loop *)

Module Diff.

(** The two script variables holding the records being compared.  Each
    dictionary is created by its own call of [get_lpar_config] and is
    referenced by one variable only, so an assignment [lpar1_data[k] = v]
    is an update of the field. *)
Record records : Type := Records {
  lpar1_data : dict;
  lpar2_data : dict;
}.

Definition missing : value := Some "missing".

(** [allkeys = lpar1_keys | lpar2_keys] *)
Definition allkeys (st : records) : gset string :=
  dom (lpar1_data st) ∪ dom (lpar2_data st).

(** Body of the padding loop, for one key. *)
Definition pad_key (st : records) (k : string) : records :=
  let st1 :=
    if decide (k ∈ dom (lpar1_data st)) then st
    else Records (<[k := missing]> (lpar1_data st)) (lpar2_data st) in
  if decide (k ∈ dom (lpar2_data st1)) then st1
  else Records (lpar1_data st1) (<[k := missing]> (lpar2_data st1)).

(** [for k in allkeys: ...], for the order [ks] in which the set is
    enumerated. *)
Definition pad_loop (ks : list string) (st : records) : records :=
  foldl pad_key st ks.

Definition pad_missing (st : records) : records :=
  pad_loop (elements (allkeys st)) st.

(** [[k for k in lpar1_data if lpar1_data[k] == lpar2_data[k]]], over the
    keys [ks] of [lpar1_data].  The list is only ever used for membership
    tests, so the enumeration order of the dictionary does not matter. *)
Fixpoint samevalues_of (ks : list string) (d1 d2 : dict) : outcome (list string) :=
  match ks with
  | [] => Ok []
  | k :: ks' =>
      v1 ← getitem d1 k;
      v2 ← getitem d2 k;
      rest ← samevalues_of ks' d1 d2;
      Ok (if bool_decide (v1 = v2) then k :: rest else rest)
  end.

Definition samevalues (st : records) : outcome (list string) :=
  samevalues_of (elements (dom (lpar1_data st))) (lpar1_data st) (lpar2_data st).

Definition primarykeys : list string :=
  ["General"; "Processor"; "Memory"; "Network"; "vFC"; "vSCSI"].

Definition adapter_groups : list string := ["Network"; "vFC"; "vSCSI"].

(** Rich markup: [f'[red]{v}[/red]'] *)
Definition markup (colour : string) (v : value) : string :=
  "[" ++ colour ++ "]" ++ fmt v ++ "[/" ++ colour ++ "]".

(** One [difftable.add_row(...)] call. *)
Record row : Type := Row {
  attribute : string;
  value1 : string;
  value2 : string;
}.

(** A row is styled green when matched and red otherwise. *)
Definition matched (r : row) : bool := String.prefix "[green]" (value1 r).

Definition k_printname (primarykey k : string) : outcome string :=
  if bool_decide (primarykey ∈ adapter_groups)
  then list_item (Str.split1 "_" k) 1
  else list_item (Str.rsplit1 "_" k) 1.

Definition coloured_row (colour name : string) (st : records) (k : string)
  : outcome row :=
  v1 ← getitem (lpar1_data st) k;
  v2 ← getitem (lpar2_data st) k;
  Ok (Row name (markup colour v1) (markup colour v2)).

(** Body of the inner loop for a key [k] that starts with [primarykey]:
    the rows added, each with the key it was added for. *)
Definition add_rows (diffonly : bool) (same : list string) (st : records)
    (primarykey k : string) : outcome (list (string * row)) :=
  name ← k_printname primarykey k;
  if diffonly then
    if bool_decide (k ∉ same)
    then r ← coloured_row "red" name st k; Ok [(k, r)]
    else Ok []
  else
    if bool_decide (k ∈ same)
    then r ← coloured_row "green" name st k; Ok [(k, r)]
    else r ← coloured_row "red" name st k; Ok [(k, r)].

(** A [for] loop whose body appends to the table and may raise. *)
Fixpoint for_each {A B} (f : A → outcome (list B)) (l : list A) : outcome (list B) :=
  match l with
  | [] => Ok []
  | x :: l' =>
      r ← f x;
      rs ← for_each f l';
      Ok (r ++ rs)%list
  end.

(** [sorted(allkeys)]: ascending in the order of [str]. *)
Definition sorted (s : gset string) : list string :=
  merge_sort String.le (elements s).

Definition table_loop (diffonly : bool) (same : list string) (keys : gset string)
    (st : records) : outcome (list (string * row)) :=
  for_each (λ primarykey,
    for_each (λ k,
      if Str.startswith k primarykey
      then add_rows diffonly same st primarykey k
      else Ok []) (sorted keys)) primarykeys.

(** Lines 142-176 for one pair: the rows of [difftable] with their keys,
    and the records as the step leaves them. *)
Definition compare_keyed (diffonly : bool) (st : records)
  : outcome (list (string * row)) * records :=
  let keys := allkeys st in
  let st' := pad_missing st in
  (same ← samevalues st'; table_loop diffonly same keys st', st').

Definition compare (diffonly : bool) (st : records) : outcome (list row) * records :=
  let '(t, st') := compare_keyed diffonly st in (map snd <$> t, st').

End Diff.


(** ** xml.etree.ElementTree *)

Module ET.

#[warnings="-register-all"]
Inductive Element : Type := Elem {
  tag : string;
  attrib : gmap string string;
  text : value;
  children : list Element;
}.

(** The namespace map [ns] of [get_lpar_config]: a path step [ns1:name]
    selects the elements whose tag is the qualified name. *)
Definition ns1 (name : string) : string :=
  "{http://www.ibm.com/xmlns/systems/power/firmware/uom/mc/2012_10/}" ++ name.

(** All elements below [e], in document order. *)
Fixpoint descendants (e : Element) : list Element :=
  flat_map (λ c, c :: descendants c) (children e).

Definition named (name : string) (l : list Element) : list Element :=
  filter (λ c, tag c = ns1 name) l.

(** [e.findall('.//ns1:name', ns)] *)
Definition findall_deep (name : string) (e : Element) : list Element :=
  named name (descendants e).

(** [e.find('.//ns1:name', ns)] *)
Definition find_deep (name : string) (e : Element) : option Element :=
  head (findall_deep name e).

(** [e.find('ns1:name', ns)] *)
Definition find (name : string) (e : Element) : option Element :=
  head (named name (children e)).

End ET.

(** ** requests *)

Module Requests.

Inductive verb : Type := GET | PUT | DELETE.

Record request : Type := Request {
  method : verb;
  url : string;
  headers : list (string * value);
  data : option string;
}.

Record response : Type := Response {
  status_code : Z;
  text : string;
}.

End Requests.

(** ** config/config.yaml *)

Module Cfg.

Record config : Type := Config {
  ssl_verify : bool;
  debug : bool;
  compare_general : bool;
  compare_processors : bool;
  compare_memory : bool;
  compare_networking : bool;
  compare_virtual_fc : bool;
  compare_virtual_scsi : bool;
}.

End Cfg.

(** What [get_lpar_config] returns and what the script variables hold:
    [None], a return code, or the attribute dictionary. *)
Inductive pyval : Type :=
  | PyNone
  | PyInt (n : Z)
  | PyDict (d : dict).

(** [isinstance(v, dict)] *)
Definition is_dict (v : pyval) : bool :=
  match v with
  | PyDict _ => true
  | _ => false
  end.

(** ** common/hmc_lpar_attribs.py: class HMC *)

Module Hmc.

(** The instance attributes set by [__init__]. *)
Record HMC : Type := Obj {
  hmc_name : string;
  token : value;
  ssl_verify : bool;
  debug : bool;
  connected : bool;
}.

(** The process state the class acts on: the [HMC] instances created so
    far (a reference is the position in [objects]), the outbound requests
    in the order they were sent, the lines printed on the console, and the
    instances whose [cleanup] is registered with [atexit]. *)
Record world : Type := World {
  objects : list HMC;
  requests : list Requests.request;
  console : list string;
  atexit : list nat;
}.

Definition M (A : Type) : Type := world → outcome A * world.

#[export] Instance M_ret : MRet M := λ A a w, (Ok a, w).
#[export] Instance M_bind : MBind M := λ A B k m w,
  match m w with
  | (Ok a, w') => k a w'
  | (Exit c, w') => (Exit c, w')
  | (Raise e, w') => (Raise e, w')
  end.

Definition lift {A} (o : outcome A) : M A := λ w, (o, w).

(** [sys.exit(code)] *)
Definition sys_exit {A} (code : option Z) : M A := lift (Exit code).

(** [console.print(msg)] *)
Definition console_print (msg : string) : M unit := λ w,
  (Ok tt, World (objects w) (requests w) (console w ++ [msg]) (atexit w)).

(** Allocation of a new instance. *)
Definition new_object (o : HMC) : M nat := λ w,
  (Ok (length (objects w)),
   World (objects w ++ [o]) (requests w) (console w) (atexit w)).

(** Reading and writing the attributes of [self].  References only come
    from [new_object], so the lookup of a live reference cannot fail. *)
Definition self_get (self : nat) : M HMC := λ w,
  match objects w !! self with
  | Some o => (Ok o, w)
  | None => (Raise AttributeError, w)
  end.

Definition self_set (self : nat) (o : HMC) : M unit := λ w,
  (Ok tt, World (<[self := o]> (objects w)) (requests w) (console w) (atexit w)).

(** [atexit.register(self.cleanup)] *)
Definition atexit_register (self : nat) : M unit := λ w,
  (Ok tt, World (objects w) (requests w) (console w) (atexit w ++ [self])).

Definition set_hmc_name (o : HMC) (h : string) : HMC :=
  Obj h (token o) (ssl_verify o) (debug o) (connected o).
Definition set_token (o : HMC) (t : value) : HMC :=
  Obj (hmc_name o) t (ssl_verify o) (debug o) (connected o).
Definition set_connected (o : HMC) (b : bool) : HMC :=
  Obj (hmc_name o) (token o) (ssl_verify o) (debug o) b.

Definition dquote : string := String "034"%char EmptyString.

(** [f'https://{self.hmc_name}:12443/rest/api/web/Logon'] *)
Definition logon_url (hmc_name : string) : string :=
  "https://" ++ hmc_name ++ ":12443/rest/api/web/Logon".

Definition logon_payload (user passwd : string) : string :=
  "<LogonRequest schemaVersion=" ++ dquote ++ "V1_0" ++ dquote
  ++ " xmlns=" ++ dquote
  ++ "http://www.ibm.com/xmlns/systems/power/firmware/web/mc/2012_10/" ++ dquote
  ++ " xmlns:mc=" ++ dquote
  ++ "http://www.ibm.com/xmlns/systems/power/firmware/web/mc/2012_10/" ++ dquote
  ++ "><UserID>" ++ user ++ "</UserID><Password>" ++ passwd
  ++ "</Password></LogonRequest>".

Definition logon_request (hmc user passwd : string) : Requests.request :=
  Requests.Request Requests.PUT (logon_url hmc)
    [("Content-Type", Some "application/vnd.ibm.powervm.web+xml; type=LogonRequest")]
    (Some (logon_payload (Str.escape user) (Str.escape passwd))).

Definition logoff_request (hmc_name : string) (token : value) : Requests.request :=
  Requests.Request Requests.DELETE (logon_url hmc_name)
    [("X-API-Session", token)] None.

Definition gen_prof_headers (token : value) : list (string * value) :=
  [("Content-Type", Some "application/xml");
   ("Accept", Some "application/vnd.ibm.powervm.uom+xml");
   ("Type", Some "LogicalPartition");
   ("X-API-Session", token)].

Definition gen_prof_url (hmc_name lpar : string) : string :=
  "https://" ++ hmc_name
  ++ ":12443/rest/api/uom/LogicalPartition/search/(PartitionName==" ++ lpar ++ ")".

Definition search_request (hmc_name : string) (token : value) (lpar : string)
  : Requests.request :=
  Requests.Request Requests.GET (gen_prof_url hmc_name lpar) (gen_prof_headers token) None.

Definition profile_request (def_prod_url : string) (token : value) : Requests.request :=
  Requests.Request Requests.GET def_prod_url (gen_prof_headers token) None.

(** The attribute lists of [get_lpar_config]. *)
Definition attribs_general_general : list string :=
  ["PartitionType"; "CurrentProcessorCompatibilityMode"].
Definition attribs_default_general : list string := ["ProfileName"].
Definition attribs_default_processor : list string :=
  ["SharingMode"; "UncappedWeight"; "MinimumProcessingUnits";
   "DesiredProcessingUnits"; "MaximumProcessingUnits";
   "MinimumVirtualProcessors"; "DesiredVirtualProcessors";
   "MaximumVirtualProcessors"].
Definition attribs_default_memory : list string :=
  ["ActiveMemoryExpansionEnabled"; "DesiredMemory"; "ExpansionFactor";
   "MaximumMemory"; "MinimumMemory"].
Definition attribs_default_veth : list string :=
  ["VirtualSlotNumber"; "PortVLANID"; "VirtualSwitchName"].
Definition attribs_default_vfc : list string := ["VirtualSlotNumber"; "AdapterType"].
Definition attribs_default_vscsi : list string := ["VirtualSlotNumber"; "AdapterType"].

(** The loops over a fixed attribute list (general, processor, memory):
    [lpardata[f'{prefix}{attrib}']] is the text of the first matching
    element, or [None] when there is none. *)
Definition single_fields (prefix : string) (attribs : list string)
    (xml_response : ET.Element) (lpardata : dict) : dict :=
  foldl (λ d attrib,
           match ET.find_deep attrib xml_response with
           | Some e => <[prefix ++ attrib := ET.text e]> d
           | None => <[prefix ++ attrib := None]> d
           end) lpardata attribs.

(** The inner loop of an adapter group, for one adapter element:
    [adapter.find(...)] is dereferenced without a test. *)
Fixpoint adapter_fields (prefix : string) (attribs : list string)
    (adapter : ET.Element) (index : nat) (lpardata : dict) : outcome dict :=
  match attribs with
  | [] => Ok lpardata
  | attrib :: attribs' =>
      match ET.find attrib adapter with
      | Some e =>
          adapter_fields prefix attribs' adapter index
            (<[prefix ++ pretty index ++ "_" ++ attrib := ET.text e]> lpardata)
      | None => Raise AttributeError
      end
  end.

(** The outer loop of an adapter group, [index] counting the adapters. *)
Fixpoint adapter_group (prefix : string) (attribs : list string)
    (adapters : list ET.Element) (index : nat) (lpardata : dict) : outcome dict :=
  match adapters with
  | [] => Ok lpardata
  | adapter :: adapters' =>
      d ← adapter_fields prefix attribs adapter index lpardata;
      adapter_group prefix attribs adapters' (S index) d
  end.

Section with_environment.

(** The configuration file, the XML parser ([ET.fromstring], [None] when
    it raises) and the remote API.  The API is taken as a function of the
    request: a host answers a request the same way whenever it is sent
    during the run. *)
Context (cfg : Cfg.config)
        (fromstring : string → option ET.Element)
        (net : Requests.request → Requests.response).

(** [requests.put/get/delete(...)] *)
Definition send (r : Requests.request) : M Requests.response := λ w,
  (Ok (net r), World (objects w) (requests w ++ [r]) (console w) (atexit w)).

Definition parse (body : string) : outcome ET.Element :=
  match fromstring body with
  | Some e => Ok e
  | None => Raise ParseError
  end.

Definition cleanup (self : nat) : M unit :=
  o ← self_get self;
  if connected o
  then _ ← send (logoff_request (hmc_name o) (token o)); mret tt
  else mret tt.

Definition check_connected (self : nat) (context : string) : M unit :=
  o ← self_get self;
  if connected o then mret tt
  else
    console_print ("[red]Attempt to " ++ context
                   ++ " when not logged on. Halting![/red]");;
    sys_exit (Some 42).

Definition logon (self : nat) (hmc user passwd : string) : M unit :=
  o ← self_get self;
  if connected o then
    console_print "[red]Attempt to logon when already logged on. Halting![/red]";;
    sys_exit (Some 42)
  else
    self_set self (set_hmc_name o hmc);;
    response ← send (logon_request hmc user passwd);
    if bool_decide (Requests.status_code response ≠ 200) then
      console_print "[red]Error: HMC logon failed[/red]";;
      sys_exit (Some (Requests.status_code response))
    else
      xml_response ← lift (parse (Requests.text response));
      tok ← lift (list_item (ET.children xml_response) 1);
      o ← self_get self;
      self_set self (set_token o (ET.text tok));;
      o ← self_get self;
      self_set self (set_connected o true).

Definition ok_return_codes : list Z := [200; 202; 204].

Definition logoff (self : nat) : M unit :=
  check_connected self "logoff";;
  o ← self_get self;
  response ← send (logoff_request (hmc_name o) (token o));
  let rcode := Requests.status_code response in
  if bool_decide (rcode ∈ ok_return_codes) then
    o ← self_get self;
    self_set self (set_connected o false)
  else
    console_print ("[red]Error: Logoff failed error code=" ++ pretty rcode
                   ++ " url=" ++ logon_url (hmc_name o)
                   ++ " data=" ++ Requests.text response ++ "[/red]");;
    sys_exit (Some rcode).

(** [HMC(hmc, user, passwd)] *)
Definition init (hmc user passwd : string) : M nat :=
  self ← new_object (Obj EmptyString (Some EmptyString)
                         (Cfg.ssl_verify cfg) (Cfg.debug cfg) false);
  logon self hmc user passwd;;
  atexit_register self;;
  mret self.

(** The part of [get_lpar_config] that fills [lpardata] from the default
    profile document. *)
Definition profile_fields (xml_response : ET.Element) (lpardata : dict)
  : outcome dict :=
  let lpardata :=
    if Cfg.compare_general cfg
    then single_fields "General_" attribs_default_general xml_response lpardata
    else lpardata in
  let lpardata :=
    if Cfg.compare_processors cfg
    then single_fields "Processor_" attribs_default_processor xml_response lpardata
    else lpardata in
  let lpardata :=
    if Cfg.compare_memory cfg
    then single_fields "Memory_" attribs_default_memory xml_response lpardata
    else lpardata in
  lpardata ←
    (if Cfg.compare_networking cfg
     then adapter_group "Network_VirtualEthAdapter_" attribs_default_veth
            (ET.findall_deep "ProfileClientNetworkAdapter" xml_response) 0 lpardata
     else Ok lpardata);
  lpardata ←
    (if Cfg.compare_virtual_fc cfg
     then adapter_group "vFC_VirtualFcAdapter_" attribs_default_vfc
            (ET.findall_deep "ProfileVirtualFibreChannelClientAdapter" xml_response)
            0 lpardata
     else Ok lpardata);
  if Cfg.compare_virtual_scsi cfg
  then adapter_group "vSCSI_VirtualScsiAdapter_" attribs_default_vscsi
         (ET.findall_deep "ProfileVirtualSCSIClientAdapter" xml_response) 0 lpardata
  else Ok lpardata.

Definition get_lpar_config (self : nat) (lpar : string) : M pyval :=
  check_connected self "get_lpar_config";;
  o ← self_get self;
  response ← send (search_request (hmc_name o) (token o) lpar);
  let rcode := Requests.status_code response in
  if bool_decide (rcode = 200) then
    xml_response ← lift (parse (Requests.text response));
    let lpardata : dict := ∅ in
    let lpardata :=
      if Cfg.compare_general cfg
      then single_fields "General_" attribs_general_general xml_response lpardata
      else lpardata in
    match ET.find_deep "AssociatedPartitionProfile" xml_response with
    | None => mret (PyInt 3)
    | Some e =>
        def_prod_url ← lift (match ET.attrib e !! "href" with
                             | Some u => Ok u
                             | None => Raise KeyError
                             end);
        response ← send (profile_request def_prod_url (token o));
        let rcode := Requests.status_code response in
        if bool_decide (rcode = 200) then
          xml_response ← lift (parse (Requests.text response));
          lpardata ← lift (profile_fields xml_response lpardata);
          mret (PyDict lpardata)
        else mret (PyInt 4)
    end
  else if bool_decide (rcode = 204) then mret (PyInt 1)
  else mret (PyInt 2).

End with_environment.

End Hmc.

(** ** hmc_profile_diff.py: the script, for one pair and for all pairs *)

Module Script.

Import Hmc.

(** [v == n] for an integer literal [n]. *)
Definition eq_int (v : pyval) (n : Z) : bool :=
  match v with
  | PyInt m => bool_decide (m = n)
  | _ => false
  end.

(** [v.keys()]: only a dictionary has the method. *)
Definition keys_owner (v : pyval) : outcome dict :=
  match v with
  | PyDict d => Ok d
  | _ => Raise AttributeError
  end.

Section with_environment.

Context (cfg : Cfg.config)
        (fromstring : string → option ET.Element)
        (net : Requests.request → Requests.response)
        (hmc_user hmc_pass : string)
        (diffonly : bool).

(** Lines 97-116: [for hostname in hmcs], from the current values of
    [lpar1_data] and [lpar2_data]. *)
Fixpoint scan (hmcs : list string) (lpar1_name lpar2_name : string)
    (lpar1_data lpar2_data : pyval) : M (pyval * pyval) :=
  match hmcs with
  | [] => mret (lpar1_data, lpar2_data)
  | hostname :: hmcs' =>
      if is_dict lpar1_data && is_dict lpar2_data
      then mret (lpar1_data, lpar2_data)
      else
        hmc ← init cfg fromstring net hostname hmc_user hmc_pass;
        lpar1_data ← (if negb (is_dict lpar1_data)
                      then get_lpar_config cfg fromstring net hmc lpar1_name
                      else mret lpar1_data);
        lpar2_data ← (if negb (is_dict lpar2_data)
                      then get_lpar_config cfg fromstring net hmc lpar2_name
                      else mret lpar2_data);
        logoff net hmc;;
        scan hmcs' lpar1_name lpar2_name lpar1_data lpar2_data
  end.

(** Lines 118-140: the return codes the script knows. *)
Definition check_data (lpar1_name lpar2_name : string)
    (lpar1_data lpar2_data : pyval) : M unit :=
  if eq_int lpar1_data 1 then
    console_print ("[red]LPAR not found: " ++ lpar1_name ++ "[/red]");;
    sys_exit None
  else if eq_int lpar1_data 2 then
    console_print ("[red]Error encountered obtaining data: " ++ lpar1_name ++ "[/red]");;
    sys_exit None
  else if eq_int lpar1_data 3 then
    console_print ("[red]No default profile found: " ++ lpar1_name ++ "[/red]");;
    sys_exit None
  else if eq_int lpar2_data 1 then
    console_print ("[red]LPAR not found: " ++ lpar2_name ++ "[/red]");;
    sys_exit None
  else if eq_int lpar2_data 2 then
    console_print ("[red]Error encountered obtaining data: " ++ lpar2_name ++ "[/red]");;
    sys_exit None
  else if eq_int lpar2_data 3 then
    console_print ("[red]No default profile found: " ++ lpar2_name ++ "[/red]");;
    sys_exit None
  else mret tt.

(** The body of [for lpar_pair in lpars]; the result is [difftable]. *)
Definition process_pair (hmcs : list string) (lpar_pair : string)
  : M (list Diff.row) :=
  lpar1_name ← lift (list_item (Str.split ":" lpar_pair) 0);
  lpar2_name ← lift (list_item (Str.split ":" lpar_pair) 1);
  found ← scan hmcs lpar1_name lpar2_name PyNone PyNone;
  check_data lpar1_name lpar2_name found.1 found.2;;
  d1 ← lift (keys_owner found.1);
  d2 ← lift (keys_owner found.2);
  lift (Diff.compare diffonly (Diff.Records d1 d2)).1.

Fixpoint main (hmcs : list string) (lpars : list string) : M (list (list Diff.row)) :=
  match lpars with
  | [] => mret []
  | lpar_pair :: lpars' =>
      t ← process_pair hmcs lpar_pair;
      ts ← main hmcs lpars';
      mret (t :: ts)
  end.

(** The handlers registered with [atexit] run when the interpreter
    ends, last registered first. *)
Fixpoint exit_handlers (registered : list nat) : M unit :=
  match registered with
  | [] => mret tt
  | self :: registered' => cleanup net self;; exit_handlers registered'
  end.

Definition run {A} (program : M A) (w : world) : outcome A * world :=
  let '(r, w') := program w in
  (r, (exit_handlers (rev (atexit w')) w').2).

End with_environment.

End Script.

(** ** Vocabulary for the properties *)

(** The attribute groups, the key prefix of each and its extraction flag
    in the configuration file. *)
Inductive group : Type :=
  | General
  | Processor
  | Memory
  | NetworkAdapter
  | FibreChannelAdapter
  | ScsiAdapter.

Definition group_prefix (g : group) : string :=
  match g with
  | General => "General"
  | Processor => "Processor"
  | Memory => "Memory"
  | NetworkAdapter => "Network"
  | FibreChannelAdapter => "vFC"
  | ScsiAdapter => "vSCSI"
  end.

Definition group_enabled (cfg : Cfg.config) (g : group) : bool :=
  match g with
  | General => Cfg.compare_general cfg
  | Processor => Cfg.compare_processors cfg
  | Memory => Cfg.compare_memory cfg
  | NetworkAdapter => Cfg.compare_networking cfg
  | FibreChannelAdapter => Cfg.compare_virtual_fc cfg
  | ScsiAdapter => Cfg.compare_virtual_scsi cfg
  end.

(** A key written for a group whose flag is set. *)
Definition from_enabled_group (cfg : Cfg.config) (k : string) : Prop :=
  ∃ g rest, group_enabled cfg g = true ∧ k = group_prefix g ++ "_" ++ rest.

(** The padding loop acts on each of the two records on its own. *)
Definition pad_dict (d : dict) (ks : list string) : dict :=
  foldl (λ d k, if decide (k ∈ dom d) then d else <[k := Diff.missing]> d) d ks.

(** The row the table loop adds for a key when every row is shown: green
    when the key is in [samevalues], red otherwise. *)
Definition row_of (same : list string) (st : Diff.records) (name k : string)
  : option Diff.row :=
  v1 ← Diff.lpar1_data st !! k;
  v2 ← Diff.lpar2_data st !! k;
  let colour := if bool_decide (k ∈ same) then "green" else "red" in
  Some (Diff.Row name (Diff.markup colour v1) (Diff.markup colour v2)).

Definition mismatched_entry (e : string * Diff.row) : Prop := Diff.matched e.2 = false.

#[export] Instance mismatched_entry_dec e : Decision (mismatched_entry e) :=
  decide (Diff.matched e.2 = false).

Module Run.

Import Hmc.

Definition add_requests (w : world) (l : list Requests.request) : world :=
  World (objects w) (requests w ++ l) (console w) (atexit w).

Section with_environment.

Context (cfg : Cfg.config)
        (fromstring : string → option ET.Element)
        (net : Requests.request → Requests.response)
        (hmc_user hmc_pass : string).

(** A process whose only session is logged on to [hmc_name] with [token]. *)
Definition session_world (hmc_name : string) (token : value) : world :=
  World [Obj hmc_name token (Cfg.ssl_verify cfg) (Cfg.debug cfg) true] [] [] [].

(** What [get_lpar_config] returns on such a session, and what it sends. *)
Definition fetch (hmc_name : string) (token : value) (lpar : string)
  : outcome pyval * list Requests.request :=
  let '(r, w) := get_lpar_config cfg fromstring net 0 lpar (session_world hmc_name token) in
  (r, requests w).

(** The token found in the answer to the logon request of a host. *)
Definition logon_token (hmc : string) : option value :=
  x ← fromstring (Requests.text (net (logon_request hmc hmc_user hmc_pass)));
  tok ← ET.children x !! 1%nat;
  Some (ET.text tok).

Definition host_token (hmc : string) : value := default None (logon_token hmc).

(** The outcome of fetching a partition on a host, and the requests sent. *)
Definition found_on (hmc lpar : string) : outcome pyval :=
  (fetch hmc (host_token hmc) lpar).1.

Definition fetch_log (hmc lpar : string) : list Requests.request :=
  (fetch hmc (host_token hmc) lpar).2.

(** The host accepts the logon, hands out a token, and accepts the logoff. *)
Definition host_ok (hmc : string) : Prop :=
  Requests.status_code (net (logon_request hmc hmc_user hmc_pass)) = 200
  ∧ is_Some (logon_token hmc)
  ∧ Requests.status_code (net (logoff_request hmc (host_token hmc))) ∈ ok_return_codes.

(** The fetches on a host return (a dictionary or a code) for both names. *)
Definition fetch_returns (lpar1_name lpar2_name hmc : string) : Prop :=
  (∃ v, found_on hmc lpar1_name = Ok v) ∧ (∃ v, found_on hmc lpar2_name = Ok v).

Definition found_value (hmc lpar : string) : pyval :=
  match found_on hmc lpar with
  | Ok v => v
  | _ => PyNone
  end.

(** The value a script variable ends with after the hosts [hmcs]: the first
    dictionary when there is one, the last return code otherwise. *)
Definition resolve (hmcs : list string) (lpar : string) (v : pyval) : pyval :=
  foldl (λ v hmc, if is_dict v then v else found_value hmc lpar) v hmcs.

(** The session object of a host after a successful logon. *)
Definition opened (hmc : string) : HMC :=
  Obj hmc (host_token hmc) (Cfg.ssl_verify cfg) (Cfg.debug cfg) true.

(** The requests of one pass over the hosts [hmcs], in the order sent. *)
Fixpoint scan_log (hmcs : list string) (lpar1_name lpar2_name : string)
    (v1 v2 : pyval) : list Requests.request :=
  match hmcs with
  | [] => []
  | hmc :: hmcs' =>
      if is_dict v1 && is_dict v2 then []
      else
        [logon_request hmc hmc_user hmc_pass]
        ++ (if is_dict v1 then [] else fetch_log hmc lpar1_name)
        ++ (if is_dict v2 then [] else fetch_log hmc lpar2_name)
        ++ [logoff_request hmc (host_token hmc)]
        ++ scan_log hmcs' lpar1_name lpar2_name
             (if is_dict v1 then v1 else found_value hmc lpar1_name)
             (if is_dict v2 then v2 else found_value hmc lpar2_name)
  end%list.

End with_environment.

End Run.

(** ** A worked example: two hosts, four partitions *)

Module Demo.

Import Hmc.

(** General and network attributes are compared, the other groups are
    switched off. *)
Definition cfg : Cfg.config :=
  Cfg.Config false false true false false true false false.

Definition hmc_user : string := "hscroot".
Definition hmc_pass : string := "abc<123>".

Definition atom (name : string) : string := "{http://www.w3.org/2005/Atom}" ++ name.

Definition leaf (name text : string) : ET.Element :=
  ET.Elem (ET.ns1 name) ∅ (Some text) [].

Definition node (name : string) (children : list ET.Element) : ET.Element :=
  ET.Elem (ET.ns1 name) ∅ None children.

(** The answer to a logon request: the token is the second child. *)
Definition logon_doc (token : string) : ET.Element :=
  ET.Elem "{http://www.ibm.com/xmlns/systems/power/firmware/web/mc/2012_10/}LogonResponse"
    ∅ None
    [ET.Elem "{http://www.ibm.com/xmlns/systems/power/firmware/web/mc/2012_10/}Metadata"
       ∅ None [];
     ET.Elem "{http://www.ibm.com/xmlns/systems/power/firmware/web/mc/2012_10/}X-API-Session"
       ∅ (Some token) []].

(** The answer to a partition search. *)
Definition search_doc (profile_url : string) : ET.Element :=
  ET.Elem (atom "feed") ∅ None
    [ET.Elem (atom "entry") ∅ None
       [ET.Elem (atom "content") ∅ None
          [node "LogicalPartition"
             [leaf "PartitionType" "AIX/Linux";
              leaf "CurrentProcessorCompatibilityMode" "POWER9_Base";
              ET.Elem (ET.ns1 "AssociatedPartitionProfile")
                {[ "href" := profile_url ]} None []]]]].

(** A default profile, with the given network adapters. *)
Definition profile_doc (name : string) (adapters : list ET.Element) : ET.Element :=
  ET.Elem (atom "entry") ∅ None
    [ET.Elem (atom "content") ∅ None
       [node "LogicalPartitionProfile"
          [leaf "ProfileName" name;
           node "ProcessorAttributes" [leaf "SharingMode" "uncapped"];
           node "ProfileMemory" [leaf "DesiredMemory" "8192"];
           node "ClientNetworkAdapters" adapters]]].

Definition veth (slot vlan switch : string) : ET.Element :=
  node "ProfileClientNetworkAdapter"
    [leaf "VirtualSlotNumber" slot; leaf "PortVLANID" vlan;
     leaf "VirtualSwitchName" switch].

(** An adapter element without its [PortVLANID] child. *)
Definition veth_without_vlan (slot switch : string) : ET.Element :=
  node "ProfileClientNetworkAdapter"
    [leaf "VirtualSlotNumber" slot; leaf "VirtualSwitchName" switch].

Definition profile_url (hmc lpar : string) : string :=
  "https://" ++ hmc ++ ":12443/rest/api/uom/LogicalPartition/" ++ lpar
  ++ "/LogicalPartitionProfile/default".

(** The parser on the bodies the example hosts send. *)
Definition fromstring (body : string) : option ET.Element :=
  if bool_decide (body = "logon hmc01") then Some (logon_doc "token-hmc01")
  else if bool_decide (body = "logon hmc02") then Some (logon_doc "token-hmc02")
  else if bool_decide (body = "search prod01") then Some (search_doc (profile_url "hmc02" "prod01"))
  else if bool_decide (body = "search dr01") then Some (search_doc (profile_url "hmc01" "dr01"))
  else if bool_decide (body = "search test01") then Some (search_doc (profile_url "hmc01" "test01"))
  else if bool_decide (body = "search dev01") then Some (search_doc (profile_url "hmc01" "dev01"))
  else if bool_decide (body = "profile prod01")
       then Some (profile_doc "default" [veth "2" "1" "missing"])
  else if bool_decide (body = "profile dr01") then Some (profile_doc "default" [])
  else if bool_decide (body = "profile dev01")
       then Some (profile_doc "default" [veth_without_vlan "2" "ETHERNET0"])
  else None.

(** The hosts: [hmc01] manages dr01, test01 and dev01, [hmc02] manages
    prod01.  The profile of test01 cannot be read (status 500). *)
Definition net (r : Requests.request) : Requests.response :=
  let u := Requests.url r in
  match Requests.method r with
  | Requests.PUT =>
      if bool_decide (u = logon_url "hmc01") then Requests.Response 200 "logon hmc01"
      else if bool_decide (u = logon_url "hmc02") then Requests.Response 200 "logon hmc02"
      else Requests.Response 401 EmptyString
  | Requests.DELETE => Requests.Response 204 EmptyString
  | Requests.GET =>
      if bool_decide (u = gen_prof_url "hmc02" "prod01") then Requests.Response 200 "search prod01"
      else if bool_decide (u = gen_prof_url "hmc01" "dr01") then Requests.Response 200 "search dr01"
      else if bool_decide (u = gen_prof_url "hmc01" "test01") then Requests.Response 200 "search test01"
      else if bool_decide (u = gen_prof_url "hmc01" "dev01") then Requests.Response 200 "search dev01"
      else if bool_decide (u = profile_url "hmc02" "prod01") then Requests.Response 200 "profile prod01"
      else if bool_decide (u = profile_url "hmc01" "dr01") then Requests.Response 200 "profile dr01"
      else if bool_decide (u = profile_url "hmc01" "test01") then Requests.Response 500 "error"
      else if bool_decide (u = profile_url "hmc01" "dev01") then Requests.Response 200 "profile dev01"
      else Requests.Response 204 EmptyString
  end.

(** The process before the script opens its first session. *)
Definition start : world := World [] [] [] [].

(** A session that was opened and closed again. *)
Definition closed_session : world :=
  World [Obj "hmc01" (Some "token-hmc01") false false false] [] [] [].

(** The records of prod01 (one network adapter, on a virtual switch that
    is named "missing") and of dr01 (no network adapter). *)
Definition prod01 : dict :=
  list_to_map
    [("General_PartitionType", Some "AIX/Linux");
     ("General_CurrentProcessorCompatibilityMode", Some "POWER9_Base");
     ("General_ProfileName", Some "default");
     ("Network_VirtualEthAdapter_0_VirtualSlotNumber", Some "2");
     ("Network_VirtualEthAdapter_0_PortVLANID", Some "1");
     ("Network_VirtualEthAdapter_0_VirtualSwitchName", Some "missing")].

Definition dr01 : dict :=
  list_to_map
    [("General_PartitionType", Some "AIX/Linux");
     ("General_CurrentProcessorCompatibilityMode", Some "POWER9_Base");
     ("General_ProfileName", Some "default")].

End Demo.

(** ** hmc_profile_diff.py: the choice of the hosts *)

Module Startup.

Import Hmc.

Definition newline : string := String "010"%char EmptyString.

(** Lines 56-73: the hosts of the configuration file, replaced by the
    pieces of [--hmcs] when the option is given with a text that is not
    empty; the script ends when no host is left. *)
Definition choose_hmcs (configured : list string) (option_hmcs : option string)
  : M (list string) :=
  let hmcs :=
    match option_hmcs with
    | Some (String c s) => Str.split ":" (String c s)
    | _ => configured
    end in
  match hmcs with
  | [] =>
      console_print (newline ++ "[red]Error: No HMCs have been configured.[/red]"
                     ++ newline);;
      sys_exit None
  | _ => mret hmcs
  end.

End Startup.

(** The row with its two value cells exchanged. *)
Definition swap_row (r : Diff.row) : Diff.row :=
  Diff.Row (Diff.attribute r) (Diff.value2 r) (Diff.value1 r).

(** The outcomes of a loop body that either goes on or raises [IndexError]. *)
Definition ok_or_index {A} (o : outcome A) : Prop :=
  (∃ a, o = Ok a) ∨ o = Raise IndexError.

(** ** The documents behind a fetched record *)

(** [xml_response.find(f'.//ns1:{attrib}', ns).text] when the element is
    found, [None] otherwise: the value the loops over a fixed attribute
    list store. *)
Definition field_text (attrib : string) (x : ET.Element) : value :=
  match ET.find_deep attrib x with
  | Some e => ET.text e
  | None => None
  end.

Module Docs.

Import Hmc.

Section with_environment.

Context (fromstring : string → option ET.Element)
        (net : Requests.request → Requests.response).

(** The parsed answer to the search for [lpar]. *)
Definition search_answer (hmc_name : string) (token : value) (lpar : string)
  : option ET.Element :=
  fromstring (Requests.text (net (search_request hmc_name token lpar))).

(** The parsed default profile the answer to the search refers to. *)
Definition profile_answer (hmc_name : string) (token : value) (lpar : string)
  : option ET.Element :=
  x ← search_answer hmc_name token lpar;
  e ← ET.find_deep "AssociatedPartitionProfile" x;
  u ← ET.attrib e !! "href";
  fromstring (Requests.text (net (profile_request u token))).

End with_environment.

End Docs.

(** The entries of an adapter group: for the adapter at position [i] of
    the document and each attribute of the group, the key with the index
    [i] holds the text of the child element of that adapter. *)
Definition adapters_recorded (prefix name : string) (attribs : list string)
    (x : ET.Element) (d : dict) : Prop :=
  ∀ (i : nat) adapter attrib,
    ET.findall_deep name x !! i = Some adapter → attrib ∈ attribs →
    ∃ e, ET.find attrib adapter = Some e
         ∧ d !! (prefix ++ pretty i ++ "_" ++ attrib) = Some (ET.text e).

(** A lookup in a later record of the extraction is moved back over one
    guarded step, by the lemma of an adapter group or by the lemma of a
    fixed attribute list. *)
Ltac skip_step group_step field_step :=
  first [ erewrite group_step; [|eassumption|reflexivity]
        | rewrite field_step by reflexivity ].

(** ** Further cases of the worked example *)

Module Cases.

Import Hmc.

(** The table of prod01 against dr01, every row with its key. *)
Definition table : list (string * Diff.row) :=
  [("General_CurrentProcessorCompatibilityMode",
    Diff.Row "CurrentProcessorCompatibilityMode"
      "[green]POWER9_Base[/green]" "[green]POWER9_Base[/green]");
   ("General_PartitionType",
    Diff.Row "PartitionType" "[green]AIX/Linux[/green]" "[green]AIX/Linux[/green]");
   ("General_ProfileName",
    Diff.Row "ProfileName" "[green]default[/green]" "[green]default[/green]");
   ("Network_VirtualEthAdapter_0_PortVLANID",
    Diff.Row "VirtualEthAdapter_0_PortVLANID" "[red]1[/red]" "[red]missing[/red]");
   ("Network_VirtualEthAdapter_0_VirtualSlotNumber",
    Diff.Row "VirtualEthAdapter_0_VirtualSlotNumber" "[red]2[/red]" "[red]missing[/red]");
   ("Network_VirtualEthAdapter_0_VirtualSwitchName",
    Diff.Row "VirtualEthAdapter_0_VirtualSwitchName"
      "[green]missing[/green]" "[green]missing[/green]")].

(** The table of dr01 against itself. *)
Definition table_of_dr01 : list Diff.row :=
  [Diff.Row "CurrentProcessorCompatibilityMode"
     "[green]POWER9_Base[/green]" "[green]POWER9_Base[/green]";
   Diff.Row "PartitionType" "[green]AIX/Linux[/green]" "[green]AIX/Linux[/green]";
   Diff.Row "ProfileName" "[green]default[/green]" "[green]default[/green]"].

(** The keys of prod01 and dr01 in another order, one of them twice. *)
Definition shuffled_keys : list string :=
  ["Network_VirtualEthAdapter_0_VirtualSwitchName";
   "General_ProfileName";
   "Network_VirtualEthAdapter_0_PortVLANID";
   "General_PartitionType";
   "General_ProfileName";
   "Network_VirtualEthAdapter_0_VirtualSlotNumber";
   "General_CurrentProcessorCompatibilityMode"].

(** A record with a key that has no underscore. *)
Definition odd_record : dict := {[ "General" := Some "x" ]}.

(** A parser that rejects every body, and one that reads every body as
    a partition without a profile reference. *)
Definition no_parse : string → option ET.Element := λ _, None.
Definition bare_partition : string → option ET.Element :=
  λ _, Some (Demo.node "LogicalPartition" []).


(** A session object as [__init__] creates it, before the logon. *)
Definition fresh : world :=
  World [Obj EmptyString (Some EmptyString) false false false] [] [] [].

(** Open sessions on the two hosts, the second one registered at exit. *)
Definition on_hmc01 : world := Run.session_world Demo.cfg "hmc01" (Some "token-hmc01").
Definition on_hmc02 : world := Run.session_world Demo.cfg "hmc02" (Some "token-hmc02").

End Cases.

(** * Properties of the comparison step *)

Section padding.

Import Diff.

Lemma pad_key_split st k :
  pad_key st k = Records (pad_dict (lpar1_data st) [k]) (pad_dict (lpar2_data st) [k]).
Proof.
  destruct st as [d1 d2]. unfold pad_key, pad_dict. simpl.
  destruct (decide (k ∈ dom d1)); simpl; destruct (decide (k ∈ dom d2)); reflexivity.
Qed.

Lemma pad_loop_split ks st :
  pad_loop ks st = Records (pad_dict (lpar1_data st) ks) (pad_dict (lpar2_data st) ks).
Proof.
  revert st. induction ks as [|k ks IH]; intros st; [by destruct st|].
  unfold pad_loop in *. cbn [foldl]. rewrite IH, pad_key_split. reflexivity.
Qed.

Lemma pad_dict_lookup (d : dict) ks k :
  pad_dict d ks !! k =
    match d !! k with
    | Some v => Some v
    | None => if decide (k ∈ ks) then Some missing else None
    end.
Proof.
  revert d. induction ks as [|k0 ks IH]; intros d.
  - cbn. destruct (d !! k); [done|]. by rewrite decide_False by apply not_elem_of_nil.
  - unfold pad_dict in *. cbn [foldl]. rewrite IH.
    assert (k ≠ k0 → (k ∈ k0 :: ks) ↔ (k ∈ ks)) as Htail.
    { intros Hne. rewrite elem_of_cons. split; [by intros [?|?]|by right]. }
    destruct (decide (k0 ∈ dom d)) as [Hin|Hnin].
    + destruct (d !! k) eqn:Hk; [done|].
      assert (k ≠ k0) as Hne
        by (intros ->; apply elem_of_dom in Hin as [? ?]; congruence).
      by rewrite (decide_ext _ _ _ _ (Htail Hne)).
    + destruct (decide (k = k0)) as [->|Hne].
      * rewrite lookup_insert_eq. apply not_elem_of_dom in Hnin. rewrite Hnin.
        by rewrite decide_True by (by left).
      * rewrite lookup_insert_ne by done.
        destruct (d !! k); [done|]. by rewrite (decide_ext _ _ _ _ (Htail Hne)).
Qed.

(** The result of the loop does not depend on the order in which the set
    [allkeys] is enumerated. *)
Lemma pad_dict_order (d : dict) ks ks' :
  (∀ k, k ∈ ks ↔ k ∈ ks') → pad_dict d ks = pad_dict d ks'.
Proof.
  intros Hks. apply map_eq. intros k. rewrite !pad_dict_lookup.
  destruct (d !! k); [done|]. by rewrite (decide_ext _ _ _ _ (Hks k)).
Qed.

Lemma pad_loop_order ks st :
  (∀ k, k ∈ ks ↔ k ∈ allkeys st) → pad_loop ks st = pad_missing st.
Proof.
  intros Hks. unfold pad_missing. rewrite !pad_loop_split.
  f_equal; apply pad_dict_order; intros k; by rewrite Hks, elem_of_elements.
Qed.

Lemma pad_missing_lookup1 st k :
  lpar1_data (pad_missing st) !! k =
    match lpar1_data st !! k with
    | Some v => Some v
    | None => if decide (k ∈ dom (lpar2_data st)) then Some missing else None
    end.
Proof.
  unfold pad_missing. rewrite pad_loop_split. cbn. rewrite pad_dict_lookup.
  destruct (lpar1_data st !! k) eqn:Hk; [done|].
  apply not_elem_of_dom in Hk. apply decide_ext.
  unfold allkeys. rewrite elem_of_elements, elem_of_union.
  split; [by intros [?|?]|by right].
Qed.

Lemma pad_missing_lookup2 st k :
  lpar2_data (pad_missing st) !! k =
    match lpar2_data st !! k with
    | Some v => Some v
    | None => if decide (k ∈ dom (lpar1_data st)) then Some missing else None
    end.
Proof.
  unfold pad_missing. rewrite pad_loop_split. cbn. rewrite pad_dict_lookup.
  destruct (lpar2_data st !! k) eqn:Hk; [done|].
  apply not_elem_of_dom in Hk. apply decide_ext.
  unfold allkeys. rewrite elem_of_elements, elem_of_union.
  split; [by intros [?|?]|by left].
Qed.

Lemma pad_missing_dom1 st : dom (lpar1_data (pad_missing st)) = allkeys st.
Proof.
  apply set_eq. intros k. rewrite elem_of_dom, pad_missing_lookup1.
  unfold allkeys. rewrite elem_of_union, (elem_of_dom (lpar1_data st)).
  destruct (lpar1_data st !! k) eqn:H1.
  - split; [left|]; eauto.
  - destruct (decide _) as [Hin|Hnin].
    + split; [by right|eauto].
    + split; [by intros [? ?]|]. by intros [[? ?]|H2].
Qed.

Lemma pad_missing_dom2 st : dom (lpar2_data (pad_missing st)) = allkeys st.
Proof.
  apply set_eq. intros k. rewrite elem_of_dom, pad_missing_lookup2.
  unfold allkeys. rewrite elem_of_union, (elem_of_dom (lpar2_data st)).
  destruct (lpar2_data st !! k) eqn:H2.
  - split; [right|]; eauto.
  - destruct (decide _) as [Hin|Hnin].
    + split; [by left|eauto].
    + split; [by intros [? ?]|]. by intros [H1|[? ?]].
Qed.

Lemma compare_snd diffonly st : (compare diffonly st).2 = pad_missing st.
Proof. reflexivity. Qed.

End padding.

Section table.

Import Diff.

Lemma outcome_bind_ok {A B} (a : A) (k : A → outcome B) : (Ok a ≫= k) = k a.
Proof. reflexivity. Qed.

Lemma getitem_dom (d : dict) k : k ∈ dom d → ∃ v, d !! k = Some v ∧ getitem d k = Ok v.
Proof.
  intros [v Hv]%elem_of_dom. exists v. unfold getitem. by rewrite Hv.
Qed.

(** Once both records have the keys [ks], the comprehension does not
    raise, and it keeps the keys on which the two records agree. *)
Lemma samevalues_of_ok ks (d1 d2 : dict) :
  (∀ k, k ∈ ks → k ∈ dom d1 ∧ k ∈ dom d2) →
  samevalues_of ks d1 d2 = Ok (filter (λ k, d1 !! k = d2 !! k) ks).
Proof.
  induction ks as [|k ks IH]; intros Hks; [done|].
  destruct (Hks k) as [H1 H2]; [by left|].
  apply getitem_dom in H1 as (v1 & E1 & G1), H2 as (v2 & E2 & G2).
  rewrite filter_cons, E1, E2.
  cbn [samevalues_of]. rewrite G1, G2, IH by (intros k' Hk'; apply Hks; by right).
  destruct (decide (Some v1 = Some v2)) as [Heq|Hne].
  - cbn. rewrite bool_decide_eq_true_2 by congruence. done.
  - cbn. rewrite bool_decide_eq_false_2 by congruence. done.
Qed.

Lemma samevalues_padded st :
  samevalues (pad_missing st) =
    Ok (filter (λ k, lpar1_data (pad_missing st) !! k = lpar2_data (pad_missing st) !! k)
          (elements (dom (lpar1_data (pad_missing st))))).
Proof.
  apply samevalues_of_ok. intros k Hk%elem_of_elements.
  rewrite pad_missing_dom1 in Hk. by rewrite pad_missing_dom1, pad_missing_dom2.
Qed.

Lemma elem_of_sorted (s : gset string) k : k ∈ sorted s ↔ k ∈ s.
Proof. unfold sorted. by rewrite merge_sort_Permutation, elem_of_elements. Qed.

Lemma NoDup_sorted (s : gset string) : NoDup (sorted s).
Proof. unfold sorted. rewrite merge_sort_Permutation. apply NoDup_elements. Qed.

Lemma matched_green name (v1 v2 : value) :
  matched (Row name (markup "green" v1) (markup "green" v2)) = true.
Proof. unfold matched, markup. cbn. by destruct (fmt v1 ++ _). Qed.

Lemma matched_red name (v1 v2 : value) :
  matched (Row name (markup "red" v1) (markup "red" v2)) = false.
Proof. reflexivity. Qed.

Lemma add_rows_diffonly same st primarykey k :
  k ∈ dom (lpar1_data st) → k ∈ dom (lpar2_data st) →
  add_rows true same st primarykey k =
    filter mismatched_entry <$> add_rows false same st primarykey k.
Proof.
  intros (v1 & _ & G1)%getitem_dom (v2 & _ & G2)%getitem_dom.
  unfold add_rows, coloured_row. rewrite G1, G2.
  destruct (k_printname primarykey k) as [name| |]; [|done..]. cbn.
  destruct (decide (k ∈ same)) as [Hin|Hnin].
  - rewrite bool_decide_eq_false_2, bool_decide_eq_true_2 by auto.
    unfold fmap, outcome_fmap. rewrite filter_cons, decide_False; [done|].
    unfold mismatched_entry. cbn [snd]. by rewrite matched_green.
  - rewrite bool_decide_eq_true_2, bool_decide_eq_false_2 by auto.
    unfold fmap, outcome_fmap. rewrite filter_cons, decide_True; [done|].
    unfold mismatched_entry. cbn [snd]. by rewrite matched_red.
Qed.

Lemma for_each_filter {A B} (P : B → Prop) `{!∀ b, Decision (P b)}
    (f g : A → outcome (list B)) (l : list A) :
  (∀ x, x ∈ l → f x = filter P <$> g x) →
  for_each f l = filter P <$> for_each g l.
Proof.
  induction l as [|x l IH]; intros Hfg; [done|].
  cbn [for_each]. rewrite Hfg by (by left).
  rewrite IH by (intros y Hy; apply Hfg; by right).
  destruct (g x) as [r| |]; [|done..]. cbn.
  destruct (for_each g l) as [rs| |]; [|done..]. cbn.
  by rewrite filter_app.
Qed.

Lemma table_loop_diffonly same keys st :
  keys ⊆ dom (lpar1_data st) → keys ⊆ dom (lpar2_data st) →
  table_loop true same keys st =
    filter mismatched_entry <$> table_loop false same keys st.
Proof.
  intros H1 H2. unfold table_loop.
  apply for_each_filter. intros primarykey _.
  apply for_each_filter. intros k Hk%elem_of_sorted.
  destruct (Str.startswith k primarykey); [|done].
  apply add_rows_diffonly; [by apply H1|by apply H2].
Qed.

Lemma compare_keyed_diffonly st :
  (compare_keyed true st).1 = filter mismatched_entry <$> (compare_keyed false st).1.
Proof.
  unfold compare_keyed. cbn [fst]. rewrite samevalues_padded, !outcome_bind_ok.
  apply table_loop_diffonly.
  - by rewrite pad_missing_dom1.
  - by rewrite pad_missing_dom2.
Qed.

Lemma map_snd_filter_mismatched (l : list (string * row)) :
  map snd (filter mismatched_entry l) = filter (λ r, matched r = false) (map snd l).
Proof.
  induction l as [|[k r] l IH]; [done|].
  rewrite filter_cons. cbn [map snd]. rewrite filter_cons.
  unfold mismatched_entry at 1. cbn [snd].
  destruct (decide (matched r = false)); cbn; by rewrite IH.
Qed.

End table.

Section rows.

Import Diff.

(** A loop that ends normally has run its body on every element. *)
Lemma for_each_ok {A B} (f : A → outcome (list B)) l rows :
  for_each f l = Ok rows →
  ∃ rss, Forall2 (λ x rs, f x = Ok rs) l rss ∧ rows = concat rss.
Proof.
  revert rows. induction l as [|x l IH]; intros rows Hrun.
  - injection Hrun as <-. exists []. by split.
  - cbn [for_each] in Hrun.
    destruct (f x) as [r| |] eqn:Hx; [|done..]. cbn in Hrun.
    destruct (for_each f l) as [rs| |]; [|done..]. cbn in Hrun.
    injection Hrun as <-. destruct (IH rs eq_refl) as (rss & Hall & ->).
    exists (r :: rss). split; [by constructor|done].
Qed.

Lemma for_each_all_ok {A B} (f : A → outcome (list B)) l :
  (∀ x, x ∈ l → ∃ r, f x = Ok r) → ∃ rows, for_each f l = Ok rows.
Proof.
  induction l as [|x l IH]; intros Hl; [by eexists|].
  destruct (Hl x) as [r Hr]; [by left|].
  destruct IH as [rs Hrs]; [intros y Hy; apply Hl; by right|].
  exists (r ++ rs)%list. cbn [for_each]. by rewrite Hr, Hrs.
Qed.

Lemma add_rows_all same st primarykey k rows :
  add_rows false same st primarykey k = Ok rows →
  ∃ name r, k_printname primarykey k = Ok name
            ∧ row_of same st name k = Some r
            ∧ rows = [(k, r)].
Proof.
  unfold add_rows, coloured_row, row_of, getitem. intros Hrun.
  destruct (k_printname primarykey k) as [name| |]; [|done..]. cbn in Hrun.
  exists name.
  destruct (lpar1_data st !! k) as [v1|]; [|by destruct (bool_decide _)].
  destruct (lpar2_data st !! k) as [v2|]; [|by destruct (bool_decide _)].
  cbn in *. destruct (bool_decide (k ∈ same)); injection Hrun as <-; by eexists.
Qed.

Lemma table_loop_all same keys st rows :
  table_loop false same keys st = Ok rows →
  map fst rows =
    flat_map (λ primarykey,
                filter (λ k, Str.startswith k primarykey = true) (sorted keys))
      primarykeys
  ∧ ∀ k r, (k, r) ∈ rows →
      ∃ primarykey name, primarykey ∈ primarykeys
        ∧ Str.startswith k primarykey = true
        ∧ k_printname primarykey k = Ok name
        ∧ row_of same st name k = Some r.
Proof.
  unfold table_loop. generalize primarykeys as pks. intros pks. revert rows.
  induction pks as [|pk pks IH]; intros rows Hrun.
  - injection Hrun as <-. split; [done|]. intros k r Hin. by apply not_elem_of_nil in Hin.
  - cbn [for_each] in Hrun.
    destruct (for_each _ (sorted keys)) as [r1| |] eqn:Hinner; [|done..].
    cbn in Hrun.
    destruct (for_each _ pks) as [r2| |] eqn:Houter; [|done..].
    cbn in Hrun. injection Hrun as <-.
    destruct (IH r2 eq_refl) as [IHkeys IHrows].
    assert (map fst r1 = filter (λ k, Str.startswith k pk = true) (sorted keys)
            ∧ ∀ k r, (k, r) ∈ r1 →
                ∃ name, Str.startswith k pk = true ∧ k_printname pk k = Ok name
                        ∧ row_of same st name k = Some r) as [Hkeys Hrows].
    { clear -Hinner. revert r1 Hinner.
      induction (sorted keys) as [|k ks IHks]; intros r1 Hinner.
      - injection Hinner as <-. split; [done|].
        intros k r Hin. by apply not_elem_of_nil in Hin.
      - cbn [for_each] in Hinner. rewrite filter_cons.
        destruct (Str.startswith k pk) eqn:Hpk.
        + destruct (add_rows false same st pk k) as [rk| |] eqn:Hk; [|done..].
          cbn in Hinner.
          destruct (for_each _ ks) as [rks| |] eqn:Hks; [|done..].
          cbn in Hinner. injection Hinner as <-.
          destruct (IHks rks eq_refl) as [IH1 IH2].
          apply add_rows_all in Hk as (name & r & Hname & Hrow & ->).
          rewrite decide_True by done. cbn. split; [by rewrite IH1|].
          intros k' r' [Heq|Hin]%elem_of_cons; [|by apply IH2].
          injection Heq as -> ->. eauto.
        + cbn in Hinner.
          destruct (for_each _ ks) as [rks| |] eqn:Hks; [|done..].
          cbn in Hinner. injection Hinner as <-.
          destruct (IHks rks eq_refl) as [IH1 IH2].
          rewrite decide_False by (by intros ?). by split. }
    split.
    + cbn [flat_map]. by rewrite map_app, Hkeys, IHkeys.
    + intros k r [Hin|Hin]%elem_of_app.
      * destruct (Hrows k r Hin) as (name & ? & ? & ?).
        exists pk, name. split; [by left|done].
      * destruct (IHrows k r Hin) as (pk' & name & ? & ?).
        exists pk', name. split; [by right|done].
Qed.

(** No key starts with two of the primary keys. *)
Lemma primarykeys_exclusive k pk pk' :
  pk ∈ primarykeys → pk' ∈ primarykeys →
  Str.startswith k pk = true → Str.startswith k pk' = true → pk = pk'.
Proof.
  assert (∀ (a b : ascii) (s1 s2 : string) c k',
            String.prefix (String a s1) (String c k') = true →
            String.prefix (String b s2) (String c k') = true →
            a = b ∧ String.prefix s1 k' = true ∧ String.prefix s2 k' = true) as Hhead.
  { intros a b s1 s2 c k' H1 H2. simpl in H1, H2.
    destruct (ascii_dec a c) as [<-|]; [|done].
    destruct (ascii_dec b a) as [<-|]; done. }
  unfold primarykeys, Str.startswith. intros Hpk Hpk' H1 H2.
  destruct k as [|c k]; [exfalso|].
  { repeat (apply elem_of_cons in Hpk as [->|Hpk]; [done|]).
    by apply not_elem_of_nil in Hpk. }
  repeat (apply elem_of_cons in Hpk as [->|Hpk]);
    try (by apply not_elem_of_nil in Hpk);
    repeat (apply elem_of_cons in Hpk' as [->|Hpk']);
    try (by apply not_elem_of_nil in Hpk'); try reflexivity;
    exfalso; destruct (Hhead _ _ _ _ _ _ H1 H2) as (Hc & H1' & H2');
    try discriminate Hc;
    (destruct k as [|c' k]; [done|]);
    destruct (Hhead _ _ _ _ _ _ H1' H2') as (Hc' & _ & _); discriminate Hc'.
Qed.

Lemma NoDup_grouped (pks l : list string) :
  NoDup l → NoDup pks → pks ⊆ primarykeys →
  NoDup (flat_map (λ pk, filter (λ k, Str.startswith k pk = true) l) pks).
Proof.
  intros Hl Hpks Hsub. induction pks as [|pk pks IH]; [constructor|].
  cbn [flat_map]. apply NoDup_app. apply NoDup_cons in Hpks as [Hpk Hpks].
  split; [by apply NoDup_filter|].
  split; [|apply IH; [done|intros x Hx; apply Hsub; by right]].
  intros k [Hk _]%list_elem_of_filter Hin.
  apply list_elem_of_In, in_flat_map in Hin as (pk' & Hpk' & Hin).
  apply list_elem_of_In in Hpk'. apply list_elem_of_In in Hin.
  apply list_elem_of_filter in Hin as [Hk' _].
  assert (pk = pk') as <-; [|done].
  apply (primarykeys_exclusive k); [apply Hsub; by left|apply Hsub; by right|done|done].
Qed.

Lemma partition_has_sep k :
  Str.lacks "_" k = false → is_Some (Str.partition "_" k) ∧ is_Some (Str.rpartition "_" k).
Proof.
  induction k as [|c k IH]; [done|]. simpl. intros Hk.
  destruct (Ascii.eqb c "_") eqn:Hc.
  - split; [by eexists|]. destruct (Str.rpartition "_" k) as [[a b]|]; by eexists.
  - destruct (IH Hk) as [[[a b] ->] [[a' b'] ->]]. split; by eexists.
Qed.

Lemma k_printname_has_sep primarykey k :
  Str.lacks "_" k = false → ∃ name, k_printname primarykey k = Ok name.
Proof.
  intros [[[a b] H1] [[a' b'] H2]]%partition_has_sep.
  unfold k_printname, Str.split1, Str.rsplit1. rewrite H1, H2.
  destruct (bool_decide _); by eexists.
Qed.

(** On records whose keys all contain an underscore, as every key written
    by [get_lpar_config] does, the comparison produces its table. *)
Lemma compare_keyed_returns diffonly st :
  (∀ k, k ∈ allkeys st → Str.lacks "_" k = false) →
  ∃ rows, (compare_keyed diffonly st).1 = Ok rows.
Proof.
  intros Hkeys. unfold compare_keyed. cbn [fst]. rewrite samevalues_padded, outcome_bind_ok.
  unfold table_loop. apply for_each_all_ok. intros primarykey _.
  apply for_each_all_ok. intros k Hk%elem_of_sorted.
  destruct (Str.startswith k primarykey); [|by eexists].
  destruct (k_printname_has_sep primarykey k (Hkeys k Hk)) as [name Hname].
  destruct (getitem_dom (lpar1_data (pad_missing st)) k) as (v1 & _ & G1);
    [by rewrite pad_missing_dom1|].
  destruct (getitem_dom (lpar2_data (pad_missing st)) k) as (v2 & _ & G2);
    [by rewrite pad_missing_dom2|].
  unfold add_rows, coloured_row. rewrite Hname, G1, G2. cbn.
  destruct diffonly; repeat destruct (bool_decide _); by eexists.
Qed.

(** The keys of the rows: no key twice, and exactly the keys of the union
    that start with one of the primary keys. *)
Lemma compare_keyed_keys st rows :
  (compare_keyed false st).1 = Ok rows →
  NoDup (map fst rows)
  ∧ ∀ k, k ∈ map fst rows ↔
      k ∈ allkeys st ∧ ∃ primarykey, primarykey ∈ primarykeys
                                     ∧ Str.startswith k primarykey = true.
Proof.
  unfold compare_keyed. cbn [fst]. rewrite samevalues_padded, outcome_bind_ok. intros Hrun.
  apply table_loop_all in Hrun as [Hkeys _]. rewrite Hkeys. split.
  - apply NoDup_grouped; [apply NoDup_sorted|by compute_done|done].
  - intros k. rewrite list_elem_of_In, in_flat_map. split.
    + intros (pk & Hpk%list_elem_of_In & Hk%list_elem_of_In).
      apply list_elem_of_filter in Hk as [Hstart Hk%elem_of_sorted]. eauto.
    + intros (Hk & pk & Hpk & Hstart). exists pk. rewrite <- !list_elem_of_In.
      split; [done|]. apply list_elem_of_filter. by rewrite elem_of_sorted.
Qed.

(** The cells and the style of a row: the two padded values, green exactly
    when they are equal. *)
Lemma compare_keyed_row st rows k r :
  (compare_keyed false st).1 = Ok rows → (k, r) ∈ rows →
  ∃ v1 v2,
    lpar1_data (pad_missing st) !! k = Some v1
    ∧ lpar2_data (pad_missing st) !! k = Some v2
    ∧ value1 r = markup (if bool_decide (v1 = v2) then "green" else "red") v1
    ∧ value2 r = markup (if bool_decide (v1 = v2) then "green" else "red") v2
    ∧ matched r = bool_decide (v1 = v2).
Proof.
  unfold compare_keyed. cbn [fst]. rewrite samevalues_padded, outcome_bind_ok. intros Hrun Hin.
  apply table_loop_all in Hrun as [_ Hrows].
  destruct (Hrows k r Hin) as (pk & name & _ & _ & _ & Hrow).
  unfold row_of in Hrow.
  destruct (lpar1_data (pad_missing st) !! k) as [v1|] eqn:E1; [|done].
  destruct (lpar2_data (pad_missing st) !! k) as [v2|] eqn:E2; [|done].
  cbn in Hrow. injection Hrow as <-. exists v1, v2.
  assert (bool_decide
            (k ∈ filter (λ k, lpar1_data (pad_missing st) !! k
                              = lpar2_data (pad_missing st) !! k)
                   (elements (dom (lpar1_data (pad_missing st)))))
          = bool_decide (v1 = v2)) as ->.
  { apply bool_decide_ext. rewrite list_elem_of_filter, elem_of_elements, E1, E2.
    split; [by intros [[= ->] _]|]. intros ->. split; [done|].
    apply elem_of_dom. by eexists. }
  repeat (split; [done|]). cbn [value1 value2].
  destruct (bool_decide (v1 = v2)); [apply matched_green|apply matched_red].
Qed.

(** A key of the first record only: the second cell shows "missing", and
    the row is red unless the value of the first record is itself the
    string "missing". *)
Lemma compare_keyed_one_sided st rows k r (v : value) :
  (compare_keyed false st).1 = Ok rows → (k, r) ∈ rows →
  lpar1_data st !! k = Some v → lpar2_data st !! k = None →
  matched r = bool_decide (v = missing)
  ∧ value2 r = markup (if matched r then "green" else "red") missing.
Proof.
  intros Hrun Hin H1 H2.
  destruct (compare_keyed_row _ _ _ _ Hrun Hin) as (v1 & v2 & E1 & E2 & _ & Hv2 & Hm).
  rewrite pad_missing_lookup1, H1 in E1. injection E1 as <-.
  rewrite pad_missing_lookup2, H2 in E2.
  rewrite decide_True in E2 by (apply elem_of_dom; by eexists).
  injection E2 as <-. by rewrite Hm, Hv2.
Qed.

End rows.

Section display_names.

Import Diff.

Lemma partition_first (g rest : string) :
  Str.lacks "_" g = true → Str.partition "_" (g ++ "_" ++ rest) = Some (g, rest).
Proof.
  induction g as [|c g IH]; intros Hg; [done|].
  simpl in Hg. apply andb_true_iff in Hg as [Hc Hg].
  apply negb_true_iff in Hc. simpl. by rewrite Hc, (IH Hg).
Qed.

Lemma rpartition_lacks (s : string) :
  Str.lacks "_" s = true → Str.rpartition "_" s = None.
Proof.
  induction s as [|c s IH]; intros Hs; [done|].
  simpl in Hs. apply andb_true_iff in Hs as [Hc Hs].
  apply negb_true_iff in Hc. simpl. by rewrite (IH Hs), Hc.
Qed.

Lemma rpartition_last (p field : string) :
  Str.lacks "_" field = true → Str.rpartition "_" (p ++ "_" ++ field) = Some (p, field).
Proof.
  intros Hf. induction p as [|c p IH].
  - change (Str.rpartition "_" (String "_" field) = Some (EmptyString, field)).
    unfold Str.rpartition; fold Str.rpartition.
    by rewrite (rpartition_lacks _ Hf).
  - change (Str.rpartition "_" (String c (p ++ "_" ++ field)) = Some (String c p, field)).
    unfold Str.rpartition; fold Str.rpartition. by rewrite IH.
Qed.

End display_names.

Section comparison_claims.

Import Diff.

(** C2.  Run on the same two records, the comparison with [diffonly] set
    ends exactly as the comparison without it, and when that one produces
    a table, the diff-only table consists of its mismatched (red) rows,
    field for field and in the same order; no matched (green) row is
    kept. *)
Theorem diffonly_keeps_exactly_the_mismatched_rows (st : records) :
  (compare true st).1 = filter (λ r, matched r = false) <$> (compare false st).1.
Proof.
  unfold compare.
  pose proof (compare_keyed_diffonly st) as H.
  destruct (compare_keyed true st) as [t1 st1], (compare_keyed false st) as [t2 st2].
  cbn [fst] in *. subst t1.
  destruct t2 as [l| |]; [|done..]. cbn. by rewrite map_snd_filter_mismatched.
Qed.

(** C10.  The comparison step updates the two records it is given: after
    it, each of them has exactly the keys of the union of the two key
    sets, every value it had before is kept, and every key it lacked
    holds the string [missing]; whenever the two key sets differ, the
    records the caller holds are no longer the ones passed in. *)
Theorem compare_pads_the_records_in_place (diffonly : bool) (st : records) :
  let st' := (compare diffonly st).2 in
  dom (lpar1_data st') = allkeys st
  ∧ dom (lpar2_data st') = allkeys st
  ∧ (∀ k v, lpar1_data st !! k = Some v → lpar1_data st' !! k = Some v)
  ∧ (∀ k v, lpar2_data st !! k = Some v → lpar2_data st' !! k = Some v)
  ∧ (∀ k, k ∈ allkeys st → k ∉ dom (lpar1_data st) →
          lpar1_data st' !! k = Some (Some "missing"))
  ∧ (∀ k, k ∈ allkeys st → k ∉ dom (lpar2_data st) →
          lpar2_data st' !! k = Some (Some "missing"))
  ∧ (dom (lpar1_data st) ≠ dom (lpar2_data st) → st' ≠ st).
Proof.
  intros st'. subst st'. rewrite compare_snd.
  split; [apply pad_missing_dom1|]. split; [apply pad_missing_dom2|].
  split; [|split; [|split; [|split]]].
  - intros k v Hk. by rewrite pad_missing_lookup1, Hk.
  - intros k v Hk. by rewrite pad_missing_lookup2, Hk.
  - intros k Hk H1. rewrite pad_missing_lookup1.
    assert (lpar1_data st !! k = None) as -> by by apply not_elem_of_dom.
    unfold allkeys in Hk. apply elem_of_union in Hk as [?|?]; [done|].
    by rewrite decide_True.
  - intros k Hk H2. rewrite pad_missing_lookup2.
    assert (lpar2_data st !! k = None) as -> by by apply not_elem_of_dom.
    unfold allkeys in Hk. apply elem_of_union in Hk as [?|?]; [|done].
    by rewrite decide_True.
  - intros Hdom Heq. apply Hdom.
    rewrite <- Heq at 1. rewrite <- Heq at 2.
    by rewrite pad_missing_dom1, pad_missing_dom2.
Qed.

End comparison_claims.

(** * Properties of the session and of the profile fetch *)

Section session.

Import Hmc.

Context (cfg : Cfg.config)
        (fromstring : string → option ET.Element)
        (net : Requests.request → Requests.response).

Lemma bind_ok {A B} (m : M A) (k : A → M B) w a w' :
  m w = (Ok a, w') → (m ≫= k) w = k a w'.
Proof. intros H. unfold mbind, M_bind. by rewrite H. Qed.

Lemma bind_exit {A B} (m : M A) (k : A → M B) w c w' :
  m w = (Exit c, w') → (m ≫= k) w = (Exit c, w').
Proof. intros H. unfold mbind, M_bind. by rewrite H. Qed.

Lemma bind_raise {A B} (m : M A) (k : A → M B) w e w' :
  m w = (Raise e, w') → (m ≫= k) w = (Raise e, w').
Proof. intros H. unfold mbind, M_bind. by rewrite H. Qed.

Lemma self_get_live w self o :
  objects w !! self = Some o → self_get self w = (Ok o, w).
Proof. intros H. unfold self_get. by rewrite H. Qed.

Lemma check_connected_open w self o context :
  objects w !! self = Some o → connected o = true →
  check_connected self context w = (Ok tt, w).
Proof.
  intros Ho Hc. unfold check_connected.
  rewrite (bind_ok _ _ _ _ _ (self_get_live _ _ _ Ho)). by rewrite Hc.
Qed.

Lemma check_connected_closed w self o context :
  objects w !! self = Some o → connected o = false →
  check_connected self context w =
    (Exit (Some 42),
     World (objects w) (requests w)
       (console w ++ ["[red]Attempt to " ++ context ++ " when not logged on. Halting![/red]"])
       (atexit w)).
Proof.
  intros Ho Hc. unfold check_connected.
  rewrite (bind_ok _ _ _ _ _ (self_get_live _ _ _ Ho)). by rewrite Hc.
Qed.

Lemma cleanup_closed w self o :
  objects w !! self = Some o → connected o = false → cleanup net self w = (Ok tt, w).
Proof.
  intros Ho Hc. unfold cleanup.
  rewrite (bind_ok _ _ _ _ _ (self_get_live _ _ _ Ho)). by rewrite Hc.
Qed.

(** C4, as the code has it.  [logoff] on a session that is not connected
    sends no request and leaves every session object as it was, but it
    does not return: the [check_connected] guard prints its message and
    ends the program with exit status 42. *)
Theorem logoff_when_closed_halts (w : world) (self : nat) (o : HMC) :
  objects w !! self = Some o → connected o = false →
  logoff net self w =
    (Exit (Some 42),
     World (objects w) (requests w)
       (console w ++ ["[red]Attempt to logoff when not logged on. Halting![/red]"])
       (atexit w)).
Proof.
  intros Ho Hc. unfold logoff.
  by rewrite (bind_exit _ _ _ _ _ (check_connected_closed _ _ _ "logoff" Ho Hc)).
Qed.

(** C9.  When the answer to the logon request has a status other than
    200, [logon] ends the program with that status as exit code; the
    session object keeps the token it had and stays disconnected (the host
    name, assigned before the request is sent, is the only attribute
    written), and the one request sent is the logon request. *)
Theorem logon_rejected_leaves_session_closed
    (w : world) (self : nat) (o : HMC) (hmc user passwd : string) :
  objects w !! self = Some o → connected o = false →
  Requests.status_code (net (logon_request hmc user passwd)) ≠ 200 →
  ∃ w' o',
    logon fromstring net self hmc user passwd w
      = (Exit (Some (Requests.status_code (net (logon_request hmc user passwd)))), w')
      ∧ objects w' !! self = Some o'
      ∧ token o' = token o
      ∧ connected o' = false
      ∧ hmc_name o' = hmc
      ∧ requests w' = (requests w ++ [logon_request hmc user passwd])%list
      ∧ console w' = (console w ++ ["[red]Error: HMC logon failed[/red]"])%list.
Proof.
  intros Ho Hc Hst. exists (World (<[self := set_hmc_name o hmc]> (objects w))
    (requests w ++ [logon_request hmc user passwd])
    (console w ++ ["[red]Error: HMC logon failed[/red]"]) (atexit w)),
    (set_hmc_name o hmc). split.
  - unfold logon. rewrite (bind_ok _ _ _ _ _ (self_get_live _ _ _ Ho)), Hc.
    unfold self_set, send, console_print, sys_exit, lift, mbind, M_bind. cbn.
    rewrite bool_decide_eq_true_2 by done. reflexivity.
  - cbn. split; [|done].
    apply list_lookup_insert_eq. by eapply lookup_lt_Some.
Qed.

(** The same for the constructor [HMC(hmc, user, passwd)]: the new object
    is left with the empty token and disconnected, and its [cleanup] is not
    registered. *)
Lemma init_rejected w hmc user passwd :
  Requests.status_code (net (logon_request hmc user passwd)) ≠ 200 →
  init cfg fromstring net hmc user passwd w =
    (Exit (Some (Requests.status_code (net (logon_request hmc user passwd)))),
     World (objects w ++ [Obj hmc (Some EmptyString) (Cfg.ssl_verify cfg)
                            (Cfg.debug cfg) false])
       (requests w ++ [logon_request hmc user passwd])
       (console w ++ ["[red]Error: HMC logon failed[/red]"]) (atexit w)).
Proof.
  intros Hst.
  unfold init, logon, new_object, self_get, self_set, send, console_print,
    sys_exit, lift, mbind, M_bind.
  cbn. rewrite lookup_app_r, Nat.sub_diag by done. cbn.
  rewrite bool_decide_eq_true_2 by done.
  by rewrite insert_app_r_alt, Nat.sub_diag by done.
Qed.

Lemma add_requests_nil w : Run.add_requests w [] = w.
Proof. destruct w. unfold Run.add_requests. cbn. by rewrite app_nil_r. Qed.

Lemma add_requests_app w l1 l2 :
  Run.add_requests (Run.add_requests w l1) l2 = Run.add_requests w (l1 ++ l2).
Proof. unfold Run.add_requests. cbn. by rewrite app_assoc. Qed.

(** On a connected session, [get_lpar_config] reads the host name and the
    token, sends its requests and touches nothing else: outcome and
    requests are those of [Run.fetch]. *)
Lemma get_lpar_config_frame w self o lpar :
  objects w !! self = Some o → connected o = true →
  get_lpar_config cfg fromstring net self lpar w =
    ((Run.fetch cfg fromstring net (hmc_name o) (token o) lpar).1,
     Run.add_requests w (Run.fetch cfg fromstring net (hmc_name o) (token o) lpar).2).
Proof.
  intros Ho Hc. unfold Run.fetch, Run.session_world, get_lpar_config.
  rewrite (bind_ok _ _ _ _ _ (check_connected_open _ _ _ _ Ho Hc)).
  rewrite (bind_ok _ _ _ _ _ (self_get_live _ _ _ Ho)).
  unfold check_connected, self_get, send, lift, mbind, M_bind, mret, M_ret,
    Run.add_requests.
  cbn.
  repeat (case_match; simplify_eq/=; try rewrite <- app_assoc; try done).
Qed.

(** The requests of a fetch are read requests. *)
Lemma fetch_sends_get hmc_name token lpar :
  Forall (λ r, Requests.method r = Requests.GET)
    (Run.fetch cfg fromstring net hmc_name token lpar).2.
Proof.
  unfold Run.fetch, Run.session_world, get_lpar_config, check_connected, self_get,
    send, lift, mbind, M_bind, mret, M_ret.
  cbn.
  repeat (case_match; simplify_eq/=; try done); repeat constructor.
Qed.

End session.

Section failover.

Import Hmc Run.

Context (cfg : Cfg.config)
        (fromstring : string → option ET.Element)
        (net : Requests.request → Requests.response)
        (hmc_user hmc_pass : string).

#[local] Abbreviation host_ok := (Run.host_ok fromstring net hmc_user hmc_pass).
#[local] Abbreviation host_token := (Run.host_token fromstring net hmc_user hmc_pass).
#[local] Abbreviation found_on := (Run.found_on cfg fromstring net hmc_user hmc_pass).
#[local] Abbreviation found_value := (Run.found_value cfg fromstring net hmc_user hmc_pass).
#[local] Abbreviation fetch_log := (Run.fetch_log cfg fromstring net hmc_user hmc_pass).
#[local] Abbreviation fetch_returns := (Run.fetch_returns cfg fromstring net hmc_user hmc_pass).
#[local] Abbreviation resolve := (Run.resolve cfg fromstring net hmc_user hmc_pass).
#[local] Abbreviation scan := (Script.scan cfg fromstring net hmc_user hmc_pass).

#[local] Abbreviation opened := (Run.opened cfg fromstring net hmc_user hmc_pass).
#[local] Abbreviation scan_log := (Run.scan_log cfg fromstring net hmc_user hmc_pass).

Lemma init_accepted w hmc :
  host_ok hmc →
  init cfg fromstring net hmc hmc_user hmc_pass w =
    (Ok (length (objects w)),
     World (objects w ++ [opened hmc])
       (requests w ++ [logon_request hmc hmc_user hmc_pass])
       (console w) (atexit w ++ [length (objects w)])).
Proof.
  intros (Hst & [t Ht] & _). unfold Run.opened, Run.host_token. rewrite Ht.
  unfold Run.logon_token in Ht.
  destruct (fromstring _) as [x|] eqn:Hx; [|done]. cbn in Ht.
  destruct (ET.children x !! 1%nat) as [tok|] eqn:Htok; [|done]. cbn in Ht.
  injection Ht as <-.
  unfold init, logon, new_object, self_get, self_set, atexit_register, send,
    console_print, sys_exit, lift, parse, list_item, mbind, M_bind, mret, M_ret.
  cbn. rewrite !lookup_app_r, !Nat.sub_diag by done. cbn.
  rewrite bool_decide_eq_false_2 by (by intros ?). rewrite Hx. cbn.
  rewrite Htok. cbn.
  rewrite !insert_app_r_alt, !Nat.sub_diag by done. cbn.
  rewrite !lookup_app_r, !Nat.sub_diag by done. cbn.
  rewrite !insert_app_r_alt, !Nat.sub_diag by done. cbn.
  rewrite !lookup_app_r, !Nat.sub_diag by done. cbn.
  rewrite !insert_app_r_alt, !Nat.sub_diag by done. cbn.
  reflexivity.
Qed.

Lemma logoff_accepted w self o :
  objects w !! self = Some o → connected o = true →
  Requests.status_code (net (logoff_request (hmc_name o) (token o))) ∈ ok_return_codes →
  logoff net self w =
    (Ok tt,
     World (<[self := set_connected o false]> (objects w))
       (requests w ++ [logoff_request (hmc_name o) (token o)])
       (console w) (atexit w)).
Proof.
  intros Ho Hc Hst. unfold logoff.
  rewrite (bind_ok _ _ _ _ _ (check_connected_open _ _ _ _ Ho Hc)).
  rewrite (bind_ok _ _ _ _ _ (self_get_live _ _ _ Ho)).
  unfold send, self_get, self_set, mbind, M_bind. cbn.
  rewrite bool_decide_eq_true_2 by done. cbn. by rewrite Ho.
Qed.

Lemma resolve_dict hmcs lpar v : is_dict v = true → resolve hmcs lpar v = v.
Proof.
  intros Hv. unfold Run.resolve. induction hmcs as [|h hs IH]; [done|].
  cbn. by rewrite Hv.
Qed.

Lemma resolve_cons h hs lpar v :
  resolve (h :: hs) lpar v = resolve hs lpar (if is_dict v then v else found_value h lpar).
Proof. reflexivity. Qed.

(** One fetch inside the host loop: skipped when the variable already
    holds a dictionary. *)
Lemma fetch_step w self h lpar (v : pyval) :
  objects w !! self = Some (opened h) →
  (∃ a, found_on h lpar = Ok a) →
  (if negb (is_dict v) then get_lpar_config cfg fromstring net self lpar else mret v) w =
    (Ok (if is_dict v then v else found_value h lpar),
     add_requests w (if is_dict v then [] else fetch_log h lpar)).
Proof.
  intros Ho [a Ha]. destruct (is_dict v); cbn.
  - by rewrite add_requests_nil.
  - rewrite (get_lpar_config_frame _ _ _ _ _ _ _ Ho eq_refl). cbn.
    unfold Run.found_value, Run.fetch_log. unfold Run.found_on in *.
    by rewrite Ha.
Qed.

(** The host loop, when every host accepts logon and logoff and every
    fetch returns. *)
Lemma scan_run hmcs lpar1_name lpar2_name :
  (∀ h, h ∈ hmcs → host_ok h ∧ fetch_returns lpar1_name lpar2_name h) →
  ∀ v1 v2 w, ∃ w',
    scan hmcs lpar1_name lpar2_name v1 v2 w =
      (Ok (resolve hmcs lpar1_name v1, resolve hmcs lpar2_name v2), w')
    ∧ requests w' = (requests w ++ scan_log hmcs lpar1_name lpar2_name v1 v2)%list
    ∧ console w' = console w.
Proof.
  induction hmcs as [|h hs IH]; intros Hhs v1 v2 w.
  - exists w. cbn. by rewrite app_nil_r.
  - cbn [Script.scan Run.scan_log].
    destruct (is_dict v1 && is_dict v2) eqn:Hboth.
    + apply andb_true_iff in Hboth as [H1 H2].
      exists w. rewrite !resolve_dict by done. by rewrite app_nil_r.
    + destruct (Hhs h) as [Hok [Hf1 Hf2]]; [by left|].
      rewrite (bind_ok _ _ _ _ _ (init_accepted w h Hok)).
      set (self := length (objects w)).
      set (w1 := World _ _ _ _).
      assert (objects w1 !! self = Some (opened h)) as Ho1.
      { subst w1 self. cbn. by rewrite lookup_app_r, Nat.sub_diag. }
      rewrite (bind_ok _ _ _ _ _ (fetch_step w1 self h lpar1_name v1 Ho1 Hf1)).
      set (w2 := add_requests w1 _).
      rewrite (bind_ok _ _ _ _ _ (fetch_step w2 self h lpar2_name v2 Ho1 Hf2)).
      set (w3 := add_requests w2 _).
      destruct Hok as (_ & _ & Hoff).
      rewrite (bind_ok _ _ _ _ _
                 (logoff_accepted w3 self (opened h) Ho1 eq_refl Hoff)).
      set (w4 := World _ _ _ _).
      destruct (IH (λ h' Hh', Hhs h' (list_elem_of_further _ _ _ Hh'))
                  (if is_dict v1 then v1 else found_value h lpar1_name)
                  (if is_dict v2 then v2 else found_value h lpar2_name) w4)
        as (w' & Hrun & Hreq & Hcon).
      exists w'. rewrite !resolve_cons. split; [exact Hrun|]. split; [|exact Hcon].
      rewrite Hreq. subst w4 w3 w2 w1. cbn. by rewrite <- !app_assoc.
Qed.

Lemma resolve_snoc (hs : list string) h lpar v :
  resolve (hs ++ [h])%list lpar v =
    if is_dict (resolve hs lpar v) then resolve hs lpar v else found_value h lpar.
Proof. unfold Run.resolve. by rewrite foldl_app. Qed.

Lemma resolve_not_found hs lpar v :
  is_dict v = false →
  (∀ h, h ∈ hs → is_dict (found_value h lpar) = false) →
  is_dict (resolve hs lpar v) = false.
Proof.
  revert v. induction hs as [|h hs IH]; intros v Hv Hhs; [done|].
  rewrite resolve_cons, Hv. apply IH.
  - apply Hhs. by left.
  - intros h' Hh'. apply Hhs. by right.
Qed.

Lemma found_value_ok h lpar v : found_on h lpar = Ok v → found_value h lpar = v.
Proof. intros H. unfold Run.found_value. by rewrite H. Qed.

(** C7.  With the hosts [h1; h2], when the fetch of a partition (the first
    or the second of the pair) answers "not found" (code 1) on [h1] and
    returns a record on [h2], the host loop ends with that record for the
    partition; the requests sent are the logon to [h1], the read requests
    of the fetches on [h1], the logoff from [h1] and only then the logon to
    [h2] and what follows it.  With any list of hosts on none of which the
    partition is found, the loop ends with the outcome of the fetch on the
    last host. *)
Theorem failover_later_success_and_last_outcome
    (lpar1_name lpar2_name : string) (first : bool) (w : world) :
  let lpar := if first then lpar1_name else lpar2_name in
  let pick := λ found : pyval * pyval, if first then found.1 else found.2 in
  (∀ h1 h2 d,
     host_ok h1 → host_ok h2 →
     fetch_returns lpar1_name lpar2_name h1 →
     fetch_returns lpar1_name lpar2_name h2 →
     found_on h1 lpar = Ok (PyInt 1) →
     found_on h2 lpar = Ok (PyDict d) →
     ∃ found w' l2,
       scan [h1; h2] lpar1_name lpar2_name PyNone PyNone w = (Ok found, w')
       ∧ pick found = PyDict d
       ∧ requests w' =
           (requests w ++ [logon_request h1 hmc_user hmc_pass]
              ++ (fetch_log h1 lpar1_name ++ fetch_log h1 lpar2_name)
              ++ [logoff_request h1 (host_token h1);
                  logon_request h2 hmc_user hmc_pass] ++ l2)%list
       ∧ Forall (λ r, Requests.method r = Requests.GET)
           (fetch_log h1 lpar1_name ++ fetch_log h1 lpar2_name))
  ∧ (∀ (hmcs : list string) h_last v,
       (∀ h, h ∈ (hmcs ++ [h_last])%list →
             host_ok h ∧ fetch_returns lpar1_name lpar2_name h) →
       (∀ h, h ∈ (hmcs ++ [h_last])%list → is_dict (found_value h lpar) = false) →
       found_on h_last lpar = Ok v →
       ∃ found w',
         scan (hmcs ++ [h_last])%list lpar1_name lpar2_name PyNone PyNone w = (Ok found, w')
         ∧ pick found = v).
Proof.
  intros lpar pick. split.
  - intros h1 h2 d Hok1 Hok2 Hr1 Hr2 Hf1 Hf2.
    destruct (scan_run [h1; h2] lpar1_name lpar2_name) with (v1 := PyNone)
      (v2 := PyNone) (w := w) as (w' & Hrun & Hreq & _).
    { intros h Hh. repeat (apply elem_of_cons in Hh as [->|Hh]); [done..|].
      by apply not_elem_of_nil in Hh. }
    apply found_value_ok in Hf1, Hf2.
    exists (resolve [h1; h2] lpar1_name PyNone, resolve [h1; h2] lpar2_name PyNone), w',
      ((if is_dict (found_value h1 lpar1_name) then [] else fetch_log h2 lpar1_name)
       ++ (if is_dict (found_value h1 lpar2_name) then [] else fetch_log h2 lpar2_name)
       ++ [logoff_request h2 (host_token h2)])%list.
    split; [exact Hrun|]. split; [|split].
    + subst pick lpar. destruct first; cbn; by rewrite Hf1, Hf2.
    + rewrite Hreq. cbn [Run.scan_log is_dict andb].
      assert ((is_dict (found_value h1 lpar1_name)
               && is_dict (found_value h1 lpar2_name)) = false) as ->.
      { subst lpar. destruct first; rewrite Hf1; [done|]. apply andb_false_r. }
      rewrite app_nil_r. f_equal. cbn [app]. f_equal.
      by rewrite <- app_assoc.
    + apply Forall_app. split; apply fetch_sends_get.
  - intros hmcs h_last v Hhs Hnone Hlast.
    destruct (scan_run (hmcs ++ [h_last]) lpar1_name lpar2_name Hhs PyNone PyNone w)
      as (w' & Hrun & _).
    eexists _, w'. split; [exact Hrun|].
    apply found_value_ok in Hlast.
    assert (∀ h, h ∈ hmcs → is_dict (found_value h lpar) = false) as Hfront.
    { intros h Hh. apply Hnone, elem_of_app. by left. }
    subst pick lpar. destruct first; cbn [fst snd];
      by rewrite resolve_snoc, resolve_not_found.
Qed.

End failover.

Section extraction.

Import Hmc.

Context (cfg : Cfg.config)
        (fromstring : string → option ET.Element)
        (net : Requests.request → Requests.response).

#[local] Abbreviation from_enabled_group := (from_enabled_group cfg).

Lemma single_fields_dom prefix attribs x (d : dict) k :
  k ∈ dom (single_fields prefix attribs x d) →
  k ∈ dom d ∨ ∃ attrib, k = prefix ++ attrib.
Proof.
  unfold single_fields. revert d. induction attribs as [|a attribs IH]; intros d Hk.
  - by left.
  - cbn [foldl] in Hk. apply IH in Hk as [Hk|Hk]; [|by right].
    destruct (ET.find_deep a x); rewrite dom_insert_L in Hk;
      (apply elem_of_union in Hk as [->%elem_of_singleton|Hk]; [right; eauto|by left]).
Qed.

Lemma adapter_fields_dom prefix attribs adapter index (d d' : dict) k :
  adapter_fields prefix attribs adapter index d = Ok d' →
  k ∈ dom d' → k ∈ dom d ∨ ∃ rest, k = prefix ++ rest.
Proof.
  revert d. induction attribs as [|a attribs IH]; intros d Hrun Hk.
  - cbn in Hrun. injection Hrun as <-. by left.
  - cbn [adapter_fields] in Hrun. destruct (ET.find a adapter); [|done].
    destruct (IH _ Hrun Hk) as [Hk'|Hk']; [|by right].
    rewrite dom_insert_L in Hk'.
    apply elem_of_union in Hk' as [->%elem_of_singleton|Hk']; [right; eauto|by left].
Qed.

Lemma adapter_group_dom prefix attribs adapters index (d d' : dict) k :
  adapter_group prefix attribs adapters index d = Ok d' →
  k ∈ dom d' → k ∈ dom d ∨ ∃ rest, k = prefix ++ rest.
Proof.
  revert index d. induction adapters as [|a adapters IH]; intros index d Hrun Hk.
  - cbn in Hrun. injection Hrun as <-. by left.
  - cbn [adapter_group] in Hrun.
    destruct (adapter_fields prefix attribs a index d) as [d1| |] eqn:H1; [|done..].
    cbn in Hrun. destruct (IH _ _ Hrun Hk) as [Hk'|Hk']; [|by right].
    eapply adapter_fields_dom; eauto.
Qed.

Lemma guarded_single_fields (b : bool) g prefix attribs x (d : dict) k :
  (b = true → group_enabled cfg g = true) →
  (∀ r, prefix ++ r = group_prefix g ++ "_" ++ r) →
  k ∈ dom (if b then single_fields prefix attribs x d else d) →
  k ∈ dom d ∨ from_enabled_group k.
Proof.
  intros Hg Hp Hk. destruct b; [|by left].
  apply single_fields_dom in Hk as [Hk|[a ->]]; [by left|].
  right. exists g, a. split; [by apply Hg|apply Hp].
Qed.

Lemma guarded_adapter_group (b : bool) g prefix adapter attribs adapters index
    (d d' : dict) k :
  (b = true → group_enabled cfg g = true) →
  (∀ r, prefix ++ r = group_prefix g ++ "_" ++ adapter ++ r) →
  (if b then adapter_group prefix attribs adapters index d else Ok d) = Ok d' →
  k ∈ dom d' → k ∈ dom d ∨ from_enabled_group k.
Proof.
  intros Hg Hp Hrun Hk. destruct b; [|injection Hrun as <-; by left].
  destruct (adapter_group_dom _ _ _ _ _ _ _ Hrun Hk) as [?|[r ->]]; [by left|].
  right. exists g, (adapter ++ r). split; [by apply Hg|apply Hp].
Qed.

(** Every key of the record comes from a loop guarded by the flag of its
    group. *)
Lemma profile_fields_dom x (d d' : dict) k :
  profile_fields cfg x d = Ok d' →
  k ∈ dom d' → k ∈ dom d ∨ from_enabled_group k.
Proof.
  unfold profile_fields. intros Hrun Hk.
  destruct (if Cfg.compare_networking cfg then _ else _) as [d4| |] eqn:E4;
    [|done..].
  cbn in Hrun.
  destruct (if Cfg.compare_virtual_fc cfg then _ else _) as [d5| |] eqn:E5;
    [|done..].
  cbn in Hrun.
  destruct (guarded_adapter_group (Cfg.compare_virtual_scsi cfg) ScsiAdapter
              "vSCSI_VirtualScsiAdapter_" "VirtualScsiAdapter_" _ _ _ _ _ k (λ H, H) (λ r, eq_refl) Hrun Hk)
    as [Hk5|?]; [|by right].
  destruct (guarded_adapter_group (Cfg.compare_virtual_fc cfg) FibreChannelAdapter
              "vFC_VirtualFcAdapter_" "VirtualFcAdapter_" _ _ _ _ _ k (λ H, H) (λ r, eq_refl) E5 Hk5)
    as [Hk4|?]; [|by right].
  destruct (guarded_adapter_group (Cfg.compare_networking cfg) NetworkAdapter
              "Network_VirtualEthAdapter_" "VirtualEthAdapter_" _ _ _ _ _ k (λ H, H) (λ r, eq_refl) E4 Hk4)
    as [Hk3|?]; [|by right].
  destruct (guarded_single_fields (Cfg.compare_memory cfg) Memory "Memory_" _ _ _ k
              (λ H, H) (λ r, eq_refl) Hk3) as [Hk2|?]; [|by right].
  destruct (guarded_single_fields (Cfg.compare_processors cfg) Processor "Processor_" _ _ _ k
              (λ H, H) (λ r, eq_refl) Hk2) as [Hk1|?]; [|by right].
  destruct (guarded_single_fields (Cfg.compare_general cfg) General "General_" _ _ _ k
              (λ H, H) (λ r, eq_refl) Hk1) as [Hk0|?]; [|by right].
  by left.
Qed.

Lemma get_lpar_config_keys self lpar w (d : dict) k :
  (get_lpar_config cfg fromstring net self lpar w).1 = Ok (PyDict d) →
  k ∈ dom d → from_enabled_group k.
Proof.
  unfold get_lpar_config. intros Hrun Hk.
  unfold mbind, M_bind, lift, send, mret, M_ret in Hrun.
  destruct (check_connected _ _ _) as [[[]| |] w1]; [|done..].
  destruct (self_get _ _) as [[o| |] w2]; [|done..].
  destruct (bool_decide (_ = 200)); [|by destruct (bool_decide _)].
  destruct (parse _ _) as [x1| |]; [|done..].
  destruct (ET.find_deep "AssociatedPartitionProfile" x1) as [e|]; [|done].
  destruct (ET.attrib e !! "href") as [u|]; [|done].
  destruct (bool_decide (_ = 200)); [|done].
  destruct (parse _ _) as [x2| |]; [|done..].
  destruct (profile_fields cfg x2 _) as [d1| |] eqn:E; [|done..].
  cbn in Hrun. injection Hrun as <-.
  destruct (profile_fields_dom _ _ _ k E Hk) as [Hk0|?]; [|done].
  destruct (guarded_single_fields (Cfg.compare_general cfg) General "General_" _ _ _ k
              (λ H, H) (λ r, eq_refl) Hk0) as [Hk1|?]; [|done].
  by rewrite dom_empty_L in Hk1.
Qed.

(** Keys of different groups do not share a group prefix. *)
Lemma group_prefix_exclusive g g' rest :
  g ≠ g' → Str.startswith (group_prefix g' ++ "_" ++ rest) (group_prefix g) = false.
Proof. intros Hne. by destruct g, g'. Qed.

(** C8.  Whatever the two documents contain, when [get_lpar_config]
    returns a record and the flag of a group is not set, no key of the
    record starts with the prefix of that group. *)
Theorem disabled_group_leaves_no_key
    (self : nat) (lpar : string) (w : world) (d : dict) (g : group) (k : string) :
  (get_lpar_config cfg fromstring net self lpar w).1 = Ok (PyDict d) →
  group_enabled cfg g = false →
  k ∈ dom d →
  Str.startswith k (group_prefix g) = false.
Proof.
  intros Hrun Hg Hk.
  destruct (get_lpar_config_keys _ _ _ _ _ Hrun Hk) as (g' & rest & Hg' & ->).
  apply group_prefix_exclusive. intros ->. congruence.
Qed.

End extraction.

Section fetched_records.

Import Hmc Diff.

Context (cfg : Cfg.config)
        (fromstring : string → option ET.Element)
        (net : Requests.request → Requests.response).

(** The keys [get_lpar_config] writes contain an underscore and start with
    one of the primary keys of the table. *)
Lemma from_enabled_group_shape k :
  from_enabled_group cfg k →
  Str.lacks "_" k = false
  ∧ ∃ primarykey, primarykey ∈ primarykeys ∧ Str.startswith k primarykey = true.
Proof.
  intros (g & rest & _ & ->). split; [by destruct g|].
  exists (group_prefix g). split; [destruct g; by compute_done|].
  destruct g; reflexivity.
Qed.

(** For two records as [get_lpar_config] builds them, the comparison
    produces its table, with one row for each key of the union of the two
    key sets. *)
Lemma compare_keyed_covers_fetched_records (d1 d2 : dict) :
  (∀ k, k ∈ dom d1 → from_enabled_group cfg k) →
  (∀ k, k ∈ dom d2 → from_enabled_group cfg k) →
  ∃ rows, (compare_keyed false (Records d1 d2)).1 = Ok rows
          ∧ map fst rows ≡ₚ elements (dom d1 ∪ dom d2).
Proof.
  intros H1 H2.
  assert (∀ k, k ∈ allkeys (Records d1 d2) → from_enabled_group cfg k) as Hall.
  { intros k [?|?]%elem_of_union; auto. }
  destruct (compare_keyed_returns false (Records d1 d2)) as [rows Hrows].
  { intros k Hk. by apply from_enabled_group_shape, Hall. }
  exists rows. split; [done|].
  destruct (compare_keyed_keys _ _ Hrows) as [Hnodup Hmem].
  apply NoDup_Permutation; [done|apply NoDup_elements|].
  intros k. rewrite Hmem, elem_of_elements. split; [by intros [? _]|].
  intros Hk. split; [done|]. by apply from_enabled_group_shape, Hall.
Qed.

(** A field element missing from an adapter element ends the extraction
    with an [AttributeError]. *)
Lemma adapter_fields_missing prefix attribs adapter index (d : dict) attrib :
  attrib ∈ attribs → ET.find attrib adapter = None →
  adapter_fields prefix attribs adapter index d = Raise AttributeError.
Proof.
  intros Hin Hnone. revert d. induction attribs as [|a attribs IH]; intros d.
  - by apply not_elem_of_nil in Hin.
  - cbn [adapter_fields]. destruct (ET.find a adapter) eqn:Ha; [|done].
    apply IH. apply elem_of_cons in Hin as [->|Hin]; [congruence|done].
Qed.

(** A default profile that cannot be read gives the return code 4. *)
Lemma unreadable_profile_code hmc_name token lpar x e u :
  Requests.status_code (net (search_request hmc_name token lpar)) = 200 →
  fromstring (Requests.text (net (search_request hmc_name token lpar))) = Some x →
  ET.find_deep "AssociatedPartitionProfile" x = Some e →
  ET.attrib e !! "href" = Some u →
  Requests.status_code (net (profile_request u token)) ≠ 200 →
  (Run.fetch cfg fromstring net hmc_name token lpar).1 = Ok (PyInt 4).
Proof.
  intros Hs Hx He Hu Hp.
  unfold Run.fetch, Run.session_world, get_lpar_config, check_connected, self_get,
    send, lift, parse, mbind, M_bind, mret, M_ret.
  cbn. rewrite Hs, Hx. cbn. rewrite He, Hu. cbn.
  rewrite (bool_decide_eq_true_2 (200 = 200)) by done.
  by rewrite (bool_decide_eq_false_2 (_ = 200)) by done.
Qed.

(** The script has no message for the code 4: [check_data] lets it pass,
    and the call of [keys] on it raises. *)
Lemma check_data_passes_code_4 lpar1_name lpar2_name (d : dict) w :
  Script.check_data lpar1_name lpar2_name (PyInt 4) (PyDict d) w = (Ok tt, w)
  ∧ Script.keys_owner (PyInt 4) = Raise AttributeError.
Proof. by split. Qed.

End fetched_records.

(** * The worked example *)

Section example.

Import Hmc Diff.

#[local] Abbreviation found_on :=
  (Run.found_on Demo.cfg Demo.fromstring Demo.net Demo.hmc_user Demo.hmc_pass).
#[local] Abbreviation process_pair :=
  (Script.process_pair Demo.cfg Demo.fromstring Demo.net Demo.hmc_user Demo.hmc_pass).

Lemma demo_prod01_on_hmc01 : found_on "hmc01" "prod01" = Ok (PyInt 1).
Proof. vm_compute. reflexivity. Qed.

Lemma demo_prod01_on_hmc02 : found_on "hmc02" "prod01" = Ok (PyDict Demo.prod01).
Proof. vm_compute. reflexivity. Qed.

Lemma demo_dr01_on_hmc01 : found_on "hmc01" "dr01" = Ok (PyDict Demo.dr01).
Proof. vm_compute. reflexivity. Qed.

Lemma demo_dr01_on_hmc02 : found_on "hmc02" "dr01" = Ok (PyInt 1).
Proof. vm_compute. reflexivity. Qed.

Lemma demo_host_ok hmc :
  hmc = "hmc01" ∨ hmc = "hmc02" →
  Run.host_ok Demo.fromstring Demo.net Demo.hmc_user Demo.hmc_pass hmc.
Proof.
  intros [->| ->]; (split; [reflexivity|split; [by eexists|]]);
    apply (bool_decide_unpack _); vm_compute; exact I.
Qed.

(** C1, at an input the comparison can receive.  prod01 has a network
    adapter on a virtual switch named "missing", dr01 has no adapter; the
    two records are the ones the fetch returns for them.  The key of the
    switch name is present in one record only, and its row is styled green
    (matched), with "missing" on both sides; with [diffonly] set the row is
    not shown at all. *)
Theorem one_sided_key_with_value_missing_is_matched :
  let k := "Network_VirtualEthAdapter_0_VirtualSwitchName" in
  let st := Records Demo.prod01 Demo.dr01 in
  found_on "hmc02" "prod01" = Ok (PyDict Demo.prod01)
  ∧ found_on "hmc01" "dr01" = Ok (PyDict Demo.dr01)
  ∧ Demo.prod01 !! k = Some (Some "missing")
  ∧ Demo.dr01 !! k = None
  ∧ (compare_keyed false st).1 =
      Ok [("General_CurrentProcessorCompatibilityMode",
           Row "CurrentProcessorCompatibilityMode"
             "[green]POWER9_Base[/green]" "[green]POWER9_Base[/green]");
          ("General_PartitionType",
           Row "PartitionType" "[green]AIX/Linux[/green]" "[green]AIX/Linux[/green]");
          ("General_ProfileName",
           Row "ProfileName" "[green]default[/green]" "[green]default[/green]");
          ("Network_VirtualEthAdapter_0_PortVLANID",
           Row "VirtualEthAdapter_0_PortVLANID" "[red]1[/red]" "[red]missing[/red]");
          ("Network_VirtualEthAdapter_0_VirtualSlotNumber",
           Row "VirtualEthAdapter_0_VirtualSlotNumber" "[red]2[/red]" "[red]missing[/red]");
          (k,
           Row "VirtualEthAdapter_0_VirtualSwitchName"
             "[green]missing[/green]" "[green]missing[/green]")]
  ∧ matched (Row "VirtualEthAdapter_0_VirtualSwitchName"
               "[green]missing[/green]" "[green]missing[/green]") = true
  ∧ (compare true st).1 =
      Ok [Row "VirtualEthAdapter_0_PortVLANID" "[red]1[/red]" "[red]missing[/red]";
          Row "VirtualEthAdapter_0_VirtualSlotNumber" "[red]2[/red]" "[red]missing[/red]"].
Proof. repeat split; vm_compute; reflexivity. Qed.

(** C3 fails on the key of an adapter field: the name shown keeps the
    adapter and its index. *)
Lemma adapter_display_name_is_not_the_bare_field :
  k_printname "Network" "Network_VirtualEthAdapter_0_PortVLANID"
    = Ok "VirtualEthAdapter_0_PortVLANID"
  ∧ k_printname "Network" "Network_VirtualEthAdapter_0_PortVLANID" ≠ Ok "PortVLANID".
Proof. split; [reflexivity|discriminate]. Qed.

(** C4 fails on a session that was closed before: [logoff] does not
    return, it ends the program with status 42 after printing. *)
Lemma logoff_on_closed_session_is_not_a_noop :
  logoff Demo.net 0 Demo.closed_session ≠ (Ok tt, Demo.closed_session)
  ∧ (logoff Demo.net 0 Demo.closed_session).1 = Exit (Some 42)
  ∧ console (logoff Demo.net 0 Demo.closed_session).2
      = ["[red]Attempt to logoff when not logged on. Halting![/red]"].
Proof. split; [discriminate|split; reflexivity]. Qed.

(** C5, at an input the fetch can receive.  The search for test01
    succeeds and names a profile, the profile request is answered with
    status 500: [get_lpar_config] returns 4, not 2.  With [hmc01] as the
    only host the script prints no message for it and ends with an
    [AttributeError] raised by [lpar1_data.keys()]. *)
Theorem unreadable_profile_returns_code_4 :
  Requests.status_code
    (Demo.net (search_request "hmc01" (Some "token-hmc01") "test01")) = 200
  ∧ Requests.status_code
      (Demo.net (profile_request (Demo.profile_url "hmc01" "test01")
                   (Some "token-hmc01"))) = 500
  ∧ found_on "hmc01" "test01" = Ok (PyInt 4)
  ∧ (Script.run Demo.net (process_pair false ["hmc01"] "test01:dr01") Demo.start).1
      = Raise AttributeError
  ∧ console (Script.run Demo.net (process_pair false ["hmc01"] "test01:dr01")
               Demo.start).2 = [].
Proof. repeat split; vm_compute; reflexivity. Qed.

(** C6, at an input the fetch can receive.  The profile of dev01 has a
    network adapter element without a [PortVLANID] child: the fetch
    raises [AttributeError], and so does the script. *)
Theorem adapter_without_field_raises :
  ET.findall_deep "ProfileClientNetworkAdapter"
    (Demo.profile_doc "default" [Demo.veth_without_vlan "2" "ETHERNET0"])
    = [Demo.veth_without_vlan "2" "ETHERNET0"]
  ∧ ET.find "PortVLANID" (Demo.veth_without_vlan "2" "ETHERNET0") = None
  ∧ found_on "hmc01" "dev01" = Raise AttributeError
  ∧ (Script.run Demo.net (process_pair false ["hmc01"] "dev01:dr01") Demo.start).1
      = Raise AttributeError.
Proof. repeat split; vm_compute; reflexivity. Qed.

End example.

Section display_name_claim.

Import Diff.

(** C3, as the code has it.  For a key of an adapter group (Network, vFC,
    vSCSI) the name shown is the key without its group prefix, that is
    everything after the first underscore: adapter, index and field.  For
    a key of another group the name shown is the text after the last
    underscore, which is the field name. *)
Theorem display_name_strips_the_group_prefix :
  (∀ primarykey rest : string,
     primarykey ∈ adapter_groups →
     k_printname primarykey (primarykey ++ "_" ++ rest) = Ok rest)
  ∧ (∀ primarykey before field : string,
       primarykey ∉ adapter_groups →
       Str.lacks "_" field = true →
       k_printname primarykey (before ++ "_" ++ field) = Ok field).
Proof.
  split.
  - intros primarykey rest Hin. unfold k_printname, Str.split1.
    rewrite bool_decide_eq_true_2 by done.
    rewrite partition_first; [done|].
    unfold adapter_groups in Hin.
    repeat (apply elem_of_cons in Hin as [->|Hin]; [reflexivity|]).
    by apply not_elem_of_nil in Hin.
  - intros primarykey before field Hnin Hfield. unfold k_printname, Str.rsplit1.
    rewrite bool_decide_eq_false_2 by done.
    by rewrite rpartition_last.
Qed.

(** The two cases on keys of the fetch. *)
Lemma display_name_strips_the_group_prefix_witness :
  k_printname "vFC" ("vFC" ++ "_" ++ "VirtualFcAdapter_1_AdapterType")
    = Ok "VirtualFcAdapter_1_AdapterType"
  ∧ k_printname "Processor" ("Processor" ++ "_" ++ "SharingMode") = Ok "SharingMode".
Proof.
  split.
  - apply (proj1 display_name_strips_the_group_prefix).
    apply (bool_decide_unpack _). vm_compute. exact I.
  - apply (proj2 display_name_strips_the_group_prefix).
    + apply (bool_decide_unpack _). vm_compute. exact I.
    + reflexivity.
Defined.

End display_name_claim.

Section witnesses.

Import Hmc Diff.

(** The records of the example after the comparison: dr01 has gained the
    keys of the adapter of prod01. *)
Lemma compare_pads_the_records_in_place_witness :
  lpar2_data (compare false (Records Demo.prod01 Demo.dr01)).2
    !! "Network_VirtualEthAdapter_0_PortVLANID" = Some (Some "missing")
  ∧ (compare false (Records Demo.prod01 Demo.dr01)).2 ≠ Records Demo.prod01 Demo.dr01.
Proof.
  destruct (compare_pads_the_records_in_place false (Records Demo.prod01 Demo.dr01))
    as (_ & _ & _ & _ & _ & Hpad & Hchanged).
  split.
  - apply Hpad; apply (bool_decide_unpack _); vm_compute; exact I.
  - apply Hchanged. apply (bool_decide_unpack _). vm_compute. exact I.
Defined.

(** [logoff] a second time on the session of the example. *)
Lemma logoff_when_closed_halts_witness :
  logoff Demo.net 0 Demo.closed_session =
    (Exit (Some 42),
     World (objects Demo.closed_session) (requests Demo.closed_session)
       (console Demo.closed_session
          ++ ["[red]Attempt to logoff when not logged on. Halting![/red]"])
       (atexit Demo.closed_session)).
Proof.
  apply (logoff_when_closed_halts Demo.net Demo.closed_session 0
           (Obj "hmc01" (Some "token-hmc01") false false false)); reflexivity.
Defined.

(** A session object as [__init__] creates it, and a host that answers
    the logon request with status 401. *)
Lemma logon_rejected_leaves_session_closed_witness :
  let w := World [Obj EmptyString (Some EmptyString) false false false] [] [] [] in
  ∃ w' o',
    logon Demo.fromstring Demo.net 0 "hmc03" "hscroot" "wrong" w = (Exit (Some 401), w')
    ∧ objects w' !! 0%nat = Some o'
    ∧ token o' = Some EmptyString
    ∧ connected o' = false
    ∧ hmc_name o' = "hmc03"
    ∧ requests w' = [logon_request "hmc03" "hscroot" "wrong"]
    ∧ console w' = ["[red]Error: HMC logon failed[/red]"].
Proof.
  apply (logon_rejected_leaves_session_closed Demo.fromstring Demo.net
           (World [Obj EmptyString (Some EmptyString) false false false] [] [] [])
           0 (Obj EmptyString (Some EmptyString) false false false)
           "hmc03" "hscroot" "wrong").
  - reflexivity.
  - reflexivity.
  - vm_compute. discriminate.
Defined.

(** The memory group is switched off in the example, and the profile
    documents do hold memory data. *)
Lemma disabled_group_leaves_no_key_witness :
  Str.startswith "General_ProfileName" (group_prefix Memory) = false
  ∧ ET.findall_deep "DesiredMemory"
      (Demo.profile_doc "default" [Demo.veth "2" "1" "missing"]) ≠ [].
Proof.
  split; [|discriminate].
  apply (disabled_group_leaves_no_key Demo.cfg Demo.fromstring Demo.net 0 "prod01"
           (Run.session_world Demo.cfg "hmc02" (Some "token-hmc02"))
           Demo.prod01 Memory "General_ProfileName").
  - vm_compute. reflexivity.
  - reflexivity.
  - apply (bool_decide_unpack _). vm_compute. exact I.
Defined.

(** prod01 is found on the second host only; lost01 is on neither. *)
Lemma failover_later_success_and_last_outcome_witness :
  (∃ found w' l2,
     Script.scan Demo.cfg Demo.fromstring Demo.net Demo.hmc_user Demo.hmc_pass
       ["hmc01"; "hmc02"] "prod01" "dr01" PyNone PyNone Demo.start = (Ok found, w')
     ∧ found.1 = PyDict Demo.prod01
     ∧ requests w' =
         (requests Demo.start
            ++ [logon_request "hmc01" Demo.hmc_user Demo.hmc_pass]
            ++ (Run.fetch_log Demo.cfg Demo.fromstring Demo.net Demo.hmc_user
                  Demo.hmc_pass "hmc01" "prod01"
                ++ Run.fetch_log Demo.cfg Demo.fromstring Demo.net Demo.hmc_user
                     Demo.hmc_pass "hmc01" "dr01")
            ++ [logoff_request "hmc01"
                  (Run.host_token Demo.fromstring Demo.net Demo.hmc_user Demo.hmc_pass
                     "hmc01");
                logon_request "hmc02" Demo.hmc_user Demo.hmc_pass] ++ l2)%list
     ∧ Forall (λ r, Requests.method r = Requests.GET)
         (Run.fetch_log Demo.cfg Demo.fromstring Demo.net Demo.hmc_user
            Demo.hmc_pass "hmc01" "prod01"
          ++ Run.fetch_log Demo.cfg Demo.fromstring Demo.net Demo.hmc_user
               Demo.hmc_pass "hmc01" "dr01"))
  ∧ (∃ found w',
       Script.scan Demo.cfg Demo.fromstring Demo.net Demo.hmc_user Demo.hmc_pass
         (["hmc01"] ++ ["hmc02"])%list "prod01" "lost01" PyNone PyNone Demo.start
         = (Ok found, w')
       ∧ found.2 = PyInt 1).
Proof.
  split.
  - apply (proj1 (failover_later_success_and_last_outcome Demo.cfg Demo.fromstring
                    Demo.net Demo.hmc_user Demo.hmc_pass "prod01" "dr01" true
                    Demo.start) "hmc01" "hmc02" Demo.prod01).
    + apply demo_host_ok. by left.
    + apply demo_host_ok. by right.
    + split; eexists; vm_compute; reflexivity.
    + split; eexists; vm_compute; reflexivity.
    + vm_compute. reflexivity.
    + vm_compute. reflexivity.
  - apply (proj2 (failover_later_success_and_last_outcome Demo.cfg Demo.fromstring
                    Demo.net Demo.hmc_user Demo.hmc_pass "prod01" "lost01" false
                    Demo.start) ["hmc01"] "hmc02" (PyInt 1)).
    + intros h Hh. apply elem_of_cons in Hh as [->|Hh];
        [|apply elem_of_cons in Hh as [->|Hh]; [|by apply not_elem_of_nil in Hh]].
      * split; [apply demo_host_ok; by left|].
        split; eexists; vm_compute; reflexivity.
      * split; [apply demo_host_ok; by right|].
        split; eexists; vm_compute; reflexivity.
    + intros h Hh. apply elem_of_cons in Hh as [->|Hh];
        [|apply elem_of_cons in Hh as [->|Hh]; [|by apply not_elem_of_nil in Hh]];
        vm_compute; reflexivity.
    + vm_compute. reflexivity.
Defined.

End witnesses.

(** * Further properties of the comparison step *)

Section comparison_table.

Import Diff.

Lemma StronglySorted_filter {A} (R : relation A) (P : A → Prop)
    `{!∀ x, Decision (P x)} (l : list A) :
  StronglySorted R l → StronglySorted R (filter P l).
Proof.
  induction 1 as [|x l Hl IH Hx]; [constructor|].
  rewrite filter_cons. destruct (decide (P x)); [|done].
  constructor; [done|]. apply Forall_forall. intros y [_ Hy]%list_elem_of_filter.
  by eapply Forall_forall in Hx.
Qed.

Lemma sorted_ascending (s : gset string) : StronglySorted String.le (sorted s).
Proof. unfold sorted. apply (StronglySorted_merge_sort _). Qed.

Lemma compare_keyed_table st :
  (compare_keyed false st).1 =
    table_loop false
      (filter (λ k, lpar1_data (pad_missing st) !! k = lpar2_data (pad_missing st) !! k)
         (elements (dom (lpar1_data (pad_missing st)))))
      (allkeys st) (pad_missing st).
Proof. unfold compare_keyed. cbn [fst]. by rewrite samevalues_padded, outcome_bind_ok. Qed.

(** X1.  The table has no two rows for one key, and a key of the two records
    has a row exactly when it starts with one of the six primary keys: a
    key of any other form is left out of the table without a message. *)
Theorem table_rows_are_the_grouped_keys (st : records) (rows : list (string * row)) :
  (compare_keyed false st).1 = Ok rows →
  NoDup (map fst rows)
  ∧ ∀ k, k ∈ map fst rows ↔
      k ∈ allkeys st ∧ ∃ primarykey, primarykey ∈ primarykeys
                                     ∧ Str.startswith k primarykey = true.
Proof. apply compare_keyed_keys. Qed.

(** X2.  The order of the rows: the groups follow the list of primary keys
    (General, Processor, Memory, Network, vFC, vSCSI), and inside a group
    the rows are in ascending order of their full keys. *)
Theorem table_rows_are_grouped_then_sorted (st : records) (rows : list (string * row)) :
  (compare_keyed false st).1 = Ok rows →
  map fst rows =
    flat_map (λ primarykey,
                filter (λ k, Str.startswith k primarykey = true) (sorted (allkeys st)))
      primarykeys
  ∧ ∀ primarykey,
      StronglySorted String.le
        (filter (λ k, Str.startswith k primarykey = true) (sorted (allkeys st))).
Proof.
  rewrite compare_keyed_table. intros [Hkeys _]%table_loop_all. split; [done|].
  intros primarykey. apply StronglySorted_filter, sorted_ascending.
Qed.

(** X3.  What a row shows: the display name derived from its key, and in the
    two value cells the values of the two padded records, both in green
    markup when the values are equal and both in red markup otherwise. *)
Theorem table_row_cells (st : records) (rows : list (string * row)) (k : string) (r : row) :
  (compare_keyed false st).1 = Ok rows → (k, r) ∈ rows →
  ∃ primarykey name v1 v2,
    primarykey ∈ primarykeys
    ∧ Str.startswith k primarykey = true
    ∧ k_printname primarykey k = Ok name
    ∧ lpar1_data (pad_missing st) !! k = Some v1
    ∧ lpar2_data (pad_missing st) !! k = Some v2
    ∧ r = Row name (markup (if bool_decide (v1 = v2) then "green" else "red") v1)
                   (markup (if bool_decide (v1 = v2) then "green" else "red") v2)
    ∧ matched r = bool_decide (v1 = v2).
Proof.
  intros Hrun Hin.
  destruct (compare_keyed_row _ _ _ _ Hrun Hin) as (v1 & v2 & E1 & E2 & H1 & H2 & Hm).
  rewrite compare_keyed_table in Hrun. apply table_loop_all in Hrun as [_ Hrows].
  destruct (Hrows k r Hin) as (pk & name & Hpk & Hstart & Hname & Hrow).
  exists pk, name, v1, v2. repeat (split; [done|]). split; [|done].
  unfold row_of in Hrow. rewrite E1, E2 in Hrow. cbn in Hrow.
  injection Hrow as <-. cbn [value1 value2] in H1, H2.
  destruct (bool_decide (k ∈ _)), (bool_decide (v1 = v2)); try done;
    unfold markup in H1; cbn in H1; by destruct (fmt v1 ++ _).
Qed.

End comparison_table.

Section comparison_edges.

Import Diff.

Lemma partition_lacks (s : string) :
  Str.lacks "_" s = true → Str.partition "_" s = None.
Proof.
  induction s as [|c s IH]; intros Hs; [done|].
  simpl in Hs. apply andb_true_iff in Hs as [Hc Hs].
  apply negb_true_iff in Hc. simpl. by rewrite Hc, (IH Hs).
Qed.

Lemma k_printname_lacks primarykey k :
  Str.lacks "_" k = true → k_printname primarykey k = Raise IndexError.
Proof.
  intros Hk. unfold k_printname, Str.split1, Str.rsplit1.
  rewrite partition_lacks, rpartition_lacks by done. by destruct (bool_decide _).
Qed.

Lemma k_printname_ok_or_index primarykey k : ok_or_index (k_printname primarykey k).
Proof.
  unfold k_printname, list_item.
  destruct (bool_decide _); (destruct (_ !! 1%nat); [left; by eexists|by right]).
Qed.

Lemma for_each_ok_or_index {A B} (f : A → outcome (list B)) l :
  (∀ x, x ∈ l → ok_or_index (f x)) → ok_or_index (for_each f l).
Proof.
  induction l as [|x l IH]; intros Hl; [left; by eexists|].
  cbn [for_each]. destruct (Hl x) as [[r ->]| ->]; [by left| |by right].
  destruct IH as [[rs ->]| ->]; [intros y Hy; apply Hl; by right| |by right].
  left. by eexists.
Qed.

Lemma for_each_raises {A B} (f : A → outcome (list B)) l x :
  (∀ y, y ∈ l → ok_or_index (f y)) → x ∈ l → f x = Raise IndexError →
  for_each f l = Raise IndexError.
Proof.
  intros Hl Hx Hfx. induction l as [|y l IH]; [by apply not_elem_of_nil in Hx|].
  cbn [for_each]. destruct (Hl y) as [[r Hr]|Hr]; [by left| |by rewrite Hr].
  rewrite Hr. apply elem_of_cons in Hx as [->|Hx]; [congruence|].
  rewrite IH; [done| |done]. intros z Hz. apply Hl. by right.
Qed.

Lemma add_rows_ok_or_index diffonly same st primarykey k :
  k ∈ dom (lpar1_data st) → k ∈ dom (lpar2_data st) →
  ok_or_index (add_rows diffonly same st primarykey k).
Proof.
  intros (v1 & _ & G1)%getitem_dom (v2 & _ & G2)%getitem_dom.
  unfold add_rows, coloured_row. rewrite G1, G2.
  destruct (k_printname_ok_or_index primarykey k) as [[name ->]| ->]; [|by right].
  left. cbn. destruct diffonly; repeat destruct (bool_decide _); by eexists.
Qed.

(** X4.  A key that starts with one of the primary keys and contains no
    underscore has no display name: the comparison raises [IndexError], with
    or without [diffonly], and no table is produced. *)
Theorem key_without_underscore_raises
    (diffonly : bool) (st : records) (k primarykey : string) :
  k ∈ allkeys st → primarykey ∈ primarykeys →
  Str.startswith k primarykey = true → Str.lacks "_" k = true →
  (compare diffonly st).1 = Raise IndexError.
Proof.
  intros Hk Hpk Hstart Hlacks.
  assert ((compare_keyed diffonly st).1 = Raise IndexError) as Hkeyed.
  { unfold compare_keyed. cbn [fst]. rewrite samevalues_padded, outcome_bind_ok.
    set (same := filter _ _).
    assert (∀ pk k', k' ∈ sorted (allkeys st) →
              ok_or_index (if Str.startswith k' pk
                           then add_rows diffonly same (pad_missing st) pk k'
                           else Ok [])) as Hbody.
    { intros pk k' Hk'%elem_of_sorted. destruct (Str.startswith k' pk).
      - apply add_rows_ok_or_index; by rewrite ?pad_missing_dom1, ?pad_missing_dom2.
      - left. by eexists. }
    unfold table_loop. apply (for_each_raises _ _ primarykey); [|done|].
    - intros pk _. apply for_each_ok_or_index. intros k' Hk'. by apply Hbody.
    - apply (for_each_raises _ _ k); [intros k' Hk'; by apply Hbody| |].
      + by apply elem_of_sorted.
      + rewrite Hstart. unfold add_rows. by rewrite k_printname_lacks. }
  unfold compare. destruct (compare_keyed diffonly st) as [t st'].
  cbn [fst] in *. by rewrite Hkeyed.
Qed.

(** X5.  Padding is idempotent: the records left by one comparison are not
    changed by a second one, and comparing them again gives the same
    outcome as the first comparison. *)
Theorem comparing_again_changes_nothing (diffonly diffonly' : bool) (st : records) :
  (compare diffonly' (compare diffonly st).2).2 = (compare diffonly st).2
  ∧ (compare diffonly' (compare diffonly st).2).1 = (compare diffonly' st).1.
Proof.
  rewrite !compare_snd.
  assert (pad_missing (pad_missing st) = pad_missing st) as Hidem.
  { assert (∀ st1 st2 : records,
              lpar1_data st1 = lpar1_data st2 → lpar2_data st1 = lpar2_data st2 →
              st1 = st2) as Hext by (intros [] []; cbn; congruence).
    apply Hext; apply map_eq; intros k.
    - rewrite pad_missing_lookup1.
      destruct (lpar1_data (pad_missing st) !! k) eqn:E; [done|].
      apply not_elem_of_dom in E. rewrite pad_missing_dom1 in E.
      rewrite decide_False; [done|]. by rewrite pad_missing_dom2.
    - rewrite pad_missing_lookup2.
      destruct (lpar2_data (pad_missing st) !! k) eqn:E; [done|].
      apply not_elem_of_dom in E. rewrite pad_missing_dom2 in E.
      rewrite decide_False; [done|]. by rewrite pad_missing_dom1. }
  split; [done|].
  assert (allkeys (pad_missing st) = allkeys st) as Hkeys.
  { unfold allkeys at 1. rewrite pad_missing_dom1, pad_missing_dom2.
    apply set_eq. intros k. rewrite elem_of_union. split; [by intros [?|?]|by left]. }
  unfold compare, compare_keyed. by rewrite Hidem, Hkeys.
Qed.

(** X6.  The loop over [allkeys] walks a set, whose order Python does not fix:
    the padded records do not depend on the order in which the keys are
    met. *)
Theorem padding_is_independent_of_the_iteration_order (ks : list string) (st : records) :
  (∀ k, k ∈ ks ↔ k ∈ allkeys st) → pad_loop ks st = pad_missing st.
Proof. apply pad_loop_order. Qed.

End comparison_edges.

Section comparison_relations.

Import Diff.

Lemma records_ext (st1 st2 : records) :
  lpar1_data st1 = lpar1_data st2 → lpar2_data st1 = lpar2_data st2 → st1 = st2.
Proof. destruct st1, st2. cbn. congruence. Qed.

Lemma allkeys_swap d1 d2 : allkeys (Records d2 d1) = allkeys (Records d1 d2).
Proof.
  unfold allkeys. cbn. apply set_eq. intros k. rewrite !elem_of_union. tauto.
Qed.

Lemma pad_missing_swap d1 d2 :
  pad_missing (Records d2 d1) =
    Records (lpar2_data (pad_missing (Records d1 d2)))
            (lpar1_data (pad_missing (Records d1 d2))).
Proof.
  apply records_ext; apply map_eq; intros k; cbn.
  - by rewrite pad_missing_lookup1, pad_missing_lookup2.
  - by rewrite pad_missing_lookup2, pad_missing_lookup1.
Qed.

Lemma for_each_map {A B C} (g : B → C) (f : A → outcome (list C))
    (h : A → outcome (list B)) l :
  (∀ x, x ∈ l → f x = map g <$> h x) →
  for_each f l = map g <$> for_each h l.
Proof.
  induction l as [|x l IH]; intros Hfh; [done|].
  cbn [for_each]. rewrite Hfh by (by left).
  rewrite IH by (intros y Hy; apply Hfh; by right).
  destruct (h x) as [r| |]; [|done..]. cbn.
  destruct (for_each h l) as [rs| |]; [|done..]. cbn. by rewrite map_app.
Qed.

Lemma add_rows_swap diffonly same (st : records) primarykey k :
  add_rows diffonly same (Records (lpar2_data st) (lpar1_data st)) primarykey k =
    map (prod_map id swap_row) <$> add_rows diffonly same st primarykey k.
Proof.
  unfold add_rows, coloured_row, getitem. cbn.
  destruct (k_printname primarykey k) as [name| |]; [|done..]. cbn.
  destruct (lpar1_data st !! k) as [v1|], (lpar2_data st !! k) as [v2|];
    destruct diffonly; repeat destruct (bool_decide _); reflexivity.
Qed.

(** X7.  Exchanging the two records exchanges the two value columns and nothing
    else: the same rows, in the same order, with the same names and
    styles. *)
Theorem exchanging_the_records_exchanges_the_columns (diffonly : bool) (d1 d2 : dict) :
  (compare diffonly (Records d2 d1)).1 =
    map swap_row <$> (compare diffonly (Records d1 d2)).1.
Proof.
  assert ((compare_keyed diffonly (Records d2 d1)).1 =
          map (prod_map id swap_row) <$> (compare_keyed diffonly (Records d1 d2)).1)
    as Hkeyed.
  { unfold compare_keyed. cbn [fst].
    rewrite !samevalues_padded, !outcome_bind_ok, allkeys_swap, pad_missing_swap.
    cbn [lpar1_data lpar2_data].
    set (st := pad_missing (Records d1 d2)).
    assert (filter (λ k, lpar2_data st !! k = lpar1_data st !! k)
              (elements (dom (lpar2_data st)))
            = filter (λ k, lpar1_data st !! k = lpar2_data st !! k)
                (elements (dom (lpar1_data st)))) as ->.
    { subst st. rewrite pad_missing_dom1, pad_missing_dom2.
      apply list_filter_iff. intros k. split; congruence. }
    unfold table_loop. apply for_each_map. intros pk _.
    apply for_each_map. intros k _.
    destruct (Str.startswith k pk); [apply add_rows_swap|done]. }
  unfold compare.
  destruct (compare_keyed diffonly (Records d2 d1)) as [t st'],
           (compare_keyed diffonly (Records d1 d2)) as [t0 st0].
  cbn [fst] in *. subst t. destruct t0 as [l| |]; [|done..]. cbn.
  f_equal. rewrite !map_map. apply map_ext. by intros [k r].
Qed.

(** X8.  Comparing a record with an identical one pads nothing, styles every
    row green, and leaves the [diffonly] table empty. *)
Theorem identical_records_show_no_difference (d : dict) (rows : list row) :
  (compare false (Records d d)).1 = Ok rows →
  (compare false (Records d d)).2 = Records d d
  ∧ Forall (λ r, matched r = true) rows
  ∧ (compare true (Records d d)).1 = Ok [].
Proof.
  intros Hrun.
  assert (pad_missing (Records d d) = Records d d) as Hpad.
  { apply records_ext; apply map_eq; intros k; cbn.
    - rewrite pad_missing_lookup1. cbn. destruct (d !! k) eqn:E; [done|].
      rewrite decide_False; [done|]. by apply not_elem_of_dom.
    - rewrite pad_missing_lookup2. cbn. destruct (d !! k) eqn:E; [done|].
      rewrite decide_False; [done|]. by apply not_elem_of_dom. }
  split; [by rewrite compare_snd|].
  unfold compare in Hrun. unfold compare.
  pose proof (compare_keyed_diffonly (Records d d)) as Hdiff.
  destruct (compare_keyed false (Records d d)) as [t st'] eqn:Hkeyed.
  destruct (compare_keyed true (Records d d)) as [t1 st1].
  cbn [fst] in *. subst t1.
  destruct t as [keyed| |]; [|done..]. cbn in Hrun. injection Hrun as <-.
  assert (Forall (λ e : string * row, matched e.2 = true) keyed) as Hall.
  { apply Forall_forall. intros [k r] Hin.
    destruct (compare_keyed_row (Records d d) keyed k r) as (v1 & v2 & E1 & E2 & _ & _ & Hm);
      [by rewrite Hkeyed|done|].
    rewrite Hpad in E1, E2. cbn in E1, E2. cbn [snd]. rewrite Hm.
    apply bool_decide_eq_true_2. congruence. }
  split.
  - apply Forall_forall. intros r (e & -> & He)%list_elem_of_fmap.
    by eapply Forall_forall in Hall.
  - cbn. f_equal.
    assert (filter mismatched_entry keyed = []) as ->; [|done].
    clear -Hall. induction Hall as [|e l He _ IH]; [done|].
    rewrite filter_cons, decide_False, IH; [done|].
    unfold mismatched_entry. by rewrite He.
Qed.

End comparison_relations.

(** * Further properties of the session *)

Section session_lifecycle.

Import Hmc.

Context (cfg : Cfg.config)
        (fromstring : string → option ET.Element)
        (net : Requests.request → Requests.response).

(** X9.  [logon] on a session that is already connected: nothing is sent, no
    attribute is written, and the program ends with exit status 42 after
    the message is printed. *)
Theorem logon_when_connected_halts
    (w : world) (self : nat) (o : HMC) (hmc user passwd : string) :
  objects w !! self = Some o → connected o = true →
  logon fromstring net self hmc user passwd w =
    (Exit (Some 42),
     World (objects w) (requests w)
       (console w ++ ["[red]Attempt to logon when already logged on. Halting![/red]"])
       (atexit w)).
Proof.
  intros Ho Hc. unfold logon.
  rewrite (bind_ok _ _ _ _ _ (self_get_live _ _ _ Ho)), Hc. reflexivity.
Qed.

Lemma logon_status_200 w self o hmc user passwd :
  objects w !! self = Some o → connected o = false →
  Requests.status_code (net (logon_request hmc user passwd)) = 200 →
  logon fromstring net self hmc user passwd w =
    match fromstring (Requests.text (net (logon_request hmc user passwd))) with
    | None =>
        (Raise ParseError,
         World (<[self := set_hmc_name o hmc]> (objects w))
           (requests w ++ [logon_request hmc user passwd]) (console w) (atexit w))
    | Some x =>
        match ET.children x !! 1%nat with
        | None =>
            (Raise IndexError,
             World (<[self := set_hmc_name o hmc]> (objects w))
               (requests w ++ [logon_request hmc user passwd]) (console w) (atexit w))
        | Some tok =>
            (Ok tt,
             World (<[self := Obj hmc (ET.text tok) (ssl_verify o) (debug o) true]>
                      (objects w))
               (requests w ++ [logon_request hmc user passwd]) (console w) (atexit w))
        end
    end.
Proof.
  intros Ho Hc Hst. unfold logon.
  rewrite (bind_ok _ _ _ _ _ (self_get_live _ _ _ Ho)), Hc.
  assert (self < length (objects w))%nat as Hlt by by eapply lookup_lt_Some.
  unfold self_set, self_get, send, lift, parse, list_item, mbind, M_bind. cbn.
  rewrite Hst. rewrite bool_decide_eq_false_2 by (by intros ?).
  destruct (fromstring _) as [x|]; [|done]. cbn.
  destruct (ET.children x !! 1%nat) as [tok|]; [|done]. cbn.
  rewrite !list_lookup_insert_eq by (by rewrite ?length_insert). cbn.
  rewrite list_lookup_insert_eq by (by rewrite ?length_insert). cbn.
  by rewrite !list_insert_insert_eq.
Qed.

(** X10.  An accepted logon: one request is sent, with the escaped credentials in
    its body; the session then holds the host name and, as its token, the
    text of the second child of the answer, and it is connected. *)
Theorem logon_accepted_stores_the_token
    (w : world) (self : nat) (o : HMC) (hmc user passwd : string)
    (x tok : ET.Element) :
  objects w !! self = Some o → connected o = false →
  Requests.status_code (net (logon_request hmc user passwd)) = 200 →
  fromstring (Requests.text (net (logon_request hmc user passwd))) = Some x →
  ET.children x !! 1%nat = Some tok →
  ∃ w', logon fromstring net self hmc user passwd w = (Ok tt, w')
        ∧ objects w' =
            <[self := Obj hmc (ET.text tok) (ssl_verify o) (debug o) true]> (objects w)
        ∧ requests w' =
            (requests w
             ++ [Requests.Request Requests.PUT (logon_url hmc)
                   [("Content-Type",
                     Some "application/vnd.ibm.powervm.web+xml; type=LogonRequest")]
                   (Some (logon_payload (Str.escape user) (Str.escape passwd)))])%list
        ∧ atexit w' = atexit w.
Proof.
  intros Ho Hc Hst Hx Htok.
  rewrite (logon_status_200 _ _ _ _ _ _ Ho Hc Hst), Hx, Htok. by eexists.
Qed.

(** X11.  A logon answered with status 200 but without a usable body, one that
    does not parse or has fewer than two children: an exception is raised
    ([ParseError], [IndexError]) after the one request; the session has
    the new host name but keeps its old token and stays disconnected. *)
Theorem logon_with_unusable_answer_raises
    (w : world) (self : nat) (o : HMC) (hmc user passwd : string) :
  objects w !! self = Some o → connected o = false →
  Requests.status_code (net (logon_request hmc user passwd)) = 200 →
  match fromstring (Requests.text (net (logon_request hmc user passwd))) with
  | Some x => ET.children x !! 1%nat = None
  | None => True
  end →
  ∃ e w', (e = ParseError ∨ e = IndexError)
          ∧ logon fromstring net self hmc user passwd w = (Raise e, w')
          ∧ objects w' =
              <[self := Obj hmc (token o) (ssl_verify o) (debug o) false]> (objects w)
          ∧ requests w' = (requests w ++ [logon_request hmc user passwd])%list.
Proof.
  intros Ho Hc Hst Hbody. rewrite (logon_status_200 _ _ _ _ _ _ Ho Hc Hst).
  unfold set_hmc_name. rewrite Hc.
  destruct (fromstring _) as [x|]; [rewrite Hbody|]; eauto 10.
Qed.


Lemma cleanup_open w self o :
  objects w !! self = Some o → connected o = true →
  cleanup net self w =
    (Ok tt, World (objects w) (requests w ++ [logoff_request (hmc_name o) (token o)])
              (console w) (atexit w)).
Proof.
  intros Ho Hc. unfold cleanup.
  rewrite (bind_ok _ _ _ _ _ (self_get_live _ _ _ Ho)), Hc. reflexivity.
Qed.


(** X13.  [cleanup] never ends the program and never changes a session: on a
    connected session it sends the DELETE request and leaves the session
    marked connected, on a disconnected one it does nothing. *)
Theorem cleanup_sends_at_most_one_request (w : world) (self : nat) (o : HMC) :
  objects w !! self = Some o →
  cleanup net self w =
    (Ok tt,
     World (objects w)
       (requests w ++ (if connected o then [logoff_request (hmc_name o) (token o)] else []))
       (console w) (atexit w)).
Proof.
  intros Ho. destruct (connected o) eqn:Hc.
  - by apply cleanup_open.
  - rewrite (cleanup_closed _ _ _ _ Ho Hc). destruct w. cbn. by rewrite app_nil_r.
Qed.

End session_lifecycle.

(** * Further properties of [get_lpar_config] *)

Section fetch_outcomes.

Import Hmc.

Context (cfg : Cfg.config)
        (fromstring : string → option ET.Element)
        (net : Requests.request → Requests.response).

#[local] Abbreviation get_lpar_config := (get_lpar_config cfg fromstring net).

Lemma get_lpar_config_open w self o lpar :
  objects w !! self = Some o → connected o = true →
  get_lpar_config self lpar w =
    let w1 := World (objects w) (requests w ++ [search_request (hmc_name o) (token o) lpar])
                (console w) (atexit w) in
    let response := net (search_request (hmc_name o) (token o) lpar) in
    if bool_decide (Requests.status_code response = 200) then
      match fromstring (Requests.text response) with
      | None => (Raise ParseError, w1)
      | Some x =>
          match ET.find_deep "AssociatedPartitionProfile" x with
          | None => (Ok (PyInt 3), w1)
          | Some e =>
              match ET.attrib e !! "href" with
              | None => (Raise KeyError, w1)
              | Some u =>
                  let w2 := World (objects w)
                              (requests w ++ [search_request (hmc_name o) (token o) lpar;
                                              profile_request u (token o)])
                              (console w) (atexit w) in
                  let response := net (profile_request u (token o)) in
                  if bool_decide (Requests.status_code response = 200) then
                    match fromstring (Requests.text response) with
                    | None => (Raise ParseError, w2)
                    | Some x2 =>
                        (PyDict <$>
                           profile_fields cfg x2
                             (if Cfg.compare_general cfg
                              then single_fields "General_" attribs_general_general x ∅
                              else ∅), w2)
                    end
                  else (Ok (PyInt 4), w2)
              end
          end
      end
    else if bool_decide (Requests.status_code response = 204) then (Ok (PyInt 1), w1)
    else (Ok (PyInt 2), w1).
Proof.
  intros Ho Hc. unfold Hmc.get_lpar_config.
  rewrite (bind_ok _ _ _ _ _ (check_connected_open _ _ _ _ Ho Hc)).
  rewrite (bind_ok _ _ _ _ _ (self_get_live _ _ _ Ho)).
  unfold send, lift, parse, mbind, M_bind, mret, M_ret. cbn.
  repeat (case_match; simplify_eq/=; try rewrite <- app_assoc; try done).
Qed.

(** X14.  A search that is not answered with status 200: the return code is 1
    for status 204 and 2 for any other status; the search request is the
    only request sent, and the session is left as it was. *)
Theorem search_status_decides_the_return_code
    (w : world) (self : nat) (o : HMC) (lpar : string) :
  objects w !! self = Some o → connected o = true →
  Requests.status_code (net (search_request (hmc_name o) (token o) lpar)) ≠ 200 →
  ∃ w', get_lpar_config self lpar w =
          (Ok (PyInt (if bool_decide (Requests.status_code
                                        (net (search_request (hmc_name o) (token o) lpar))
                                      = 204) then 1 else 2)), w')
        ∧ objects w' = objects w
        ∧ requests w' =
            (requests w ++ [search_request (hmc_name o) (token o) lpar])%list.
Proof.
  intros Ho Hc Hst. rewrite (get_lpar_config_open _ _ _ _ Ho Hc). cbn zeta.
  rewrite (bool_decide_eq_false_2 (_ = 200)) by done.
  destruct (bool_decide _); by eexists.
Qed.

(** X15.  A partition that is found but whose answer has no
    [AssociatedPartitionProfile] element gives the return code 3; no
    second request is sent. *)
Theorem partition_without_profile_returns_3
    (w : world) (self : nat) (o : HMC) (lpar : string) (x : ET.Element) :
  objects w !! self = Some o → connected o = true →
  Requests.status_code (net (search_request (hmc_name o) (token o) lpar)) = 200 →
  fromstring (Requests.text (net (search_request (hmc_name o) (token o) lpar))) = Some x →
  ET.find_deep "AssociatedPartitionProfile" x = None →
  ∃ w', get_lpar_config self lpar w = (Ok (PyInt 3), w')
        ∧ objects w' = objects w
        ∧ requests w' =
            (requests w ++ [search_request (hmc_name o) (token o) lpar])%list.
Proof.
  intros Ho Hc Hst Hx He. rewrite (get_lpar_config_open _ _ _ _ Ho Hc). cbn zeta.
  rewrite Hst, Hx, He. by eexists.
Qed.


Lemma adapter_fields_no_exit prefix attribs adapter index (d : dict) c :
  adapter_fields prefix attribs adapter index d ≠ Exit c.
Proof.
  revert d. induction attribs as [|a attribs IH]; intros d; cbn; [done|].
  by destruct (ET.find a adapter).
Qed.

Lemma adapter_group_no_exit prefix attribs adapters index (d : dict) c :
  adapter_group prefix attribs adapters index d ≠ Exit c.
Proof.
  revert index d. induction adapters as [|a adapters IH]; intros index d; cbn; [done|].
  destruct (adapter_fields prefix attribs a index d) as [d'|c'|e] eqn:E; cbn; [done| |done].
  by apply adapter_fields_no_exit in E.
Qed.

Lemma guarded_group_no_exit (flag : bool) prefix attribs adapters (d : dict) c :
  (if flag then adapter_group prefix attribs adapters 0 d else Ok d) ≠ Exit c.
Proof. destruct flag; [apply adapter_group_no_exit|done]. Qed.

Lemma profile_fields_no_exit x (d : dict) c : profile_fields cfg x d ≠ Exit c.
Proof.
  unfold profile_fields.
  destruct (if Cfg.compare_networking cfg then _ else _) as [d4|c4|] eqn:E4; cbn;
    [|by apply guarded_group_no_exit in E4|done].
  destruct (if Cfg.compare_virtual_fc cfg then _ else _) as [d5|c5|] eqn:E5; cbn;
    [|by apply guarded_group_no_exit in E5|done].
  apply guarded_group_no_exit.
Qed.

(** X17.  On a connected session [get_lpar_config] never ends the program: it
    returns or raises.  It changes no session and registers nothing; it
    sends the search request and at most one more request, both of them
    GET requests that carry the token of the session. *)
Theorem get_lpar_config_only_reads
    (w : world) (self : nat) (o : HMC) (lpar : string) :
  objects w !! self = Some o → connected o = true →
  ∃ r w' l,
    get_lpar_config self lpar w = (r, w')
    ∧ (∀ c, r ≠ Exit c)
    ∧ objects w' = objects w ∧ atexit w' = atexit w
    ∧ requests w' = (requests w ++ search_request (hmc_name o) (token o) lpar :: l)%list
    ∧ (length l ≤ 1)%nat
    ∧ Forall (λ q, Requests.method q = Requests.GET
                   ∧ ("X-API-Session", token o) ∈ Requests.headers q)
        (search_request (hmc_name o) (token o) lpar :: l).
Proof.
  intros Ho Hc. rewrite (get_lpar_config_open _ _ _ _ Ho Hc). cbn zeta.
  assert (∀ q, q = search_request (hmc_name o) (token o) lpar
               ∨ (∃ u, q = profile_request u (token o)) →
               Requests.method q = Requests.GET
               ∧ ("X-API-Session", token o) ∈ Requests.headers q) as Hq.
  { intros q [->|[u ->]]; (split; [done|]); cbn; unfold gen_prof_headers;
      do 3 apply list_elem_of_further; apply list_elem_of_here. }
  repeat case_match;
    (eexists _, _, _; split; [reflexivity|];
     split; [try done; intros c; destruct (profile_fields _ _ _) eqn:E; try done;
             by apply profile_fields_no_exit in E|];
     split; [done|];
     split; [done|]; cbn [requests]; split; [reflexivity|]);
    cbn; (split; [lia|]); repeat constructor; try (apply Hq; eauto).
Qed.

End fetch_outcomes.

(** * The contents of a fetched record *)

Section record_contents.

Import Hmc.

Context (cfg : Cfg.config)
        (fromstring : string → option ET.Element)
        (net : Requests.request → Requests.response).

Lemma single_fields_snoc prefix attribs a x (d : dict) :
  single_fields prefix (attribs ++ [a]) x d =
    <[prefix ++ a := field_text a x]> (single_fields prefix attribs x d).
Proof.
  unfold single_fields, field_text. rewrite foldl_app. cbn.
  by destruct (ET.find_deep a x).
Qed.

Lemma single_fields_lookup prefix attribs x (d : dict) a :
  a ∈ attribs →
  single_fields prefix attribs x d !! (prefix ++ a) = Some (field_text a x).
Proof.
  induction attribs as [|b attribs IH] using rev_ind; intros Ha.
  - by apply not_elem_of_nil in Ha.
  - rewrite single_fields_snoc. destruct (decide (b = a)) as [->|Hne].
    + apply lookup_insert_eq.
    + rewrite lookup_insert_ne by (by intros ?%(inj (String.append prefix))).
      apply IH. apply elem_of_app in Ha as [Ha|Ha%list_elem_of_singleton]; [done|].
      congruence.
Qed.

Lemma startswith_app (p r : string) : Str.startswith (p ++ r) p = true.
Proof.
  unfold Str.startswith. induction p as [|c p IH]; [by destruct r|]. simpl.
  by destruct (ascii_dec c c).
Qed.

Lemma single_fields_other prefix attribs x (d : dict) k :
  Str.startswith k prefix = false ∨ (∀ a, a ∈ attribs → k ≠ prefix ++ a) →
  single_fields prefix attribs x d !! k = d !! k.
Proof.
  intros Hk.
  assert (∀ a, a ∈ attribs → k ≠ prefix ++ a) as Hne.
  { destruct Hk as [Hk|Hk]; [|done]. intros a _ ->. by rewrite startswith_app in Hk. }
  clear Hk. induction attribs as [|b attribs IH] using rev_ind; [done|].
  rewrite single_fields_snoc, lookup_insert_ne.
  - apply IH. intros a Ha. apply Hne, elem_of_app. by left.
  - intros Heq. apply (Hne b); [|done]. apply elem_of_app. right. by left.
Qed.

Lemma pretty_N_char_no_underscore x : Ascii.eqb (pretty_N_char x) "_" = false.
Proof. unfold pretty_N_char. by repeat case_match. Qed.

Lemma pretty_N_go_lacks x s :
  Str.lacks "_" s = true → Str.lacks "_" (pretty_N_go x s) = true.
Proof.
  revert s. induction (N.lt_wf_0 x) as [x _ IH]; intros s Hs.
  assert (x = 0 ∨ 0 < x)%N as [->|?] by lia.
  - by rewrite pretty_N_go_0.
  - rewrite pretty_N_go_step by done. apply IH.
    { by apply N.div_lt. }
    cbn. by rewrite pretty_N_char_no_underscore.
Qed.

Lemma pretty_nat_lacks (n : nat) : Str.lacks "_" (pretty n) = true.
Proof.
  unfold pretty, pretty_nat, pretty, pretty_N.
  destruct (decide _); [done|]. by apply pretty_N_go_lacks.
Qed.

(** The keys of two adapters, or of two attributes of one adapter, are
    different. *)
Lemma adapter_key_inj prefix (i j : nat) (a b : string) :
  prefix ++ pretty i ++ "_" ++ a = prefix ++ pretty j ++ "_" ++ b → i = j ∧ a = b.
Proof.
  intros H%(inj (String.append prefix)).
  pose proof (partition_first (pretty i) a (pretty_nat_lacks i)) as Hi.
  pose proof (partition_first (pretty j) b (pretty_nat_lacks j)) as Hj.
  rewrite H, Hj in Hi. injection Hi as Hij Hab. split; [|done].
  symmetry. by apply (inj pretty).
Qed.

Lemma adapter_fields_spec prefix attribs adapter index (d d' : dict) :
  adapter_fields prefix attribs adapter index d = Ok d' →
  (∀ a, a ∈ attribs →
        ∃ e, ET.find a adapter = Some e
             ∧ d' !! (prefix ++ pretty index ++ "_" ++ a) = Some (ET.text e))
  ∧ (∀ k, (∀ a, a ∈ attribs → k ≠ prefix ++ pretty index ++ "_" ++ a) →
          d' !! k = d !! k).
Proof.
  revert d. induction attribs as [|b attribs IH]; intros d Hrun.
  - injection Hrun as <-. split; [|done]. by intros a ?%not_elem_of_nil.
  - cbn [adapter_fields] in Hrun. destruct (ET.find b adapter) as [e|] eqn:Hb; [|done].
    destruct (IH _ Hrun) as [Hin Hout]. split.
    + intros a Ha. destruct (decide (a ∈ attribs)) as [Hin'|Hnot]; [by apply Hin|].
      apply elem_of_cons in Ha as [->|Ha]; [|done].
      exists e. split; [done|]. rewrite Hout.
      * apply lookup_insert_eq.
      * intros a Ha Heq. apply adapter_key_inj in Heq as [_ ->]. done.
    + intros k Hk. rewrite Hout.
      * apply lookup_insert_ne. intros Heq. apply (Hk b); [by left|done].
      * intros a Ha. apply Hk. by right.
Qed.

Lemma adapter_group_spec prefix attribs adapters index (d d' : dict) :
  adapter_group prefix attribs adapters index d = Ok d' →
  (∀ (i : nat) adapter a,
     adapters !! i = Some adapter → a ∈ attribs →
     ∃ e, ET.find a adapter = Some e
          ∧ d' !! (prefix ++ pretty (index + i)%nat ++ "_" ++ a) = Some (ET.text e))
  ∧ (∀ k, (∀ (j : nat) a, (index ≤ j)%nat → k ≠ prefix ++ pretty j ++ "_" ++ a) →
          d' !! k = d !! k).
Proof.
  revert index d. induction adapters as [|adapter adapters IH]; intros index d Hrun.
  - injection Hrun as <-. split; [|done]. intros i ? ? Hnil. by rewrite lookup_nil in Hnil.
  - cbn [adapter_group] in Hrun.
    destruct (adapter_fields prefix attribs adapter index d) as [d1| |] eqn:E; [|done..].
    cbn in Hrun. destruct (adapter_fields_spec _ _ _ _ _ _ E) as [Hin1 Hout1].
    destruct (IH _ _ Hrun) as [Hin Hout]. split.
    + intros [|i] ad a Had Ha.
      * injection Had as <-. destruct (Hin1 a Ha) as (e & He & Hd1).
        exists e. split; [done|]. rewrite Nat.add_0_r, Hout; [done|].
        intros j b Hj Heq. apply adapter_key_inj in Heq as [-> _]. lia.
      * replace (index + S i)%nat with (S index + i)%nat by lia. by apply Hin.
    + intros k Hk. rewrite Hout, Hout1; [done| |].
      * intros a _. apply Hk. lia.
      * intros j a Hj. apply Hk. lia.
Qed.

Lemma guarded_single_other (flag : bool) prefix attribs x (d : dict) k :
  Str.startswith k prefix = false →
  (if flag then single_fields prefix attribs x d else d) !! k = d !! k.
Proof. intros Hk. destruct flag; [|done]. apply single_fields_other. by left. Qed.

Lemma guarded_group_other (flag : bool) prefix attribs adapters (d d' : dict) k :
  (if flag then adapter_group prefix attribs adapters 0 d else Ok d) = Ok d' →
  Str.startswith k prefix = false →
  d' !! k = d !! k.
Proof.
  intros Hrun Hk. destruct flag; [|by injection Hrun as <-].
  apply (adapter_group_spec _ _ _ _ _ _ Hrun). intros j a _ ->.
  by rewrite startswith_app in Hk.
Qed.

(** The steps of [profile_fields], one record after the other. *)
Lemma profile_fields_steps x (d0 d : dict) :
  profile_fields cfg x d0 = Ok d →
  ∃ d4 d5 : dict,
    let d1 := if Cfg.compare_general cfg
              then single_fields "General_" attribs_default_general x d0 else d0 in
    let d2 := if Cfg.compare_processors cfg
              then single_fields "Processor_" attribs_default_processor x d1 else d1 in
    let d3 := if Cfg.compare_memory cfg
              then single_fields "Memory_" attribs_default_memory x d2 else d2 in
    (if Cfg.compare_networking cfg
     then adapter_group "Network_VirtualEthAdapter_" attribs_default_veth
            (ET.findall_deep "ProfileClientNetworkAdapter" x) 0 d3
     else Ok d3) = Ok d4
    ∧ (if Cfg.compare_virtual_fc cfg
       then adapter_group "vFC_VirtualFcAdapter_" attribs_default_vfc
              (ET.findall_deep "ProfileVirtualFibreChannelClientAdapter" x) 0 d4
       else Ok d4) = Ok d5
    ∧ (if Cfg.compare_virtual_scsi cfg
       then adapter_group "vSCSI_VirtualScsiAdapter_" attribs_default_vscsi
              (ET.findall_deep "ProfileVirtualSCSIClientAdapter" x) 0 d5
       else Ok d5) = Ok d.
Proof.
  unfold profile_fields. intros Hrun.
  destruct (if Cfg.compare_networking cfg then _ else _) as [d4| |] eqn:E4; [|done..].
  cbn in Hrun.
  destruct (if Cfg.compare_virtual_fc cfg then _ else _) as [d5| |] eqn:E5; [|done..].
  cbn in Hrun. by exists d4, d5.
Qed.

(** A fetch that returns a record has read both documents. *)
Lemma get_lpar_config_record w self o lpar (d : dict) w' :
  objects w !! self = Some o → connected o = true →
  get_lpar_config cfg fromstring net self lpar w = (Ok (PyDict d), w') →
  ∃ x1 x2,
    Docs.search_answer fromstring net (hmc_name o) (token o) lpar = Some x1
    ∧ Docs.profile_answer fromstring net (hmc_name o) (token o) lpar = Some x2
    ∧ profile_fields cfg x2
        (if Cfg.compare_general cfg
         then single_fields "General_" attribs_general_general x1 ∅ else ∅) = Ok d.
Proof.
  intros Ho Hc. rewrite (get_lpar_config_open _ _ _ _ _ _ _ Ho Hc). cbn zeta.
  unfold Docs.profile_answer, Docs.search_answer.
  destruct (bool_decide (_ = 200)); [|by destruct (bool_decide _)].
  destruct (fromstring _) as [x1|]; [|done]. cbn.
  destruct (ET.find_deep "AssociatedPartitionProfile" x1) as [e|]; [|done]. cbn.
  destruct (ET.attrib e !! "href") as [u|]; [|done]. cbn.
  destruct (bool_decide (_ = 200)); [|done].
  destruct (fromstring _) as [x2|]; [|done].
  destruct (profile_fields cfg x2 _) as [d'| |] eqn:E; [|done..].
  intros [= <- <-]. by exists x1, x2.
Qed.

(** X18.  The fixed fields of a fetched record.  When [get_lpar_config] returns
    a record, both documents were read, and for each group whose flag is
    set every attribute of the group is a key of the record: the two
    general attributes of the search answer hold the text of the first
    element of that name in the search answer, the profile name and the
    processor and memory attributes the text of the first element of that
    name in the default profile, and [None] when there is no such
    element.  No later step of the extraction overwrites them. *)
Theorem fetched_record_holds_the_fixed_fields
    (w w' : world) (self : nat) (o : HMC) (lpar : string) (d : dict) :
  objects w !! self = Some o → connected o = true →
  get_lpar_config cfg fromstring net self lpar w = (Ok (PyDict d), w') →
  ∃ x1 x2,
    Docs.search_answer fromstring net (hmc_name o) (token o) lpar = Some x1
    ∧ Docs.profile_answer fromstring net (hmc_name o) (token o) lpar = Some x2
    ∧ (Cfg.compare_general cfg = true →
       (∀ attrib, attrib ∈ attribs_general_general →
                  d !! ("General_" ++ attrib) = Some (field_text attrib x1))
       ∧ d !! "General_ProfileName" = Some (field_text "ProfileName" x2))
    ∧ (Cfg.compare_processors cfg = true →
       ∀ attrib, attrib ∈ attribs_default_processor →
                 d !! ("Processor_" ++ attrib) = Some (field_text attrib x2))
    ∧ (Cfg.compare_memory cfg = true →
       ∀ attrib, attrib ∈ attribs_default_memory →
                 d !! ("Memory_" ++ attrib) = Some (field_text attrib x2)).
Proof.
  intros Ho Hc Hrun.
  destruct (get_lpar_config_record _ _ _ _ _ _ Ho Hc Hrun) as (x1 & x2 & Hx1 & Hx2 & Hd).
  exists x1, x2. split; [done|]. split; [done|].
  destruct (profile_fields_steps _ _ _ Hd) as (d4 & d5 & H4 & H5 & H6). cbn zeta in *.
  split; [|split].
  - intros Hg. rewrite Hg in *. split.
    + intros attrib Ha.
      do 3 (skip_step guarded_group_other guarded_single_other).
      rewrite !guarded_single_other by reflexivity.
      rewrite single_fields_other.
      * by apply single_fields_lookup.
      * right. intros a Ha' Heq%(inj (String.append "General_")). subst a.
        revert Ha Ha'. unfold attribs_general_general, attribs_default_general.
        rewrite !elem_of_cons, !elem_of_nil. intros [->|[->|[]]] [?|[]]; discriminate.
    + do 3 (skip_step guarded_group_other guarded_single_other).
      rewrite !guarded_single_other by reflexivity.
      apply (single_fields_lookup "General_" attribs_default_general x2 _ "ProfileName").
      by left.
  - intros Hp attrib Ha. rewrite Hp in *.
    do 3 (skip_step guarded_group_other guarded_single_other).
    rewrite guarded_single_other by reflexivity.
    by apply single_fields_lookup.
  - intros Hm attrib Ha. rewrite Hm in *.
    do 3 (skip_step guarded_group_other guarded_single_other). by apply single_fields_lookup.
Qed.

(** X19.  The adapter entries of a fetched record.  When [get_lpar_config]
    returns a record and the flag of an adapter group is set, every
    adapter element of the default profile has every field of the group,
    and the record holds, under the key with the position of the adapter
    in the document (counted from 0 in each group), the text of that
    field.  Entries of different adapters and of different groups do not
    overwrite each other. *)
Theorem fetched_record_holds_the_adapters
    (w w' : world) (self : nat) (o : HMC) (lpar : string) (d : dict) :
  objects w !! self = Some o → connected o = true →
  get_lpar_config cfg fromstring net self lpar w = (Ok (PyDict d), w') →
  ∃ x2,
    Docs.profile_answer fromstring net (hmc_name o) (token o) lpar = Some x2
    ∧ (Cfg.compare_networking cfg = true →
       adapters_recorded "Network_VirtualEthAdapter_" "ProfileClientNetworkAdapter"
         attribs_default_veth x2 d)
    ∧ (Cfg.compare_virtual_fc cfg = true →
       adapters_recorded "vFC_VirtualFcAdapter_" "ProfileVirtualFibreChannelClientAdapter"
         attribs_default_vfc x2 d)
    ∧ (Cfg.compare_virtual_scsi cfg = true →
       adapters_recorded "vSCSI_VirtualScsiAdapter_" "ProfileVirtualSCSIClientAdapter"
         attribs_default_vscsi x2 d).
Proof.
  intros Ho Hc Hrun.
  destruct (get_lpar_config_record _ _ _ _ _ _ Ho Hc Hrun) as (x1 & x2 & Hx1 & Hx2 & Hd).
  exists x2. split; [done|].
  destruct (profile_fields_steps _ _ _ Hd) as (d4 & d5 & H4 & H5 & H6). cbn zeta in *.
  split; [|split].
  - intros Hn i adapter attrib Hi Ha. rewrite Hn in H4.
    destruct (proj1 (adapter_group_spec _ _ _ _ _ _ H4) i adapter attrib Hi Ha)
      as (e & He & Hk).
    exists e. split; [done|]. by do 2 (skip_step guarded_group_other guarded_single_other).
  - intros Hf i adapter attrib Hi Ha. rewrite Hf in H5.
    destruct (proj1 (adapter_group_spec _ _ _ _ _ _ H5) i adapter attrib Hi Ha)
      as (e & He & Hk).
    exists e. split; [done|]. by skip_step guarded_group_other guarded_single_other.
  - intros Hs i adapter attrib Hi Ha. rewrite Hs in H6.
    destruct (proj1 (adapter_group_spec _ _ _ _ _ _ H6) i adapter attrib Hi Ha)
      as (e & He & Hk).
    by exists e.
Qed.

End record_contents.

(** * Further properties of the host loop and of a pair *)

Section host_loop.

Import Hmc Run.

Context (cfg : Cfg.config)
        (fromstring : string → option ET.Element)
        (net : Requests.request → Requests.response)
        (hmc_user hmc_pass : string).

#[local] Abbreviation host_ok := (Run.host_ok fromstring net hmc_user hmc_pass).
#[local] Abbreviation host_token := (Run.host_token fromstring net hmc_user hmc_pass).
#[local] Abbreviation found_on := (Run.found_on cfg fromstring net hmc_user hmc_pass).
#[local] Abbreviation found_value := (Run.found_value cfg fromstring net hmc_user hmc_pass).
#[local] Abbreviation fetch_log := (Run.fetch_log cfg fromstring net hmc_user hmc_pass).
#[local] Abbreviation fetch_returns := (Run.fetch_returns cfg fromstring net hmc_user hmc_pass).
#[local] Abbreviation resolve := (Run.resolve cfg fromstring net hmc_user hmc_pass).
#[local] Abbreviation scan := (Script.scan cfg fromstring net hmc_user hmc_pass).
#[local] Abbreviation opened := (Run.opened cfg fromstring net hmc_user hmc_pass).
#[local] Abbreviation scan_log := (Run.scan_log cfg fromstring net hmc_user hmc_pass).

Lemma scan_found hmcs l1 l2 (v1 v2 : pyval) w :
  is_dict v1 = true → is_dict v2 = true →
  scan hmcs l1 l2 v1 v2 w = (Ok (v1, v2), w).
Proof. intros H1 H2. destruct hmcs; cbn; [done|]. by rewrite H1, H2. Qed.

(** The host loop over two lists of hosts, one after the other. *)
Lemma scan_app pre post l1 l2 v1 v2 w :
  scan (pre ++ post) l1 l2 v1 v2 w =
    match scan pre l1 l2 v1 v2 w with
    | (Ok found, w') => scan post l1 l2 found.1 found.2 w'
    | (Exit c, w') => (Exit c, w')
    | (Raise e, w') => (Raise e, w')
    end.
Proof.
  revert v1 v2 w. induction pre as [|h pre IH]; intros v1 v2 w; [done|].
  cbn [app Script.scan].
  destruct (is_dict v1 && is_dict v2) eqn:Hboth.
  - apply andb_true_iff in Hboth as [H1 H2]. cbn. by rewrite scan_found.
  - unfold mbind, M_bind.
    destruct (init _ _ _ _ _ _ _) as [[self| |] w1]; [|done..].
    destruct (if negb (is_dict v1) then _ else _) as [[r1| |] w2]; [|done..].
    destruct (if negb (is_dict v2) then _ else _) as [[r2| |] w3]; [|done..].
    destruct (logoff _ _ _) as [[[]| |] w4]; [|done..].
    apply IH.
Qed.

(** X20.  Once both records are found the host loop is over: the hosts that
    come later in the list are not contacted, whatever they would
    answer, and the two records are the result. *)
Theorem hosts_after_both_records_are_not_contacted
    (pre post : list string) (l1 l2 : string) (v1 v2 : pyval) (d1 d2 : dict)
    (w w' : world) :
  scan pre l1 l2 v1 v2 w = (Ok (PyDict d1, PyDict d2), w') →
  scan (pre ++ post) l1 l2 v1 v2 w = (Ok (PyDict d1, PyDict d2), w').
Proof. intros Hpre. rewrite scan_app, Hpre. by apply scan_found. Qed.

(** X21.  A host that does not accept the logon ends the program with the
    status of the answer as exit code: the logon request is the only
    request sent, the hosts that come later in the list are not tried,
    and no handler is registered for the new session. *)
Theorem rejected_logon_ends_the_host_loop
    (h : string) (rest : list string) (l1 l2 : string) (v1 v2 : pyval) (w : world) :
  is_dict v1 && is_dict v2 = false →
  Requests.status_code (net (logon_request h hmc_user hmc_pass)) ≠ 200 →
  ∃ w', scan (h :: rest) l1 l2 v1 v2 w =
          (Exit (Some (Requests.status_code (net (logon_request h hmc_user hmc_pass)))), w')
        ∧ requests w' = (requests w ++ [logon_request h hmc_user hmc_pass])%list
        ∧ console w' = (console w ++ ["[red]Error: HMC logon failed[/red]"])%list
        ∧ atexit w' = atexit w.
Proof.
  intros Hboth Hst. cbn [Script.scan]. rewrite Hboth. unfold mbind at 1, M_bind at 1.
  rewrite (init_rejected cfg fromstring net w h hmc_user hmc_pass Hst). by eexists.
Qed.

(** The host loop with its sessions: every session it opens is appended
    to the objects and registered, and is disconnected at the end. *)
Lemma scan_run_sessions hmcs l1 l2 :
  (∀ h, h ∈ hmcs → host_ok h ∧ fetch_returns l1 l2 h) →
  ∀ v1 v2 w, ∃ w' new,
    scan hmcs l1 l2 v1 v2 w = (Ok (resolve hmcs l1 v1, resolve hmcs l2 v2), w')
    ∧ objects w' = (objects w ++ new)%list
    ∧ Forall (λ o, connected o = false) new
    ∧ atexit w' = (atexit w ++ seq (length (objects w)) (length new))%list
    ∧ requests w' = (requests w ++ scan_log hmcs l1 l2 v1 v2)%list
    ∧ console w' = console w.
Proof.
  induction hmcs as [|h hs IH]; intros Hhs v1 v2 w.
  - exists w, []. cbn. by rewrite !app_nil_r.
  - cbn [Script.scan Run.scan_log].
    destruct (is_dict v1 && is_dict v2) eqn:Hboth.
    + apply andb_true_iff in Hboth as [H1 H2].
      exists w, []. rewrite !resolve_dict by done. cbn. by rewrite !app_nil_r.
    + destruct (Hhs h) as [Hok [Hf1 Hf2]]; [by left|].
      rewrite (bind_ok _ _ _ _ _ (init_accepted cfg fromstring net hmc_user hmc_pass w h Hok)).
      set (self := length (objects w)).
      set (w1 := World _ _ _ _).
      assert (objects w1 !! self = Some (opened h)) as Ho1.
      { subst w1 self. cbn. by rewrite lookup_app_r, Nat.sub_diag. }
      rewrite (bind_ok _ _ _ _ _
                 (fetch_step cfg fromstring net hmc_user hmc_pass w1 self h l1 v1 Ho1 Hf1)).
      set (w2 := add_requests w1 _).
      rewrite (bind_ok _ _ _ _ _
                 (fetch_step cfg fromstring net hmc_user hmc_pass w2 self h l2 v2 Ho1 Hf2)).
      set (w3 := add_requests w2 _).
      destruct Hok as (_ & _ & Hoff).
      rewrite (bind_ok _ _ _ _ _
                 (logoff_accepted net w3 self (opened h) Ho1 eq_refl Hoff)).
      set (w4 := World _ _ _ _).
      destruct (IH (λ h' Hh', Hhs h' (list_elem_of_further _ _ _ Hh'))
                  (if is_dict v1 then v1 else found_value h l1)
                  (if is_dict v2 then v2 else found_value h l2) w4)
        as (w' & new & Hrun & Hobj & Hclosed & Hexit & Hreq & Hcon).
      exists w', (set_connected (opened h) false :: new).
      rewrite !resolve_cons. split; [exact Hrun|].
      assert (objects w4 = (objects w ++ [set_connected (opened h) false])%list) as Ho4.
      { subst w4 w3 w2 w1 self. cbn. by rewrite insert_app_r_alt, Nat.sub_diag. }
      split; [|split; [|split; [|split]]].
      * rewrite Hobj, Ho4. by rewrite <- app_assoc.
      * by constructor.
      * rewrite Hexit, Ho4, length_app. subst w4 w3 w2 w1 self. cbn.
        rewrite <- app_assoc. do 3 f_equal. lia.
      * rewrite Hreq. subst w4 w3 w2 w1. cbn. by rewrite <- !app_assoc.
      * exact Hcon.
Qed.

Lemma exit_handlers_closed (registered : list nat) w :
  Forall (λ self, ∃ o, objects w !! self = Some o ∧ connected o = false) registered →
  Script.exit_handlers net registered w = (Ok tt, w).
Proof.
  induction registered as [|self registered IH]; intros Hreg; [done|].
  apply Forall_cons in Hreg as [(o & Ho & Hc) Hreg]. cbn [Script.exit_handlers].
  rewrite (bind_ok _ _ _ _ _ (cleanup_closed net w self o Ho Hc)). by apply IH.
Qed.

(** X22.  After a host loop in which every host accepted logon and logoff and
    every fetch returned, the handlers registered at exit find every
    session disconnected and send nothing: each session was closed once,
    by the loop. *)
Theorem clean_run_leaves_nothing_to_the_exit_handlers
    (hmcs : list string) (l1 l2 : string) (v1 v2 : pyval) (w : world) :
  (∀ h, h ∈ hmcs → host_ok h ∧ fetch_returns l1 l2 h) →
  Forall (λ self, ∃ o, objects w !! self = Some o ∧ connected o = false) (atexit w) →
  Script.run net (scan hmcs l1 l2 v1 v2) w = scan hmcs l1 l2 v1 v2 w
  ∧ ∃ w', Script.run net (scan hmcs l1 l2 v1 v2) w
            = (Ok (resolve hmcs l1 v1, resolve hmcs l2 v2), w')
          ∧ requests w' = (requests w ++ scan_log hmcs l1 l2 v1 v2)%list
          ∧ Forall (λ o, connected o = false) (drop (length (objects w)) (objects w')).
Proof.
  intros Hhs Hreg.
  destruct (scan_run_sessions hmcs l1 l2 Hhs v1 v2 w)
    as (w' & new & Hrun & Hobj & Hclosed & Hexit & Hreq & Hcon).
  unfold Script.run. rewrite Hrun.
  rewrite exit_handlers_closed.
  - split; [done|]. exists w'. split; [done|]. split; [done|].
    by rewrite Hobj, drop_app_length.
  - apply List.Forall_rev. rewrite Hexit, Hobj. apply Forall_app. split.
    + eapply Forall_impl; [exact Hreg|]. intros self (o & Ho & Hc). exists o.
      split; [|done]. by apply lookup_app_l_Some.
    + apply Forall_forall. intros self Hself%elem_of_seq.
      destruct (lookup_lt_is_Some_2 new (self - length (objects w))) as [o Ho]; [lia|].
      exists o. split.
      * rewrite lookup_app_r by lia. done.
      * eapply Forall_lookup_1 in Hclosed; [exact Hclosed|exact Ho].
Qed.

(** X23.  A fetch that raises inside the host loop ends the program with the
    session still open; the handler registered by the constructor then
    sends the DELETE request for it.  The session object itself stays
    marked as connected. *)
Theorem crash_in_a_fetch_is_followed_by_the_logoff_request
    (h : string) (rest : list string) (l1 l2 : string) (v2 : pyval) (e : exn) (w : world) :
  host_ok h → atexit w = [] →
  found_on h l1 = Raise e →
  ∃ w', Script.run net (scan (h :: rest) l1 l2 PyNone v2) w = (Raise e, w')
        ∧ requests w' =
            (requests w ++ [logon_request h hmc_user hmc_pass] ++ fetch_log h l1
               ++ [logoff_request h (host_token h)])%list
        ∧ objects w' = (objects w ++ [opened h])%list.
Proof.
  intros Hok Hexit Hraise. unfold Script.run. cbn [Script.scan is_dict andb negb].
  rewrite (bind_ok _ _ _ _ _ (init_accepted cfg fromstring net hmc_user hmc_pass w h Hok)).
  set (self := length (objects w)).
  set (w1 := World _ _ _ _).
  assert (objects w1 !! self = Some (opened h)) as Ho1.
  { subst w1 self. cbn. by rewrite lookup_app_r, Nat.sub_diag. }
  unfold mbind at 1, M_bind at 1.
  rewrite (get_lpar_config_frame cfg fromstring net w1 self (opened h) l1 Ho1 eq_refl).
  unfold Run.found_on in Hraise. cbn [hmc_name token Run.opened]. rewrite Hraise.
  set (w2 := add_requests w1 _).
  assert (atexit w2 = [self]) as -> by (subst w2 w1; cbn; by rewrite Hexit).
  cbn [app rev Script.exit_handlers].
  assert (objects w2 !! self = Some (opened h)) as Ho2 by exact Ho1.
  rewrite (bind_ok _ _ _ _ _ (cleanup_open net w2 self (opened h) Ho2 eq_refl)).
  eexists. split; [reflexivity|]. cbn. split; [|done].
  unfold Run.fetch_log. by rewrite <- !app_assoc.
Qed.

End host_loop.

(** * Further properties of a pair, of the start-up and of the logon request *)

Section pair.

Import Hmc Run Diff.

Context (cfg : Cfg.config)
        (fromstring : string → option ET.Element)
        (net : Requests.request → Requests.response)
        (hmc_user hmc_pass : string).

#[local] Abbreviation host_ok := (Run.host_ok fromstring net hmc_user hmc_pass).
#[local] Abbreviation found_on := (Run.found_on cfg fromstring net hmc_user hmc_pass).
#[local] Abbreviation found_value := (Run.found_value cfg fromstring net hmc_user hmc_pass).
#[local] Abbreviation fetch_returns := (Run.fetch_returns cfg fromstring net hmc_user hmc_pass).
#[local] Abbreviation resolve := (Run.resolve cfg fromstring net hmc_user hmc_pass).
#[local] Abbreviation scan := (Script.scan cfg fromstring net hmc_user hmc_pass).
#[local] Abbreviation process_pair :=
  (Script.process_pair cfg fromstring net hmc_user hmc_pass).

Lemma split_lacks sep (s : string) : Str.lacks sep s = true → Str.split sep s = [s].
Proof.
  induction s as [|c s IH]; intros Hs; [done|].
  simpl in Hs. apply andb_true_iff in Hs as [Hc Hs]. apply negb_true_iff in Hc.
  simpl. by rewrite Hc, (IH Hs).
Qed.

Lemma split_app sep (a b : string) :
  Str.lacks sep a = true →
  Str.split sep (a ++ String sep b) = a :: Str.split sep b.
Proof.
  induction a as [|c a IH]; intros Ha.
  - simpl. by rewrite Ascii.eqb_refl.
  - simpl in Ha. apply andb_true_iff in Ha as [Hc Ha]. apply negb_true_iff in Hc.
    simpl. by rewrite Hc, (IH Ha).
Qed.

Lemma split_not_nil sep (s : string) : Str.split sep s ≠ [].
Proof.
  induction s as [|c s IH]; [done|]. simpl.
  destruct (Ascii.eqb c sep); [done|]. by destruct (Str.split sep s).
Qed.

Lemma split_pieces sep (s : string) :
  Forall (λ piece, Str.lacks sep piece = true) (Str.split sep s).
Proof.
  induction s as [|c s IH]; [by repeat constructor|]. simpl.
  destruct (Ascii.eqb c sep) eqn:Hc; [by constructor|].
  destruct (Str.split sep s) as [|p ps]; [repeat constructor; simpl; by rewrite Hc|].
  apply Forall_cons in IH as [Hp Hps]. constructor; [|done]. simpl. by rewrite Hc.
Qed.

(** The two names of a pair, read off the split of the pair. *)
Lemma process_pair_names diffonly hmcs pair l1 l2 rest w :
  Str.split ":" pair = l1 :: l2 :: rest →
  process_pair diffonly hmcs pair w =
    (found ← scan hmcs l1 l2 PyNone PyNone;
     Script.check_data l1 l2 found.1 found.2;;
     d1 ← lift (Script.keys_owner found.1);
     d2 ← lift (Script.keys_owner found.2);
     lift (Diff.compare diffonly (Diff.Records d1 d2)).1) w.
Proof. intros Hsplit. unfold Script.process_pair. by rewrite Hsplit. Qed.

(** X24.  A pair without a colon raises [IndexError] at the second name, before
    any host is contacted. *)
Theorem pair_without_colon_raises
    (diffonly : bool) (hmcs : list string) (pair : string) (w : world) :
  Str.lacks ":" pair = true →
  process_pair diffonly hmcs pair w = (Raise IndexError, w).
Proof.
  intros Hpair. unfold Script.process_pair. by rewrite (split_lacks _ _ Hpair).
Qed.

(** X25.  Only the text before the first colon and the text between the first
    and the second colon of a pair are used: what follows a second colon
    has no effect. *)
Theorem text_after_a_second_colon_is_ignored
    (diffonly : bool) (hmcs : list string) (l1 l2 junk : string) (w : world) :
  Str.lacks ":" l1 = true → Str.lacks ":" l2 = true →
  process_pair diffonly hmcs (l1 ++ ":" ++ l2 ++ ":" ++ junk) w
  = process_pair diffonly hmcs (l1 ++ ":" ++ l2) w.
Proof.
  intros H1 H2.
  rewrite (process_pair_names diffonly hmcs _ l1 l2 (Str.split ":" junk)).
  - symmetry. apply (process_pair_names diffonly hmcs _ l1 l2 []).
    change (l1 ++ ":" ++ l2) with (l1 ++ String ":" l2).
    by rewrite (split_app _ _ _ H1), (split_lacks _ _ H2).
  - change (l1 ++ ":" ++ l2 ++ ":" ++ junk) with (l1 ++ String ":" (l2 ++ String ":" junk)).
    by rewrite (split_app _ _ _ H1), (split_app _ _ _ H2).
Qed.


Lemma resolve_origin hmcs lpar (v : pyval) (d : dict) :
  resolve hmcs lpar v = PyDict d →
  v = PyDict d ∨ ∃ h, h ∈ hmcs ∧ found_on h lpar = Ok (PyDict d).
Proof.
  revert v. induction hmcs as [|h hs IH]; intros v Hres; [by left|].
  rewrite resolve_cons in Hres. apply IH in Hres as [Hv|(h' & Hh' & Hf)].
  - destruct (is_dict v); [by left|]. right. exists h. split; [by left|].
    unfold Run.found_value in Hv. by destruct (Run.found_on _ _ _ _ _ _ _) as [?| |]; subst.
  - right. exists h'. split; [by right|done].
Qed.

Lemma found_on_keys h lpar (d : dict) k :
  found_on h lpar = Ok (PyDict d) → k ∈ dom d → from_enabled_group cfg k.
Proof.
  unfold Run.found_on, Run.fetch. intros Hf.
  apply (get_lpar_config_keys cfg fromstring net 0 lpar
           (Run.session_world cfg h (Run.host_token fromstring net hmc_user hmc_pass h))).
  by destruct (get_lpar_config _ _ _ _ _ _).
Qed.

(** X27.  A pair for which the host loop ends with two records: the comparison
    of fetched records cannot fail.  The script returns the table, which
    has one row for each key of either record; no line is printed with
    [console.print] before the table. *)
Theorem fetched_pair_gives_a_full_table
    (hmcs : list string) (pair l1 l2 : string) (rest : list string)
    (d1 d2 : dict) (w : world) :
  Str.split ":" pair = l1 :: l2 :: rest →
  (∀ h, h ∈ hmcs → host_ok h ∧ fetch_returns l1 l2 h) →
  resolve hmcs l1 PyNone = PyDict d1 →
  resolve hmcs l2 PyNone = PyDict d2 →
  ∃ keyed w',
    process_pair false hmcs pair w = (Ok (map snd keyed), w')
    ∧ (compare_keyed false (Records d1 d2)).1 = Ok keyed
    ∧ map fst keyed ≡ₚ elements (dom d1 ∪ dom d2)
    ∧ console w' = console w.
Proof.
  intros Hsplit Hhs Hr1 Hr2.
  rewrite (process_pair_names _ _ _ _ _ _ _ Hsplit).
  destruct (scan_run cfg fromstring net hmc_user hmc_pass hmcs l1 l2 Hhs
              PyNone PyNone w) as (w1 & Hrun & _ & Hcon).
  rewrite (bind_ok _ _ _ _ _ Hrun), Hr1, Hr2. cbn [fst snd].
  destruct (compare_keyed_covers_fetched_records cfg d1 d2) as (keyed & Hkeyed & Hperm).
  - intros k Hk. apply resolve_origin in Hr1 as [?|(h & _ & Hf)]; [done|].
    by eapply found_on_keys.
  - intros k Hk. apply resolve_origin in Hr2 as [?|(h & _ & Hf)]; [done|].
    by eapply found_on_keys.
  - exists keyed, w1. split; [|done].
    assert ((compare false (Records d1 d2)).1 = Ok (map snd keyed)) as Hcmp.
    { unfold compare. destruct (compare_keyed false _) as [t st'].
      cbn [fst] in *. by subst t. }
    rewrite (bind_ok _ _ _ _ _ (eq_refl : Script.check_data l1 l2 (PyDict d1) (PyDict d2) w1
                                          = (Ok tt, w1))).
    rewrite (bind_ok _ _ _ _ _ (eq_refl : lift (Script.keys_owner (PyDict d1)) w1
                                          = (Ok d1, w1))).
    rewrite (bind_ok _ _ _ _ _ (eq_refl : lift (Script.keys_owner (PyDict d2)) w1
                                          = (Ok d2, w1))).
    unfold lift. by rewrite Hcmp.
Qed.

End pair.

Section startup.

Import Hmc Startup.

(** X28.  The hosts of a run.  When [choose_hmcs] returns, nothing was printed,
    the list is not empty, and it is the configured list unless the
    [--hmcs] option was given with a text: then it is the colon-separated
    pieces of that text, whatever the configuration file lists.  An empty
    option text counts as no option. *)
Theorem chosen_hosts_are_never_an_empty_list
    (configured : list string) (option_hmcs : option string)
    (hmcs : list string) (w w' : world) :
  choose_hmcs configured option_hmcs w = (Ok hmcs, w') →
  w' = w ∧ hmcs ≠ []
  ∧ match option_hmcs with
    | Some (String c s) =>
        hmcs = Str.split ":" (String c s)
        ∧ Forall (λ h, Str.lacks ":" h = true) hmcs
    | _ => hmcs = configured
    end.
Proof.
  unfold choose_hmcs. intros Hrun.
  assert (∀ l : list string,
            match l with
            | [] => console_print (newline ++ "[red]Error: No HMCs have been configured.[/red]"
                                   ++ newline);; sys_exit None
            | _ => mret l
            end w = (Ok hmcs, w') → w' = w ∧ hmcs = l ∧ l ≠ []) as Hsel.
  { intros [|h l] H; [done|]. by injection H as <- <-. }
  apply Hsel in Hrun as (-> & -> & Hne). split; [done|]. split; [done|].
  destruct option_hmcs as [[|c s]|]; try done. split; [done|]. apply split_pieces.
Qed.

(** X29.  Without hosts the script prints the error and ends by [sys.exit()]
    without a code, that is with exit status 0; this happens exactly when
    the configured list is empty and the option gives no text. *)
Theorem no_hosts_ends_the_script_with_status_0
    (configured : list string) (option_hmcs : option string) (w : world) :
  (∃ w', choose_hmcs configured option_hmcs w = (Exit None, w')
         ∧ console w' =
             (console w ++ [(newline ++ "[red]Error: No HMCs have been configured.[/red]"
                             ++ newline)%string])%list)
  ↔ configured = [] ∧ (option_hmcs = None ∨ option_hmcs = Some EmptyString).
Proof.
  unfold choose_hmcs. split.
  - intros (w' & Hrun & _).
    destruct option_hmcs as [[|c s]|].
    + destruct configured; [auto|done].
    + pose proof (split_not_nil ":" (String c s)) as Hne.
      by destruct (Str.split ":" (String c s)).
    + destruct configured; [auto|done].
  - intros [-> [-> | ->]]; by eexists.
Qed.

End startup.

Section logon_body.

Import Hmc.

Lemma escape_lacks (c : ascii) (s : string) :
  c = "<"%char ∨ c = ">"%char → Str.lacks c (Str.escape s) = true.
Proof.
  intros Hc. induction s as [|a s IH]; [done|].
  change (Str.escape (String a s)) with
    ((if Ascii.eqb a "&" then "&amp;"
      else if Ascii.eqb a ">" then "&gt;"
      else if Ascii.eqb a "<" then "&lt;"
      else String a EmptyString) ++ Str.escape s).
  destruct (Ascii.eqb a "&") eqn:E1; [by destruct Hc as [-> | ->]|].
  destruct (Ascii.eqb a ">") eqn:E2; [by destruct Hc as [-> | ->]|].
  destruct (Ascii.eqb a "<") eqn:E3; [by destruct Hc as [-> | ->]|].
  destruct Hc as [-> | ->]; simpl; by rewrite ?E2, ?E3.
Qed.

Lemma escape_plain (s : string) :
  Str.lacks "&" s = true → Str.lacks "<" s = true → Str.lacks ">" s = true →
  Str.escape s = s.
Proof.
  induction s as [|a s IH]; [done|]. simpl.
  intros [H1 H1']%andb_true_iff [H2 H2']%andb_true_iff [H3 H3']%andb_true_iff.
  apply negb_true_iff in H1, H2, H3. rewrite H1, H2, H3. simpl. by rewrite IH.
Qed.

(** X30.  The body of the logon request is the fixed template around the two
    credentials after escaping: the user and password parts contain no
    [<] and no [>], so they cannot close or open an element of the
    template; credentials without [&], [<] and [>] are sent unchanged. *)
Theorem logon_body_keeps_the_credentials_inside_their_elements
    (hmc user passwd : string) :
  ∃ u p,
    Requests.data (logon_request hmc user passwd) = Some (logon_payload u p)
    ∧ Str.lacks "<" u = true ∧ Str.lacks ">" u = true
    ∧ Str.lacks "<" p = true ∧ Str.lacks ">" p = true
    ∧ (Str.lacks "&" user = true → Str.lacks "<" user = true →
       Str.lacks ">" user = true → u = user)
    ∧ (Str.lacks "&" passwd = true → Str.lacks "<" passwd = true →
       Str.lacks ">" passwd = true → p = passwd).
Proof.
  exists (Str.escape user), (Str.escape passwd). split; [done|].
  repeat split; try (apply escape_lacks; auto); apply escape_plain.
Qed.

End logon_body.

(** * The further properties on the worked example *)

Section further_witnesses.

Import Hmc Diff.

(** The table of prod01 against dr01 has one row for each of the six keys. *)
Lemma table_rows_are_the_grouped_keys_witness :
  NoDup (map fst Cases.table)
  ∧ ∀ k, k ∈ map fst Cases.table ↔
      k ∈ allkeys (Records Demo.prod01 Demo.dr01)
      ∧ ∃ primarykey, primarykey ∈ primarykeys ∧ Str.startswith k primarykey = true.
Proof.
  apply (table_rows_are_the_grouped_keys (Records Demo.prod01 Demo.dr01) Cases.table).
  vm_compute. reflexivity.
Defined.

(** The general rows come first, then the network rows, each group in
    ascending order. *)
Lemma table_rows_are_grouped_then_sorted_witness :
  map fst Cases.table =
    flat_map (λ primarykey,
                filter (λ k, Str.startswith k primarykey = true)
                  (sorted (allkeys (Records Demo.prod01 Demo.dr01))))
      primarykeys
  ∧ ∀ primarykey,
      StronglySorted String.le
        (filter (λ k, Str.startswith k primarykey = true)
           (sorted (allkeys (Records Demo.prod01 Demo.dr01)))).
Proof.
  apply (table_rows_are_grouped_then_sorted (Records Demo.prod01 Demo.dr01) Cases.table).
  vm_compute. reflexivity.
Defined.

(** The row of the VLAN of the adapter of prod01. *)
Lemma table_row_cells_witness :
  let st := Records Demo.prod01 Demo.dr01 in
  let k := "Network_VirtualEthAdapter_0_PortVLANID" in
  let r := Row "VirtualEthAdapter_0_PortVLANID" "[red]1[/red]" "[red]missing[/red]" in
  ∃ primarykey name v1 v2,
    primarykey ∈ primarykeys
    ∧ Str.startswith k primarykey = true
    ∧ k_printname primarykey k = Ok name
    ∧ lpar1_data (pad_missing st) !! k = Some v1
    ∧ lpar2_data (pad_missing st) !! k = Some v2
    ∧ r = Row name (markup (if bool_decide (v1 = v2) then "green" else "red") v1)
                   (markup (if bool_decide (v1 = v2) then "green" else "red") v2)
    ∧ matched r = bool_decide (v1 = v2).
Proof.
  apply (table_row_cells (Records Demo.prod01 Demo.dr01) Cases.table).
  - vm_compute. reflexivity.
  - do 3 apply list_elem_of_further. apply list_elem_of_here.
Defined.

(** A record whose only key is [General]. *)
Lemma key_without_underscore_raises_witness :
  (compare true (Records Cases.odd_record ∅)).1 = Raise IndexError.
Proof.
  apply (key_without_underscore_raises true (Records Cases.odd_record ∅)
           "General" "General").
  - apply (bool_decide_unpack _). vm_compute. exact I.
  - apply list_elem_of_here.
  - reflexivity.
  - reflexivity.
Defined.

(** The keys of prod01 and dr01 walked in another order. *)
Lemma padding_is_independent_of_the_iteration_order_witness :
  pad_loop Cases.shuffled_keys (Records Demo.prod01 Demo.dr01)
  = pad_missing (Records Demo.prod01 Demo.dr01).
Proof.
  apply (padding_is_independent_of_the_iteration_order Cases.shuffled_keys
           (Records Demo.prod01 Demo.dr01)).
  intros k.
  replace (allkeys (Records Demo.prod01 Demo.dr01))
    with (list_to_set (C := gset string) Cases.shuffled_keys)
    by (vm_compute; reflexivity).
  by rewrite elem_of_list_to_set.
Defined.

(** dr01 against itself. *)
Lemma identical_records_show_no_difference_witness :
  (compare false (Records Demo.dr01 Demo.dr01)).2 = Records Demo.dr01 Demo.dr01
  ∧ Forall (λ r, matched r = true) Cases.table_of_dr01
  ∧ (compare true (Records Demo.dr01 Demo.dr01)).1 = Ok [].
Proof.
  apply (identical_records_show_no_difference Demo.dr01 Cases.table_of_dr01).
  vm_compute. reflexivity.
Defined.

(** A second logon on the open session of the example. *)
Lemma logon_when_connected_halts_witness :
  logon Demo.fromstring Demo.net 0 "hmc02" Demo.hmc_user Demo.hmc_pass Cases.on_hmc01 =
    (Exit (Some 42),
     World (objects Cases.on_hmc01) (requests Cases.on_hmc01)
       (console Cases.on_hmc01
          ++ ["[red]Attempt to logon when already logged on. Halting![/red]"])
       (atexit Cases.on_hmc01)).
Proof.
  apply (logon_when_connected_halts Demo.fromstring Demo.net Cases.on_hmc01 0
           (Obj "hmc01" (Some "token-hmc01") false false true)); reflexivity.
Defined.

(** The first host of the example accepts the logon; the password has
    its two angle brackets escaped in the body. *)
Lemma logon_accepted_stores_the_token_witness :
  ∃ w', logon Demo.fromstring Demo.net 0 "hmc01" Demo.hmc_user Demo.hmc_pass Cases.fresh
          = (Ok tt, w')
        ∧ objects w' =
            <[0%nat := Obj "hmc01" (Some "token-hmc01") false false true]>
              (objects Cases.fresh)
        ∧ requests w' =
            (requests Cases.fresh
             ++ [Requests.Request Requests.PUT (logon_url "hmc01")
                   [("Content-Type",
                     Some "application/vnd.ibm.powervm.web+xml; type=LogonRequest")]
                   (Some (logon_payload (Str.escape Demo.hmc_user)
                            (Str.escape Demo.hmc_pass)))])%list
        ∧ atexit w' = atexit Cases.fresh.
Proof.
  apply (logon_accepted_stores_the_token Demo.fromstring Demo.net Cases.fresh 0
           (Obj EmptyString (Some EmptyString) false false false)
           "hmc01" Demo.hmc_user Demo.hmc_pass
           (Demo.logon_doc "token-hmc01")
           (ET.Elem
              "{http://www.ibm.com/xmlns/systems/power/firmware/web/mc/2012_10/}X-API-Session"
              ∅ (Some "token-hmc01") [])); reflexivity.
Defined.

(** The first host accepts the logon, but its answer does not parse. *)
Lemma logon_with_unusable_answer_raises_witness :
  ∃ e w', (e = ParseError ∨ e = IndexError)
          ∧ logon Cases.no_parse Demo.net 0 "hmc01" Demo.hmc_user Demo.hmc_pass Cases.fresh
            = (Raise e, w')
          ∧ objects w' =
              <[0%nat := Obj "hmc01" (Some EmptyString) false false false]>
                (objects Cases.fresh)
          ∧ requests w' =
              (requests Cases.fresh
               ++ [logon_request "hmc01" Demo.hmc_user Demo.hmc_pass])%list.
Proof.
  apply (logon_with_unusable_answer_raises Cases.no_parse Demo.net Cases.fresh 0
           (Obj EmptyString (Some EmptyString) false false false)
           "hmc01" Demo.hmc_user Demo.hmc_pass); first [reflexivity | exact I].
Defined.


(** [cleanup] on the closed session of the example sends nothing. *)
Lemma cleanup_sends_at_most_one_request_witness :
  cleanup Demo.net 0 Demo.closed_session =
    (Ok tt,
     World (objects Demo.closed_session)
       (requests Demo.closed_session ++ []) (console Demo.closed_session)
       (atexit Demo.closed_session)).
Proof.
  apply (cleanup_sends_at_most_one_request Demo.net Demo.closed_session 0
           (Obj "hmc01" (Some "token-hmc01") false false false)).
  reflexivity.
Defined.

(** prod01 is not managed by the first host: status 204, code 1. *)
Lemma search_status_decides_the_return_code_witness :
  ∃ w', get_lpar_config Demo.cfg Demo.fromstring Demo.net 0 "prod01" Cases.on_hmc01 =
          (Ok (PyInt 1), w')
        ∧ objects w' = objects Cases.on_hmc01
        ∧ requests w' =
            (requests Cases.on_hmc01
             ++ [search_request "hmc01" (Some "token-hmc01") "prod01"])%list.
Proof.
  apply (search_status_decides_the_return_code Demo.cfg Demo.fromstring Demo.net
           Cases.on_hmc01 0 (Obj "hmc01" (Some "token-hmc01") false false true) "prod01");
    try reflexivity.
  vm_compute. discriminate.
Defined.

(** A search answer that holds the partition and nothing else. *)
Lemma partition_without_profile_returns_3_witness :
  ∃ w', get_lpar_config Demo.cfg Cases.bare_partition Demo.net 0 "prod01" Cases.on_hmc02 =
          (Ok (PyInt 3), w')
        ∧ objects w' = objects Cases.on_hmc02
        ∧ requests w' =
            (requests Cases.on_hmc02
             ++ [search_request "hmc02" (Some "token-hmc02") "prod01"])%list.
Proof.
  apply (partition_without_profile_returns_3 Demo.cfg Cases.bare_partition Demo.net
           Cases.on_hmc02 0 (Obj "hmc02" (Some "token-hmc02") false false true) "prod01"
           (Demo.node "LogicalPartition" [])); reflexivity.
Defined.


(** The fetch of prod01 on the second host. *)
Lemma get_lpar_config_only_reads_witness :
  ∃ r w' l,
    get_lpar_config Demo.cfg Demo.fromstring Demo.net 0 "prod01" Cases.on_hmc02 = (r, w')
    ∧ (∀ c, r ≠ Exit c)
    ∧ objects w' = objects Cases.on_hmc02 ∧ atexit w' = atexit Cases.on_hmc02
    ∧ requests w' =
        (requests Cases.on_hmc02
         ++ search_request "hmc02" (Some "token-hmc02") "prod01" :: l)%list
    ∧ (length l ≤ 1)%nat
    ∧ Forall (λ q, Requests.method q = Requests.GET
                   ∧ ("X-API-Session", Some "token-hmc02") ∈ Requests.headers q)
        (search_request "hmc02" (Some "token-hmc02") "prod01" :: l).
Proof.
  apply (get_lpar_config_only_reads Demo.cfg Demo.fromstring Demo.net
           Cases.on_hmc02 0 (Obj "hmc02" (Some "token-hmc02") false false true) "prod01");
    reflexivity.
Defined.

(** The record of prod01: the general fields of the two documents. *)
Lemma fetched_record_holds_the_fixed_fields_witness :
  ∃ x1 x2,
    Docs.search_answer Demo.fromstring Demo.net "hmc02" (Some "token-hmc02") "prod01"
      = Some x1
    ∧ Docs.profile_answer Demo.fromstring Demo.net "hmc02" (Some "token-hmc02") "prod01"
      = Some x2
    ∧ (Cfg.compare_general Demo.cfg = true →
       (∀ attrib, attrib ∈ attribs_general_general →
                  Demo.prod01 !! ("General_" ++ attrib) = Some (field_text attrib x1))
       ∧ Demo.prod01 !! "General_ProfileName" = Some (field_text "ProfileName" x2))
    ∧ (Cfg.compare_processors Demo.cfg = true →
       ∀ attrib, attrib ∈ attribs_default_processor →
                 Demo.prod01 !! ("Processor_" ++ attrib) = Some (field_text attrib x2))
    ∧ (Cfg.compare_memory Demo.cfg = true →
       ∀ attrib, attrib ∈ attribs_default_memory →
                 Demo.prod01 !! ("Memory_" ++ attrib) = Some (field_text attrib x2)).
Proof.
  apply (fetched_record_holds_the_fixed_fields Demo.cfg Demo.fromstring Demo.net
           Cases.on_hmc02
           (get_lpar_config Demo.cfg Demo.fromstring Demo.net 0 "prod01" Cases.on_hmc02).2
           0 (Obj "hmc02" (Some "token-hmc02") false false true) "prod01" Demo.prod01);
    first [reflexivity | vm_compute; reflexivity].
Defined.

(** The record of prod01: its one network adapter. *)
Lemma fetched_record_holds_the_adapters_witness :
  ∃ x2,
    Docs.profile_answer Demo.fromstring Demo.net "hmc02" (Some "token-hmc02") "prod01"
      = Some x2
    ∧ (Cfg.compare_networking Demo.cfg = true →
       adapters_recorded "Network_VirtualEthAdapter_" "ProfileClientNetworkAdapter"
         attribs_default_veth x2 Demo.prod01)
    ∧ (Cfg.compare_virtual_fc Demo.cfg = true →
       adapters_recorded "vFC_VirtualFcAdapter_" "ProfileVirtualFibreChannelClientAdapter"
         attribs_default_vfc x2 Demo.prod01)
    ∧ (Cfg.compare_virtual_scsi Demo.cfg = true →
       adapters_recorded "vSCSI_VirtualScsiAdapter_" "ProfileVirtualSCSIClientAdapter"
         attribs_default_vscsi x2 Demo.prod01).
Proof.
  apply (fetched_record_holds_the_adapters Demo.cfg Demo.fromstring Demo.net
           Cases.on_hmc02
           (get_lpar_config Demo.cfg Demo.fromstring Demo.net 0 "prod01" Cases.on_hmc02).2
           0 (Obj "hmc02" (Some "token-hmc02") false false true) "prod01" Demo.prod01);
    first [reflexivity | vm_compute; reflexivity].
Defined.

#[local] Abbreviation demo_scan :=
  (Script.scan Demo.cfg Demo.fromstring Demo.net Demo.hmc_user Demo.hmc_pass).
#[local] Abbreviation demo_pair :=
  (Script.process_pair Demo.cfg Demo.fromstring Demo.net Demo.hmc_user Demo.hmc_pass).

Lemma demo_hosts h :
  h ∈ ["hmc01"; "hmc02"] →
  Run.host_ok Demo.fromstring Demo.net Demo.hmc_user Demo.hmc_pass h
  ∧ (h = "hmc01" ∨ h = "hmc02").
Proof.
  intros Hh. apply elem_of_cons in Hh as [->|Hh];
    [|apply elem_of_cons in Hh as [->|Hh]; [|by apply not_elem_of_nil in Hh]].
  - split; [apply demo_host_ok|]; by left.
  - split; [apply demo_host_ok|]; by right.
Qed.

(** Both records are found on the first two hosts; the third host, which
    would refuse the logon, is not contacted. *)
Lemma hosts_after_both_records_are_not_contacted_witness :
  demo_scan (["hmc01"; "hmc02"] ++ ["hmc03"])%list "prod01" "dr01" PyNone PyNone Demo.start
  = (Ok (PyDict Demo.prod01, PyDict Demo.dr01),
     (demo_scan ["hmc01"; "hmc02"] "prod01" "dr01" PyNone PyNone Demo.start).2).
Proof.
  apply (hosts_after_both_records_are_not_contacted Demo.cfg Demo.fromstring Demo.net
           Demo.hmc_user Demo.hmc_pass ["hmc01"; "hmc02"] ["hmc03"] "prod01" "dr01"
           PyNone PyNone Demo.prod01 Demo.dr01 Demo.start).
  vm_compute. reflexivity.
Defined.

(** The third host refuses the logon: the first two are not tried. *)
Lemma rejected_logon_ends_the_host_loop_witness :
  ∃ w', demo_scan ("hmc03" :: ["hmc01"; "hmc02"]) "prod01" "dr01" PyNone PyNone Demo.start
        = (Exit (Some 401), w')
        ∧ requests w' =
            (requests Demo.start ++ [logon_request "hmc03" Demo.hmc_user Demo.hmc_pass])%list
        ∧ console w' = (console Demo.start ++ ["[red]Error: HMC logon failed[/red]"])%list
        ∧ atexit w' = atexit Demo.start.
Proof.
  apply (rejected_logon_ends_the_host_loop Demo.cfg Demo.fromstring Demo.net
           Demo.hmc_user Demo.hmc_pass "hmc03" ["hmc01"; "hmc02"] "prod01" "dr01"
           PyNone PyNone Demo.start).
  - reflexivity.
  - vm_compute. discriminate.
Defined.

(** The run over the two hosts of the example. *)
Lemma clean_run_leaves_nothing_to_the_exit_handlers_witness :
  Script.run Demo.net (demo_scan ["hmc01"; "hmc02"] "prod01" "dr01" PyNone PyNone) Demo.start
  = demo_scan ["hmc01"; "hmc02"] "prod01" "dr01" PyNone PyNone Demo.start
  ∧ ∃ w', Script.run Demo.net
            (demo_scan ["hmc01"; "hmc02"] "prod01" "dr01" PyNone PyNone) Demo.start
          = (Ok (Run.resolve Demo.cfg Demo.fromstring Demo.net Demo.hmc_user Demo.hmc_pass
                   ["hmc01"; "hmc02"] "prod01" PyNone,
                 Run.resolve Demo.cfg Demo.fromstring Demo.net Demo.hmc_user Demo.hmc_pass
                   ["hmc01"; "hmc02"] "dr01" PyNone), w')
          ∧ requests w' =
              (requests Demo.start
               ++ Run.scan_log Demo.cfg Demo.fromstring Demo.net Demo.hmc_user Demo.hmc_pass
                    ["hmc01"; "hmc02"] "prod01" "dr01" PyNone PyNone)%list
          ∧ Forall (λ o, connected o = false)
              (drop (length (objects Demo.start)) (objects w')).
Proof.
  apply (clean_run_leaves_nothing_to_the_exit_handlers Demo.cfg Demo.fromstring Demo.net
           Demo.hmc_user Demo.hmc_pass ["hmc01"; "hmc02"] "prod01" "dr01"
           PyNone PyNone Demo.start).
  - intros h Hh. destruct (demo_hosts h Hh) as [Hok [-> | ->]];
      (split; [exact Hok|]); split; eexists; vm_compute; reflexivity.
  - constructor.
Defined.

(** The profile of dev01 has an adapter without VLAN: the fetch raises,
    and the session on the first host is released at exit. *)
Lemma crash_in_a_fetch_is_followed_by_the_logoff_request_witness :
  ∃ w', Script.run Demo.net
          (demo_scan ("hmc01" :: ["hmc02"]) "dev01" "dr01" PyNone PyNone) Demo.start
        = (Raise AttributeError, w')
        ∧ requests w' =
            (requests Demo.start ++ [logon_request "hmc01" Demo.hmc_user Demo.hmc_pass]
               ++ Run.fetch_log Demo.cfg Demo.fromstring Demo.net Demo.hmc_user
                    Demo.hmc_pass "hmc01" "dev01"
               ++ [logoff_request "hmc01"
                     (Run.host_token Demo.fromstring Demo.net Demo.hmc_user Demo.hmc_pass
                        "hmc01")])%list
        ∧ objects w' =
            (objects Demo.start
             ++ [Run.opened Demo.cfg Demo.fromstring Demo.net Demo.hmc_user Demo.hmc_pass
                   "hmc01"])%list.
Proof.
  apply (crash_in_a_fetch_is_followed_by_the_logoff_request Demo.cfg Demo.fromstring
           Demo.net Demo.hmc_user Demo.hmc_pass "hmc01" ["hmc02"] "dev01" "dr01"
           PyNone AttributeError Demo.start).
  - apply demo_host_ok. by left.
  - reflexivity.
  - vm_compute. reflexivity.
Defined.

(** A pair given as one name. *)
Lemma pair_without_colon_raises_witness :
  demo_pair false ["hmc01"; "hmc02"] "prod01" Demo.start = (Raise IndexError, Demo.start).
Proof.
  apply (pair_without_colon_raises Demo.cfg Demo.fromstring Demo.net Demo.hmc_user
           Demo.hmc_pass false ["hmc01"; "hmc02"] "prod01" Demo.start).
  reflexivity.
Defined.

(** A pair with a third name. *)
Lemma text_after_a_second_colon_is_ignored_witness :
  demo_pair false ["hmc01"; "hmc02"] ("prod01" ++ ":" ++ "dr01" ++ ":" ++ "test01") Demo.start
  = demo_pair false ["hmc01"; "hmc02"] ("prod01" ++ ":" ++ "dr01") Demo.start.
Proof.
  apply (text_after_a_second_colon_is_ignored Demo.cfg Demo.fromstring Demo.net
           Demo.hmc_user Demo.hmc_pass false ["hmc01"; "hmc02"] "prod01" "dr01" "test01"
           Demo.start); reflexivity.
Defined.


(** prod01 against dr01, from the two hosts. *)
Lemma fetched_pair_gives_a_full_table_witness :
  ∃ keyed w',
    demo_pair false ["hmc01"; "hmc02"] "prod01:dr01" Demo.start = (Ok (map snd keyed), w')
    ∧ (compare_keyed false (Records Demo.prod01 Demo.dr01)).1 = Ok keyed
    ∧ map fst keyed ≡ₚ elements (dom Demo.prod01 ∪ dom Demo.dr01)
    ∧ console w' = console Demo.start.
Proof.
  apply (fetched_pair_gives_a_full_table Demo.cfg Demo.fromstring Demo.net
           Demo.hmc_user Demo.hmc_pass ["hmc01"; "hmc02"] "prod01:dr01"
           "prod01" "dr01" [] Demo.prod01 Demo.dr01 Demo.start).
  - reflexivity.
  - intros h Hh. destruct (demo_hosts h Hh) as [Hok [-> | ->]];
      (split; [exact Hok|]); split; eexists; vm_compute; reflexivity.
  - vm_compute. reflexivity.
  - vm_compute. reflexivity.
Defined.

(** The option names two hosts, the configuration file another one. *)
Lemma chosen_hosts_are_never_an_empty_list_witness :
  Demo.start = Demo.start ∧ ["hmc02"; "hmc03"] ≠ []
  ∧ ["hmc02"; "hmc03"] = Str.split ":" "hmc02:hmc03"
  ∧ Forall (λ h, Str.lacks ":" h = true) ["hmc02"; "hmc03"].
Proof.
  apply (chosen_hosts_are_never_an_empty_list ["hmc01"] (Some "hmc02:hmc03")
           ["hmc02"; "hmc03"] Demo.start Demo.start).
  reflexivity.
Defined.

End further_witnesses.
